(** * Feature vectorisation of claim records: the three preprocessors

    A shallow embedding of the JavaScript sources of the repository:

    - [V1], [V1E]: the first [preprocess.js] (encode and scale, no
      normalisation);
    - [V2], [V2E]: the second [preprocess.js] ("preprocess v2": normalise,
      encode, scale), the module [server.js] imports;
    - [V3], [V3E]: [transformer.js] ([buildVector], with its sanity guard).

    The embedding keeps JavaScript's data as the code sees it.  Numbers are
    IEEE 754 binary64 values ([spec_float] with precision 53 and maximal
    exponent 1024, so [NaN], the infinities, the two zeros, overflow and
    rounding are those of the engine).  Strings are sequences of code units
    below 256.  Values are what [JSON.parse] produces, plus [undefined] and
    the functions every object inherits from [Object.prototype]; a member
    of an object is never a function of its own.  A thrown exception is a
    [Throw] result.

    [String(v)] and [Number(v)] throw a [TypeError] on an object that has a
    member named [toString] of its own.  [V1], [V2] and [V3] are the
    sources as functions of the values these conversions return
    ([ToString], [ToNumber]); [V1E], [V2E] and [V3E] are the sources with
    the exception ([String_of], [Number_of]).  The latter return exactly
    what the former compute, when they return. *)

From Stdlib Require Import ZArith List String Ascii Bool Lia.
From Stdlib Require Import Floats.SpecFloat DecimalString.
From stdpp Require Import base list.

Import ListNotations.
Local Set Warnings "-register-all".
Local Open Scope string_scope.
Local Open Scope Z_scope.

(** ** Results of code that may throw *)

Inductive exn : Type :=
  | Error (msg : string)
  | TypeError (msg : string).

Inductive result (A : Type) : Type :=
  | Ok (a : A)
  | Throw (e : exn).

Arguments Ok {A} a.
Arguments Throw {A} e.

Definition rbind {A B} (r : result A) (k : A -> result B) : result B :=
  match r with
  | Ok a => k a
  | Throw e => Throw e
  end.

Notation "'let!' x ':=' r 'in' k" := (rbind r (fun x => k))
  (at level 10, x name, r at level 200, k at level 200).

(** [rows.map(f)] where [f] may throw: the first exception aborts the whole
    map, and no array is produced. *)
Fixpoint map_throw {A B} (f : A -> result B) (l : list A) : result (list B) :=
  match l with
  | [] => Ok []
  | x :: r =>
      let! y := f x in
      let! ys := map_throw f r in
      Ok (y :: ys)
  end.

(** ** The JavaScript values and built-ins the sources use *)

Module Js.

(** *** Numbers *)

Definition number := spec_float.

Definition prec : Z := 53.
Definition emax : Z := 1024.

Definition NaN : number := S754_nan.
Definition Infinity : number := S754_infinity false.

(** The double nearest to an integer. *)
Definition of_Z (z : Z) : number := binary_normalize prec emax z 0 false.

Definition zero : number := S754_zero false.
Definition num_1 : number := Eval vm_compute in of_Z 1.
Definition num_12 : number := Eval vm_compute in of_Z 12.
Definition num_50 : number := Eval vm_compute in of_Z 50.
Definition num_10 : number := Eval vm_compute in of_Z 10.
Definition num_neg_10 : number := Eval vm_compute in of_Z (-10).
(** [0.5] and [1e308]. *)
Definition num_half : number := S754_finite false 4503599627370496 (-53).
Definition num_1e308 : number := S754_finite false 5010420900022432 971.

Definition sub (x y : number) : number := SFsub prec emax x y.
Definition div (x y : number) : number := SFdiv prec emax x y.

Definition isNaN (x : number) : bool :=
  match x with S754_nan => true | _ => false end.

(** [Number.isFinite] on a value already known to be a number. *)
Definition finite (x : number) : bool :=
  match x with
  | S754_zero _ | S754_finite _ _ _ => true
  | S754_infinity _ | S754_nan => false
  end.

(** [x === 0] for a number: both zeros are equal to [0]. *)
Definition is_zero (x : number) : bool :=
  match x with S754_zero _ => true | _ => false end.

(** [Math.abs] and [x > y] on numbers. *)
Definition abs (x : number) : number := SFabs x.
Definition gt (x y : number) : bool := SFltb y x.

(** [Math.max(1, x)]: [NaN] if [x] is, else the larger. *)
Definition max_1 (x : number) : number :=
  if isNaN x then NaN else if gt x num_1 then x else num_1.

(** The double nearest to [num / den] (ties to even), with sign [sx]: the
    quotient is taken with at least 64 significant bits and the position of
    the remainder, then rounded. *)
Definition round_ratio (sx : bool) (num den : positive) : number :=
  let k := Z.max 0 (64 + Zdigits2 (Zpos den) - Zdigits2 (Zpos num)) in
  let '(q, r) := Z.div_eucl (Z.shiftl (Zpos num) k) (Zpos den) in
  binary_round_aux prec emax sx q (- k) (new_location (Zpos den) r).

(** The double nearest to [m * 10 ^ e]. *)
Definition of_decimal (sx : bool) (m e : Z) : number :=
  match m with
  | Zpos p =>
      if 0 <=? e then round_ratio sx (p * Z.to_pos (10 ^ e)) 1
      else round_ratio sx p (Z.to_pos (10 ^ (- e)))
  | _ => S754_zero sx
  end.

(** *** Strings *)

Definition is_digit (c : ascii) : bool :=
  let n := nat_of_ascii c in (48 <=? n)%nat && (n <=? 57)%nat.

Definition is_upper (c : ascii) : bool :=
  let n := nat_of_ascii c in (65 <=? n)%nat && (n <=? 90)%nat.

Definition is_lower (c : ascii) : bool :=
  let n := nat_of_ascii c in (97 <=? n)%nat && (n <=? 122)%nat.

Definition is_letter (c : ascii) : bool := is_upper c || is_lower c.

(** The class [\w] of a regular expression. *)
Definition is_word (c : ascii) : bool :=
  is_letter c || is_digit c || (c =? "_")%char.

(** White space and line terminators among the code units below 256: tab,
    line feed, vertical tab, form feed, carriage return, space and the
    no-break space. *)
Definition is_space (c : ascii) : bool :=
  let n := nat_of_ascii c in
  ((9 <=? n)%nat && (n <=? 13)%nat) || (n =? 32)%nat || (n =? 160)%nat.

Fixpoint trim_start (s : string) : string :=
  match s with
  | String c r => if is_space c then trim_start r else s
  | EmptyString => EmptyString
  end.

(** Removes trailing white space: a character is kept when it is not white
    space or when something is kept after it. *)
Fixpoint trim_end (s : string) : string :=
  match s with
  | String c r =>
      match trim_end r with
      | EmptyString => if is_space c then EmptyString else String c EmptyString
      | r' => String c r'
      end
  | EmptyString => EmptyString
  end.

(** [String.prototype.trim]. *)
Definition str_trim (s : string) : string := trim_end (trim_start s).

Definition upper_char (c : ascii) : ascii :=
  if is_lower c then ascii_of_nat (nat_of_ascii c - 32) else c.

(** [String.prototype.toUpperCase], on the letters a to z.  The sources
    apply it to an extracted code or to the literal ["Unknown"] only. *)
Fixpoint toUpperCase (s : string) : string :=
  match s with
  | String c r => String (upper_char c) (toUpperCase r)
  | EmptyString => EmptyString
  end.

Fixpoint str_filter (p : ascii -> bool) (s : string) : string :=
  match s with
  | String c r => if p c then String c (str_filter p r) else str_filter p r
  | EmptyString => EmptyString
  end.

(** The longest prefix of characters satisfying [p], and the rest. *)
Fixpoint span (p : ascii -> bool) (s : string) : string * string :=
  match s with
  | String c r =>
      if p c then let '(a, b) := span p r in (String c a, b)
      else (EmptyString, s)
  | EmptyString => (EmptyString, EmptyString)
  end.

Definition str_eqb (a b : string) : bool := String.eqb a b.

Fixpoint str_forallb (p : ascii -> bool) (s : string) : bool :=
  match s with
  | String c r => p c && str_forallb p r
  | EmptyString => true
  end.

(** Whether the string starts with a character satisfying [p]. *)
Definition head_in (p : ascii -> bool) (s : string) : bool :=
  match s with
  | String c _ => p c
  | EmptyString => false
  end.

(** The first [n] characters, and what follows them. *)
Fixpoint str_take (n : nat) (s : string) : string :=
  match n, s with
  | S k, String c r => String c (str_take k r)
  | _, _ => EmptyString
  end.

Fixpoint str_drop (n : nat) (s : string) : string :=
  match n, s with
  | S k, String _ r => str_drop k r
  | _, _ => s
  end.

(** Whether the string ends with a character satisfying [p]. *)
Fixpoint last_in (p : ascii -> bool) (s : string) : bool :=
  match s with
  | String c EmptyString => p c
  | String _ r => last_in p r
  | EmptyString => false
  end.

(** *** Reading a number from a string: [Number(str)] *)

Definition digit_val (c : ascii) : Z :=
  let n := Z.of_nat (nat_of_ascii c) in
  if is_digit c then n - 48
  else if is_upper c then n - 55
  else if is_lower c then n - 87
  else 99.

Definition is_radix_digit (radix : Z) (c : ascii) : bool :=
  digit_val c <? radix.

Fixpoint digits_value (radix : Z) (acc : Z) (s : string) : Z :=
  match s with
  | String c r => digits_value radix (radix * acc + digit_val c) r
  | EmptyString => acc
  end.

(** [0x], [0o] and [0b] literals: digits of the radix, and nothing else. *)
Definition radix_literal (radix : Z) (s : string) : number :=
  match s with
  | EmptyString => NaN
  | _ =>
      let '(ds, rest) := span (is_radix_digit radix) s in
      match rest with
      | EmptyString => of_Z (digits_value radix 0 ds)
      | _ => NaN
      end
  end.

(** The exponent part, if any: [e] or [E], an optional sign, digits. *)
Definition exponent_part (s : string) : option Z :=
  match s with
  | EmptyString => Some 0
  | String c r =>
      if (c =? "e")%char || (c =? "E")%char then
        let '(neg, r') :=
          match r with
          | String "-" t => (true, t)
          | String "+" t => (false, t)
          | _ => (false, r)
          end in
        let '(ds, rest) := span is_digit r' in
        match ds, rest with
        | String _ _, EmptyString =>
            let e := digits_value 10 0 ds in
            Some (if neg then - e else e)
        | _, _ => None
        end
      else None
  end.

(** An unsigned decimal literal: [Infinity], or digits with an optional
    fraction and exponent, at least one digit before the exponent. *)
Definition unsigned_decimal (sx : bool) (s : string) : number :=
  if str_eqb s "Infinity" then S754_infinity sx
  else
    let '(ip, r1) := span is_digit s in
    let '(fp, r2) :=
      match r1 with
      | String "." t => span is_digit t
      | _ => (EmptyString, r1)
      end in
    match (ip ++ fp)%string with
    | EmptyString => NaN
    | ds =>
        match exponent_part r2 with
        | Some e => of_decimal sx (digits_value 10 0 ds) (e - Z.of_nat (String.length fp))
        | None => NaN
        end
    end.

(** [StringToNumber]: white space is trimmed; the empty string is [0];
    anything that is not a numeric literal is [NaN]. *)
Definition StringToNumber (s : string) : number :=
  match str_trim s with
  | EmptyString => zero
  | String "0" (String "x" t) | String "0" (String "X" t) => radix_literal 16 t
  | String "0" (String "o" t) | String "0" (String "O" t) => radix_literal 8 t
  | String "0" (String "b" t) | String "0" (String "B" t) => radix_literal 2 t
  | String "-" t => unsigned_decimal true t
  | String "+" t => unsigned_decimal false t
  | t => unsigned_decimal false t
  end.

(** *** Writing a number as a string: [String(x)] *)

Definition dec_string (z : Z) : string :=
  NilZero.string_of_uint (N.to_uint (Z.to_N z)).

Fixpoint zeros (n : nat) : string :=
  match n with
  | O => EmptyString
  | S k => String "0" (zeros k)
  end.

(** The least [j >= start] with [den <= num * 10 ^ j], searched upwards. *)
Fixpoint first_reach (fuel : nat) (num den j : Z) : Z :=
  match fuel with
  | O => j
  | S f => if den <=? num * 10 ^ j then j else first_reach f num den (j + 1)
  end.

(** The integer [n] with [10 ^ (n - 1) <= num / den < 10 ^ n]. *)
Definition dec_exponent (num den : Z) : Z :=
  if den <=? num then Z.of_nat (String.length (dec_string (num / den)))
  else 1 - first_reach (Z.to_nat (Z.log2 den) + 1) num den 1.

(** A decimal of [k] digits: the digits [s] and the exponent [n], for
    [s * 10 ^ (n - k)]; [10 ^ k] is [10 ^ (k - 1)] one exponent up. *)
Definition carry (k s n : Z) : Z * Z :=
  if s =? 10 ^ k then (10 ^ (k - 1), n + 1) else (s, n).

(** The decimals of [k] digits next to [num / den], below and above, and
    which of the two is nearer ([Lt]: the one below). *)
Definition neighbours (num den n k : Z) : (Z * Z) * (Z * Z) * comparison :=
  let a := if n <=? k then num * 10 ^ (k - n) else num in
  let b := if n <=? k then den else den * 10 ^ (n - k) in
  let lo := a / b in
  let hi := if a mod b =? 0 then lo else lo + 1 in
  (carry k lo n, carry k hi n, Z.compare (2 * (a mod b)) b).

(** The decimal reads back as [x]. *)
Definition reads_back (x : number) (k : Z) (d : Z * Z) : bool :=
  SFeqb (of_decimal false (fst d) (snd d - k)) x.

(** Of the two neighbours, the nearer, and the even one when they are as
    near. *)
Definition nearer (lo hi : Z * Z) (c : comparison) : Z * Z :=
  match c with
  | Lt => lo
  | Gt => hi
  | Eq => if Z.even (fst lo) then lo else hi
  end.

(** The shortest decimal that reads back as [x]: the least number of digits
    [k] for which a decimal of [k] digits does, and of the decimals of [k]
    digits that do, the nearest to [x].  The decimals of [k] digits that
    read back as [x] lie around [x], so one of its two neighbours is among
    them when there is any. *)
Fixpoint shortest_decimal (fuel : nat) (x : number) (num den n k : Z) : Z * Z * Z :=
  let '(lo, hi, c) := neighbours num den n k in
  match fuel with
  | O => (nearer lo hi c, k)
  | S f =>
      match reads_back x k lo, reads_back x k hi with
      | true, true => (nearer lo hi c, k)
      | true, false => (lo, k)
      | false, true => (hi, k)
      | false, false => shortest_decimal f x num den n (k + 1)
      end
  end.

Definition format_decimal (s n k : Z) : string :=
  let ds := dec_string s in
  if (k <=? n) && (n <=? 21) then ds ++ zeros (Z.to_nat (n - k))
  else if (0 <? n) && (n <=? 21) then
    substring 0 (Z.to_nat n) ds ++ "." ++ substring (Z.to_nat n) (Z.to_nat (k - n)) ds
  else if (-6 <? n) && (n <=? 0) then "0." ++ zeros (Z.to_nat (- n)) ++ ds
  else
    let e := n - 1 in
    let mant :=
      if k =? 1 then ds
      else substring 0 1 ds ++ "." ++ substring 1 (Z.to_nat (k - 1)) ds in
    mant ++ "e" ++ (if e <? 0 then "-" else "+") ++ dec_string (Z.abs e).

(** [Number::toString] in radix 10. *)
Definition NumberToString (x : number) : string :=
  match x with
  | S754_nan => "NaN"
  | S754_zero _ => "0"
  | S754_infinity s => if s then "-Infinity" else "Infinity"
  | S754_finite sx m e =>
      let num := if 0 <=? e then Zpos m * 2 ^ e else Zpos m in
      let den := if 0 <=? e then 1 else 2 ^ (- e) in
      let n := dec_exponent num den in
      let '(d, k) := shortest_decimal 16 (S754_finite false m e) num den n 1 in
      ((if sx then "-" else "") ++ format_decimal (fst d) (snd d) k)%string
  end.

(** *** Values *)

Inductive value : Type :=
  | VUndefined
  | VNull
  | VBool (b : bool)
  | VNumber (x : number)
  | VString (s : string)
  | VArray (items : list value)
  | VObject (props : list (string * value))
  | VFunction (name : string).

(** An object as its own properties, in order; the first binding of a key
    is the property's value. *)
Definition obj : Type := list (string * value).

Fixpoint assoc {A} (k : string) (l : list (string * A)) : option A :=
  match l with
  | [] => None
  | (k', v) :: r => if str_eqb k k' then Some v else assoc k r
  end.

(** [Object.prototype.hasOwnProperty.call(o, k)]. *)
Definition hasOwnProperty {A} (o : list (string * A)) (k : string) : bool :=
  match assoc k o with Some _ => true | None => false end.

(** The members every plain object inherits from [Object.prototype]. *)
Definition object_prototype_names : list string :=
  [ "constructor"; "hasOwnProperty"; "isPrototypeOf"; "propertyIsEnumerable";
    "toLocaleString"; "toString"; "valueOf"; "__proto__";
    "__defineGetter__"; "__defineSetter__"; "__lookupGetter__"; "__lookupSetter__" ].

Definition inherited (k : string) : bool :=
  existsb (str_eqb k) object_prototype_names.

(** What reading an inherited member gives: the prototype itself for
    [__proto__], a built-in function otherwise. *)
Definition inherited_value (k : string) : value :=
  if str_eqb k "__proto__" then VObject []
  else if str_eqb k "constructor" then VFunction "Object"
  else VFunction k.

(** [o\[k\]]: own properties first, then the prototype. *)
Definition get (o : obj) (k : string) : value :=
  match assoc k o with
  | Some v => v
  | None => if inherited k then inherited_value k else VUndefined
  end.

(** [k in o]. *)
Definition has_property (o : obj) (k : string) : bool :=
  hasOwnProperty o k || inherited k.

(** [a ?? b] and [a || b]. *)
Definition nullish (v : value) : bool :=
  match v with VUndefined | VNull => true | _ => false end.

Definition coalesce (a b : value) : value := if nullish a then b else a.

Definition truthy (v : value) : bool :=
  match v with
  | VUndefined | VNull => false
  | VBool b => b
  | VNumber x => negb (is_zero x || isNaN x)
  | VString s => negb (str_eqb s "")
  | VArray _ | VObject _ | VFunction _ => true
  end.

Definition or_else (a b : value) : value := if truthy a then a else b.

(** What [String(v)] returns, when it returns ([String_of] below is the
    call): a plain object gives ["[object Object]"]; an array is its
    elements joined by commas, [null] and [undefined] elements being
    empty. *)
Fixpoint ToString (v : value) : string :=
  match v with
  | VUndefined => "undefined"
  | VNull => "null"
  | VBool b => if b then "true" else "false"
  | VNumber x => NumberToString x
  | VString s => s
  | VArray items =>
      (fix join (l : list value) : string :=
         match l with
         | [] => ""
         | x :: r =>
             let e := match x with
                      | VUndefined | VNull => ""
                      | _ => ToString x
                      end in
             match r with
             | [] => e
             | _ => e ++ "," ++ join r
             end
         end) items
  | VObject _ => "[object Object]"
  | VFunction name => "function " ++ name ++ "() { [native code] }"
  end.

(** What [Number(v)] returns, when it returns ([Number_of] below is the
    call). *)
Definition ToNumber (v : value) : number :=
  match v with
  | VUndefined => NaN
  | VNull => zero
  | VBool b => if b then num_1 else zero
  | VNumber x => x
  | VString s => StringToNumber s
  | VArray _ => StringToNumber (ToString v)
  | VObject _ | VFunction _ => NaN
  end.

(** [Number.isFinite(v)]: no coercion, only a finite number passes. *)
Definition Number_isFinite (v : value) : bool :=
  match v with VNumber x => finite x | _ => false end.

(** [Number.isNaN(v)]: no coercion. *)
Definition Number_isNaN (v : value) : bool :=
  match v with VNumber x => isNaN x | _ => false end.

Definition Array_isArray (v : value) : bool :=
  match v with VArray _ => true | _ => false end.

(** *** Conversions that throw

    [String(v)] and [Number(v)] turn an object into a primitive value by
    calling its [toString] or its [valueOf].  A plain object inherits both
    from [Object.prototype].  An object with a member named [toString] of
    its own, as [JSON.parse] gives for [{"toString": 1}], has nothing to
    call there (a JSON value is not a function) and the [valueOf] it
    inherits returns the object itself: both conversions throw a
    [TypeError].  An array is converted by joining its elements, each of
    them converted in turn, [null] and [undefined] apart. *)
Fixpoint convertible (v : value) : bool :=
  match v with
  | VObject props => negb (hasOwnProperty props "toString")
  | VArray items => forallb convertible items
  | _ => true
  end.

Definition not_primitive : exn :=
  TypeError "Cannot convert object to primitive value".

(** [String(v)], as a call that may throw. *)
Definition String_of (v : value) : result string :=
  if convertible v then Ok (ToString v) else Throw not_primitive.

(** [Number(v)], as a call that may throw; also the conversion of an
    operand of [-] and of the argument of [Math.abs]. *)
Definition Number_of (v : value) : result number :=
  if convertible v then Ok (ToNumber v) else Throw not_primitive.

End Js.

Import Js.
Local Close Scope Z_scope.

(** ** The preprocessing bundle

    [preprocessing_bundle.json], as the three modules read it at load time:
    [selected_features] (the column order), [label_encoders] and the two
    arrays of [scaler].  An encoder's [mapping] and [unknown_index] are
    optional; [mean_] and [scale_] are [None] when they are absent or
    [null]. *)

Record encoder : Type := {
  mapping : option obj;
  unknown_index : option value
}.

Record bundle : Type := {
  selected_features : list string;
  label_encoders : list (string * encoder);
  mean_ : option (list value);
  scale_ : option (list value)
}.

(** An inherited member of the [label_encoders] object (a built-in function,
    or the prototype): truthy, with neither a mapping nor an unknown index. *)
Definition inherited_member : encoder :=
  {| mapping := None; unknown_index := None |}.

(** [LABEL_MAPS\[col\]]: [None] when the result is [undefined]. *)
Definition encoder_of (b : bundle) (col : string) : option encoder :=
  match assoc col (label_encoders b) with
  | Some e => Some e
  | None => if inherited col then Some inherited_member else None
  end.

(** [a\[i\]], [undefined] out of range. *)
Definition at_index (a : list value) (i : nat) : value :=
  default VUndefined (a !! i).

(** The key a raw value is looked up under: ["Unknown"] for [null],
    [undefined] and the empty string, [String(rawValue)] otherwise. *)
Definition lookup_key (rawValue : value) : string :=
  match rawValue with
  | VNull | VUndefined => "Unknown"
  | VString EmptyString => "Unknown"
  | v => ToString v
  end.

(** The rows of a batch are objects.  A row of another type (a string, a
    number, an array) has no member named like a field of the schema, and
    normalisation reads it as the empty record. *)
Definition fields_of (raw : value) : obj :=
  match raw with
  | VObject o => o
  | _ => []
  end.

(** The loop that fills [out] in column order, from position [i] on. *)
Fixpoint fill (cell : string -> value) (cols : list string) (i : nat)
    (out : list value) : list value :=
  match cols with
  | [] => out
  | col :: rest => fill cell rest (S i) (<[i := cell col]> out)
  end.

(** [s === 0]. *)
Definition is_zero_value (s : value) : bool :=
  match s with VNumber x => is_zero x | _ => false end.

(** One turn of the scaling loop of [transformOne]: [continue] unless both
    statistics are finite numbers and the scale is not zero. *)
Definition scale_step (mean scale : list value) (out : list value) (i : nat)
    : list value :=
  let m := at_index mean i in
  let s := at_index scale i in
  if negb (Number_isFinite m) || negb (Number_isFinite s) || is_zero_value s
  then out
  else <[i := VNumber (div (sub (ToNumber (at_index out i)) (ToNumber m)) (ToNumber s))]> out.

(** The scaling block of [transformOne]: guarded by the two arrays being
    arrays of the row's length, then one turn per position. *)
Definition apply_scaler (mean scale : option (list value)) (out : list value)
    : list value :=
  match mean, scale with
  | Some ms, Some ss =>
      if (length ms =? length out)%nat && (length ss =? length out)%nat
      then foldl (scale_step ms ss) out (seq 0 (length out))
      else out
  | _, _ => out
  end.

(** ** The first preprocessor

    Each function below is its source as a function of the values the
    conversions return; [V1E] further down is the same source with the
    exception of a conversion that does not return. *)

Module V1.
Section WithBundle.
Variable b : bundle.

Definition isNumber (x : value) : bool := Number_isFinite x.

Definition toNumberOrZero (v : value) : number :=
  if isNumber v then ToNumber v
  else if finite (ToNumber v) then ToNumber v else zero.

Definition encodeCategorical (colName : string) (rawValue : value) : value :=
  match encoder_of b colName with
  | None => VNull
  | Some entry =>
      let mapping := default [] (mapping entry) in
      let unknownIdx := coalesce (default VUndefined (unknown_index entry)) VNull in
      let key := lookup_key rawValue in
      match assoc key mapping with
      | Some idx => idx
      | None => if nullish unknownIdx then VNumber zero else unknownIdx
      end
  end.

(** [raw?.\[col\]], for a row that is an object, [null] or [undefined].
    The members a string or an array has of its own ([length], the
    indices) and those of their prototypes are not modelled: the properties
    of this source take rows that are objects or [null]. *)
Definition read (raw : value) (col : string) : value :=
  match raw with
  | VUndefined | VNull => VUndefined
  | _ => get (fields_of raw) col
  end.

Definition cell (raw : value) (col : string) : value :=
  match encoder_of b col with
  | Some _ => encodeCategorical col (read raw col)
  | None => VNumber (toNumberOrZero (read raw col))
  end.

Definition transformOne (raw : value) : list value :=
  let n := length (selected_features b) in
  let out := fill (cell raw) (selected_features b) 0 (replicate n VUndefined) in
  apply_scaler (mean_ b) (scale_ b) out.

Definition transformBatch (rows : value) : result (list (list value)) :=
  match rows with
  | VArray items => Ok (map transformOne items)
  | _ => Throw (Error "transformBatch expects an array of objects")
  end.

End WithBundle.
End V1.

(** ** The second preprocessor ("preprocess v2")

    As for [V1]: the functions of the values the conversions return; [V2E]
    has their exceptions. *)

Module V2.

Definition trim (s : value) : string :=
  str_trim (ToString (coalesce s (VString ""))).

Definition isFiniteNum (x : value) : bool := Number_isFinite x.

Definition toNum (v : value) : number :=
  if isFiniteNum v then ToNumber v
  else if finite (ToNumber v) then ToNumber v else zero.

(** The class [\[0-9A-Z.\]] under the flag [i]. *)
Definition icd_tail (c : ascii) : bool :=
  is_digit c || is_letter c || (c =? ".")%char.

(** A match of [/\[A-Z\]\[0-9\]\[0-9A-Z.\]*/i] starting at the head of
    the string: a letter, a digit, then the longest run of the class. *)
Definition icd_here (s : string) : option string :=
  match s with
  | String c (String d t) =>
      if is_letter c && is_digit d
      then Some (String c (String d (fst (span icd_tail t))))
      else None
  | _ => None
  end.

(** [str.match(/\[A-Z\]\[0-9\]\[0-9A-Z.\]*/i)?.\[0\]]: the match at the
    leftmost position that has one. *)
Fixpoint icd_match (s : string) : option string :=
  match icd_here s with
  | Some m => Some m
  | None =>
      match s with
      | String _ r => icd_match r
      | EmptyString => None
      end
  end.

Definition onlyICD (s : value) : string :=
  toUpperCase (match icd_match (trim s) with
               | Some m => if str_eqb m "" then "Unknown" else m
               | None => "Unknown"
               end).

(** [\b] before the next character, which is [next_word] when it is a
    word character, knowing whether the previous one was. *)
Definition boundary (prev_word next_word : bool) : bool :=
  xorb prev_word next_word.

Definition head_is_word (s : string) : bool :=
  match s with
  | String c _ => is_word c
  | EmptyString => false
  end.

(** A match of [/\b\d{5}\b/] starting at the head of the string, the
    previous character being a word character or not. *)
Definition cpt_here (prev_word : bool) (s : string) : option string :=
  match s with
  | String c1 (String c2 (String c3 (String c4 (String c5 t)))) =>
      if boundary prev_word (is_word c1)
         && is_digit c1 && is_digit c2 && is_digit c3 && is_digit c4 && is_digit c5
         && boundary (is_word c5) (head_is_word t)
      then Some (String c1 (String c2 (String c3 (String c4 (String c5 EmptyString)))))
      else None
  | _ => None
  end.

Fixpoint cpt_scan (prev_word : bool) (s : string) : option string :=
  match cpt_here prev_word s with
  | Some m => Some m
  | None =>
      match s with
      | String c r => cpt_scan (is_word c) r
      | EmptyString => None
      end
  end.

(** [str.match(/\b\d{5}\b/)?.\[0\]]. *)
Definition cpt_match (s : string) : option string := cpt_scan false s.

Definition onlyCPT (s : value) : string :=
  match cpt_match (trim s) with
  | Some m => if str_eqb m "" then "00000" else m
  | None => "00000"
  end.

(** [/\[^\d.\]/g] replaced by the empty string. *)
Definition digits_and_dots (s : string) : string :=
  str_filter (fun c => is_digit c || (c =? ".")%char) s.

Definition Unknown : value := VString "Unknown".

Definition normalizeToTraining (raw : obj) : obj :=
  let provider := coalesce (get raw "Provider") (VString (trim (get raw "provider_id"))) in
  let diag := coalesce (get raw "ClmDiagnosisCode_1") (VString (onlyICD (get raw "diagnosis_code"))) in
  let proc := coalesce (get raw "ClmProcedureCode_1") (VString (onlyCPT (get raw "procedure_code"))) in
  let loc := coalesce (get raw "DiagnosisGroupCode") (VString (trim (get raw "service_location"))) in
  let num (k : string) (d : number) := VNumber (toNum (coalesce (get raw k) (VNumber d))) in
  let str (k : string) := coalesce (get raw k) Unknown in
  let alias (k a : string) := coalesce (get raw k) (coalesce (get raw a) Unknown) in
  [ ("Provider", or_else provider Unknown);
    ("InscClaimAmtReimbursed",
      VNumber (toNum (coalesce (get raw "InscClaimAmtReimbursed")
        (VString (digits_and_dots
           (ToString (coalesce (get raw "claim_amount") (VNumber zero))))))));
    ("AttendingPhysician",
      coalesce (get raw "AttendingPhysician")
        (or_else (VString (trim (get raw "referring_physician"))) Unknown));
    ("OperatingPhysician", str "OperatingPhysician");
    ("OtherPhysician", str "OtherPhysician");
    ("ClmAdmitDiagnosisCode", coalesce (get raw "ClmAdmitDiagnosisCode") diag);
    ("DeductibleAmtPaid",
      VNumber (toNum (coalesce (get raw "DeductibleAmtPaid")
                        (coalesce (get raw "deductible_amount") (VNumber zero)))));
    ("DiagnosisGroupCode", or_else loc Unknown);

    ("ClmDiagnosisCode_1", diag);
    ("ClmDiagnosisCode_2", str "ClmDiagnosisCode_2");
    ("ClmDiagnosisCode_3", str "ClmDiagnosisCode_3");
    ("ClmDiagnosisCode_4", str "ClmDiagnosisCode_4");
    ("ClmDiagnosisCode_5", str "ClmDiagnosisCode_5");
    ("ClmDiagnosisCode_6", str "ClmDiagnosisCode_6");
    ("ClmDiagnosisCode_7", str "ClmDiagnosisCode_7");
    ("ClmDiagnosisCode_8", str "ClmDiagnosisCode_8");
    ("ClmDiagnosisCode_9", str "ClmDiagnosisCode_9");
    ("ClmDiagnosisCode_10", str "ClmDiagnosisCode_10");

    ("ClmProcedureCode_1", proc);
    ("ClmProcedureCode_2", str "ClmProcedureCode_2");
    ("ClmProcedureCode_3", str "ClmProcedureCode_3");
    ("ClmProcedureCode_4", str "ClmProcedureCode_4");
    ("ClmProcedureCode_5", str "ClmProcedureCode_5");

    ("Gender", alias "Gender" "gender");
    ("Race", alias "Race" "race");
    ("RenalDiseaseIndicator", alias "RenalDiseaseIndicator" "renal");
    ("State", alias "State" "state");
    ("County", alias "County" "county");

    ("NoOfMonths_PartACov", num "NoOfMonths_PartACov" num_12);
    ("NoOfMonths_PartBCov", num "NoOfMonths_PartBCov" num_12);

    ("ChronicCond_Alzheimer", num "ChronicCond_Alzheimer" zero);
    ("ChronicCond_Heartfailure", num "ChronicCond_Heartfailure" zero);
    ("ChronicCond_KidneyDisease", num "ChronicCond_KidneyDisease" zero);
    ("ChronicCond_Cancer", num "ChronicCond_Cancer" zero);
    ("ChronicCond_ObstrPulmonary", num "ChronicCond_ObstrPulmonary" zero);
    ("ChronicCond_Depression", num "ChronicCond_Depression" zero);
    ("ChronicCond_Diabetes", num "ChronicCond_Diabetes" zero);
    ("ChronicCond_IschemicHeart", num "ChronicCond_IschemicHeart" zero);
    ("ChronicCond_Osteoporasis", num "ChronicCond_Osteoporasis" zero);
    ("ChronicCond_rheumatoidarthritis", num "ChronicCond_rheumatoidarthritis" zero);
    ("ChronicCond_stroke", num "ChronicCond_stroke" zero);

    ("IPAnnualReimbursementAmt", num "IPAnnualReimbursementAmt" zero);
    ("IPAnnualDeductibleAmt", num "IPAnnualDeductibleAmt" zero);
    ("OPAnnualReimbursementAmt", num "OPAnnualReimbursementAmt" zero);
    ("OPAnnualDeductibleAmt", num "OPAnnualDeductibleAmt" zero);

    ("AgeAtClaim",
      VNumber (toNum (coalesce (get raw "AgeAtClaim")
                        (coalesce (get raw "patient_age") (VNumber zero)))));
    ("ClaimDuration",
      VNumber (toNum (coalesce (get raw "ClaimDuration")
        (VNumber (max_1 (ToNumber (coalesce (get raw "service_frequency")
                                             (VNumber num_1))))))));
    ("ClaimsPerProvider", num "ClaimsPerProvider" num_1);
    ("ClaimsPerBene", num "ClaimsPerBene" num_1) ].

Section WithBundle.
Variable b : bundle.

Definition encodeCategorical (colName : string) (rawValue : value) : value :=
  match encoder_of b colName with
  | None => VNull
  | Some entry =>
      let mapping := default [] (mapping entry) in
      let unknownIdx := coalesce (default VUndefined (unknown_index entry)) VNull in
      let key := lookup_key rawValue in
      match assoc key mapping with
      | Some idx => idx
      | None =>
          if negb (nullish unknownIdx) then unknownIdx
          else match assoc "__UNK__" mapping with
               | Some idx => idx
               | None => VNumber zero
               end
      end
  end.

Definition cell (normalized : obj) (col : string) : value :=
  match encoder_of b col with
  | Some _ => encodeCategorical col (get normalized col)
  | None => VNumber (toNum (get normalized col))
  end.

(** The part of [transformOne] after normalisation: fill, then scale. *)
Definition encode_and_scale (normalized : obj) : list value :=
  let n := length (selected_features b) in
  let out := fill (cell normalized) (selected_features b) 0 (replicate n VUndefined) in
  apply_scaler (mean_ b) (scale_ b) out.

(** [normalizeToTraining] reads [raw.Provider] first: a [TypeError] when
    the row is [null] or [undefined].  (The other exception, that of a
    conversion, is in [V2E.transformOne].) *)
Definition transformOne (raw : value) : result (list value) :=
  match raw with
  | VUndefined | VNull =>
      Throw (TypeError "Cannot read properties of null or undefined")
  | _ => Ok (encode_and_scale (normalizeToTraining (fields_of raw)))
  end.

Definition transformBatch (rows : value) : result (list (list value)) :=
  match rows with
  | VArray items => map_throw transformOne items
  | _ => Throw (Error "transformBatch expects an array of objects")
  end.

End WithBundle.
End V2.

(** ** The third preprocessor ([transformer.js])

    As for [V1]: the functions of the values the conversions return; [V3E]
    has their exceptions. *)

Module V3.

Definition trim (s : value) : string :=
  str_trim (ToString (coalesce s (VString ""))).

Definition onlyICD (s : value) : string :=
  toUpperCase (match V2.icd_match (trim s) with
               | Some m => if str_eqb m "" then "Unknown" else m
               | None => "Unknown"
               end).

Definition onlyCPT (s : value) : string :=
  match V2.cpt_match (trim s) with
  | Some m => if str_eqb m "" then "00000" else m
  | None => "00000"
  end.

Definition Unknown : value := VString "Unknown".

(** [Number(v) || 0]. *)
Definition number_or_zero (v : value) : number :=
  let x := ToNumber v in
  if truthy (VNumber x) then x else zero.

Definition normalizeToTraining (raw : obj) : obj :=
  let num (k : string) (d : number) := VNumber (ToNumber (coalesce (get raw k) (VNumber d))) in
  let str (k : string) := coalesce (get raw k) Unknown in
  [ ("Provider", VString (trim (get raw "provider_id")));
    ("InscClaimAmtReimbursed",
      VNumber (StringToNumber (V2.digits_and_dots
        (ToString (or_else (get raw "claim_amount") (VNumber zero))))));
    ("AttendingPhysician", or_else (VString (trim (get raw "referring_physician"))) Unknown);
    ("OperatingPhysician", Unknown);
    ("OtherPhysician", Unknown);
    ("ClmAdmitDiagnosisCode", VString (onlyICD (get raw "diagnosis_code")));
    ("DeductibleAmtPaid", VNumber (number_or_zero (get raw "deductible_amount")));
    ("DiagnosisGroupCode", or_else (VString (trim (get raw "service_location"))) Unknown);

    ("ClmDiagnosisCode_1", VString (onlyICD (get raw "diagnosis_code")));
    ("ClmDiagnosisCode_2", Unknown);
    ("ClmDiagnosisCode_3", Unknown);
    ("ClmDiagnosisCode_4", Unknown);
    ("ClmDiagnosisCode_5", Unknown);
    ("ClmDiagnosisCode_6", Unknown);
    ("ClmDiagnosisCode_7", Unknown);
    ("ClmDiagnosisCode_8", Unknown);
    ("ClmDiagnosisCode_9", Unknown);
    ("ClmDiagnosisCode_10", Unknown);

    ("ClmProcedureCode_1", VString (onlyCPT (get raw "procedure_code")));
    ("ClmProcedureCode_2", Unknown);
    ("ClmProcedureCode_3", Unknown);
    ("ClmProcedureCode_4", Unknown);
    ("ClmProcedureCode_5", Unknown);

    ("Gender", str "gender");
    ("Race", str "race");
    ("RenalDiseaseIndicator", str "renal");
    ("State", str "state");
    ("County", str "county");

    ("NoOfMonths_PartACov", num "NoOfMonths_PartACov" num_12);
    ("NoOfMonths_PartBCov", num "NoOfMonths_PartBCov" num_12);

    ("ChronicCond_Alzheimer", num "ChronicCond_Alzheimer" zero);
    ("ChronicCond_Heartfailure", num "ChronicCond_Heartfailure" zero);
    ("ChronicCond_KidneyDisease", num "ChronicCond_KidneyDisease" zero);
    ("ChronicCond_Cancer", num "ChronicCond_Cancer" zero);
    ("ChronicCond_ObstrPulmonary", num "ChronicCond_ObstrPulmonary" zero);
    ("ChronicCond_Depression", num "ChronicCond_Depression" zero);
    ("ChronicCond_Diabetes", num "ChronicCond_Diabetes" zero);
    ("ChronicCond_IschemicHeart", num "ChronicCond_IschemicHeart" zero);
    ("ChronicCond_Osteoporasis", num "ChronicCond_Osteoporasis" zero);
    ("ChronicCond_rheumatoidarthritis", num "ChronicCond_rheumatoidarthritis" zero);
    ("ChronicCond_stroke", num "ChronicCond_stroke" zero);

    ("IPAnnualReimbursementAmt", num "IPAnnualReimbursementAmt" zero);
    ("IPAnnualDeductibleAmt", num "IPAnnualDeductibleAmt" zero);
    ("OPAnnualReimbursementAmt", num "OPAnnualReimbursementAmt" zero);
    ("OPAnnualDeductibleAmt", num "OPAnnualDeductibleAmt" zero);

    ("AgeAtClaim", num "patient_age" zero);
    ("ClaimDuration",
      VNumber (max_1 (ToNumber (coalesce (get raw "service_frequency") (VNumber num_1)))));
    ("ClaimsPerProvider", num "ClaimsPerProvider" num_1);
    ("ClaimsPerBene", num "ClaimsPerBene" num_1) ].

Section WithBundle.
Variable b : bundle.

(** [MEAN_] and [SCALE_]: the arrays of the scaler, or [\[\]]. *)
Definition MEAN_ : list value := default [] (mean_ b).
Definition SCALE_ : list value := default [] (scale_ b).

Definition encode (col : string) (val : value) : value :=
  match encoder_of b col with
  | None => VNumber zero
  | Some enc =>
      match mapping enc with
      | None => VNumber zero
      | Some mapping =>
          let key := lookup_key val in
          if has_property mapping key then get mapping key
          else match unknown_index enc with
               | Some idx => idx
               | None =>
                   if has_property mapping "__UNK__" then get mapping "__UNK__"
                   else VNumber zero
               end
      end
  end.

Definition scaleByIndex (idx : nat) (val : value) : number :=
  let m := at_index MEAN_ idx in
  let s := at_index SCALE_ idx in
  match m, s with
  | VNull, _ | _, VNull | _, VUndefined => number_or_zero val
  | _, _ =>
      if is_zero_value s then number_or_zero val
      else div (sub (ToNumber val) (ToNumber m)) (ToNumber s)
  end.

(** [ENCODERS\[col\]?.mapping], as a condition. *)
Definition is_categorical (col : string) : bool :=
  match encoder_of b col with
  | Some enc => match mapping enc with Some _ => true | None => false end
  | None => false
  end.

(** The callback of [FEATURES.map]. *)
Definition column (named : obj) (idx : nat) (col : string) : value :=
  if is_categorical col then encode col (get named col)
  else VNumber (scaleByIndex idx (get named col)).

(** The row before the sanity guard. *)
Definition build_row (named : obj) : list value :=
  imap (column named) (selected_features b).

(** The predicate of the guard's filter: [Number.isNaN(v) ||
    Math.abs(v) > 50]. *)
Definition is_bad (v : value) : bool :=
  Number_isNaN v || gt (abs (ToNumber v)) num_50.

Definition mismatch : exn :=
  Error "preprocessing_mismatch: check encoder mappings & scaler arrays.".

(** The guard and the return of [buildVector], on the row built. *)
Definition guard (row : list value) : result (list value) :=
  let bad := length (List.filter is_bad row) in
  if (bad =? 0)%nat then Ok row else Throw mismatch.

Definition buildVector (raw : value) : result (list value) :=
  match raw with
  | VUndefined | VNull =>
      Throw (TypeError "Cannot read properties of null or undefined")
  | _ => guard (build_row (normalizeToTraining (fields_of raw)))
  end.


End WithBundle.
End V3.

(** ** The sources, with the exceptions of their conversions

    [V1], [V2] and [V3] above give what each function of the sources
    computes when the conversions it makes return: [ToString] and
    [ToNumber] are the values of [String(v)] and [Number(v)].  The modules
    below are the same functions with the [TypeError] of a conversion that
    does not return: every [String(v)] is [String_of v], every [Number(v)]
    and every operand of an arithmetic operation is [Number_of v], and the
    calls are sequenced in the order of the source.  [V1E], [V2E] and [V3E]
    are the three sources; [Raise] holds what they share. *)

Module Raise.

(** [r] returns nothing but [a]. *)
Definition agrees {A} (r : result A) (a : A) : Prop :=
  forall x, r = Ok x -> x = a.

(** [a ?? d]: the right operand is evaluated when the left one is [null]
    or [undefined], and only then. *)
Definition or_default (a : value) (d : result value) : result value :=
  if nullish a then d else Ok a.

(** A string, and a number, as values. *)
Definition text (r : result string) : result value :=
  let! t := r in Ok (VString t).

Definition number (r : result number) : result value :=
  let! x := r in Ok (VNumber x).

(** An object literal: its members are evaluated in order. *)
Fixpoint literal (members : list (string * result value)) : result obj :=
  match members with
  | [] => Ok []
  | (k, r) :: rest =>
      let! v := r in
      let! o := literal rest in
      Ok ((k, v) :: o)
  end.

(** The key a raw value is looked up under. *)
Definition lookup_key (rawValue : value) : result string :=
  match rawValue with
  | VNull | VUndefined => Ok "Unknown"
  | VString EmptyString => Ok "Unknown"
  | v => String_of v
  end.

(** The loop that fills [out] in column order, from position [i] on. *)
Fixpoint fill (cell : string -> result value) (cols : list string) (i : nat)
    (out : list value) : result (list value) :=
  match cols with
  | [] => Ok out
  | col :: rest =>
      let! v := cell col in
      fill cell rest (S i) (<[i := v]> out)
  end.

(** One turn of the scaling loop of [transformOne]: [out\[i\] - m]
    converts [out\[i\]] to a number. *)
Definition scale_step (mean scale : list value) (out : list value) (i : nat)
    : result (list value) :=
  let m := at_index mean i in
  let s := at_index scale i in
  if negb (Number_isFinite m) || negb (Number_isFinite s) || is_zero_value s
  then Ok out
  else
    let! x := Number_of (at_index out i) in
    Ok (<[i := VNumber (div (sub x (ToNumber m)) (ToNumber s))]> out).

Fixpoint scale_loop (mean scale : list value) (idxs : list nat) (out : list value)
    : result (list value) :=
  match idxs with
  | [] => Ok out
  | i :: rest =>
      let! o := scale_step mean scale out i in
      scale_loop mean scale rest o
  end.

(** The scaling block of [transformOne]. *)
Definition apply_scaler (mean scale : option (list value)) (out : list value)
    : result (list value) :=
  match mean, scale with
  | Some ms, Some ss =>
      if (length ms =? length out)%nat && (length ss =? length out)%nat
      then scale_loop ms ss (seq 0 (length out)) out
      else Ok out
  | _, _ => Ok out
  end.

(** [array.map((x, i) => f(i, x))], from index [i] on: the first exception
    aborts the map. *)
Fixpoint map_indexed {A B} (f : nat -> A -> result B) (i : nat) (l : list A)
    : result (list B) :=
  match l with
  | [] => Ok []
  | x :: r =>
      let! y := f i x in
      let! ys := map_indexed f (S i) r in
      Ok (y :: ys)
  end.

End Raise.

(** *** The first preprocessor *)

Module V1E.
Section WithBundle.
Variable b : bundle.

Definition toNumberOrZero (v : value) : result number :=
  if V1.isNumber v then Ok (ToNumber v)
  else
    let! x := Number_of v in
    Ok (if finite x then x else zero).

Definition encodeCategorical (colName : string) (rawValue : value) : result value :=
  match encoder_of b colName with
  | None => Ok VNull
  | Some entry =>
      let mapping := default [] (mapping entry) in
      let unknownIdx := coalesce (default VUndefined (unknown_index entry)) VNull in
      let! key := Raise.lookup_key rawValue in
      Ok (match assoc key mapping with
          | Some idx => idx
          | None => if nullish unknownIdx then VNumber zero else unknownIdx
          end)
  end.

Definition cell (raw : value) (col : string) : result value :=
  match encoder_of b col with
  | Some _ => encodeCategorical col (V1.read raw col)
  | None => Raise.number (toNumberOrZero (V1.read raw col))
  end.

Definition transformOne (raw : value) : result (list value) :=
  let n := length (selected_features b) in
  let! out := Raise.fill (cell raw) (selected_features b) 0 (replicate n VUndefined) in
  Raise.apply_scaler (mean_ b) (scale_ b) out.

Definition transformBatch (rows : value) : result (list (list value)) :=
  match rows with
  | VArray items => map_throw transformOne items
  | _ => Throw (Error "transformBatch expects an array of objects")
  end.

End WithBundle.
End V1E.

(** *** The second preprocessor *)

Module V2E.

Definition trim (s : value) : result string :=
  let! t := String_of (coalesce s (VString "")) in
  Ok (str_trim t).

Definition toNum (v : value) : result number :=
  if V2.isFiniteNum v then Ok (ToNumber v)
  else
    let! x := Number_of v in
    Ok (if finite x then x else zero).

Definition onlyICD (s : value) : result string :=
  let! t := trim s in
  Ok (toUpperCase (match V2.icd_match t with
                   | Some m => if str_eqb m "" then "Unknown" else m
                   | None => "Unknown"
                   end)).

Definition onlyCPT (s : value) : result string :=
  let! t := trim s in
  Ok (match V2.cpt_match t with
      | Some m => if str_eqb m "" then "00000" else m
      | None => "00000"
      end).

Definition normalizeToTraining (raw : obj) : result obj :=
  let! provider :=
    Raise.or_default (get raw "Provider") (Raise.text (trim (get raw "provider_id"))) in
  let! diag :=
    Raise.or_default (get raw "ClmDiagnosisCode_1")
      (Raise.text (onlyICD (get raw "diagnosis_code"))) in
  let! proc :=
    Raise.or_default (get raw "ClmProcedureCode_1")
      (Raise.text (onlyCPT (get raw "procedure_code"))) in
  let! loc :=
    Raise.or_default (get raw "DiagnosisGroupCode")
      (Raise.text (trim (get raw "service_location"))) in
  let num (k : string) (d : number) :=
    Raise.number (toNum (coalesce (get raw k) (VNumber d))) in
  let str (k : string) := Ok (coalesce (get raw k) V2.Unknown) in
  let alias (k a : string) :=
    Ok (coalesce (get raw k) (coalesce (get raw a) V2.Unknown)) in
  Raise.literal
  [ ("Provider", Ok (or_else provider V2.Unknown));
    ("InscClaimAmtReimbursed",
      Raise.number
        (let! v :=
           Raise.or_default (get raw "InscClaimAmtReimbursed")
             (Raise.text
                (let! s := String_of (coalesce (get raw "claim_amount") (VNumber zero)) in
                 Ok (V2.digits_and_dots s))) in
         toNum v));
    ("AttendingPhysician",
      Raise.or_default (get raw "AttendingPhysician")
        (let! t := trim (get raw "referring_physician") in
         Ok (or_else (VString t) V2.Unknown)));
    ("OperatingPhysician", str "OperatingPhysician");
    ("OtherPhysician", str "OtherPhysician");
    ("ClmAdmitDiagnosisCode", Ok (coalesce (get raw "ClmAdmitDiagnosisCode") diag));
    ("DeductibleAmtPaid",
      Raise.number (toNum (coalesce (get raw "DeductibleAmtPaid")
                             (coalesce (get raw "deductible_amount") (VNumber zero)))));
    ("DiagnosisGroupCode", Ok (or_else loc V2.Unknown));

    ("ClmDiagnosisCode_1", Ok diag);
    ("ClmDiagnosisCode_2", str "ClmDiagnosisCode_2");
    ("ClmDiagnosisCode_3", str "ClmDiagnosisCode_3");
    ("ClmDiagnosisCode_4", str "ClmDiagnosisCode_4");
    ("ClmDiagnosisCode_5", str "ClmDiagnosisCode_5");
    ("ClmDiagnosisCode_6", str "ClmDiagnosisCode_6");
    ("ClmDiagnosisCode_7", str "ClmDiagnosisCode_7");
    ("ClmDiagnosisCode_8", str "ClmDiagnosisCode_8");
    ("ClmDiagnosisCode_9", str "ClmDiagnosisCode_9");
    ("ClmDiagnosisCode_10", str "ClmDiagnosisCode_10");

    ("ClmProcedureCode_1", Ok proc);
    ("ClmProcedureCode_2", str "ClmProcedureCode_2");
    ("ClmProcedureCode_3", str "ClmProcedureCode_3");
    ("ClmProcedureCode_4", str "ClmProcedureCode_4");
    ("ClmProcedureCode_5", str "ClmProcedureCode_5");

    ("Gender", alias "Gender" "gender");
    ("Race", alias "Race" "race");
    ("RenalDiseaseIndicator", alias "RenalDiseaseIndicator" "renal");
    ("State", alias "State" "state");
    ("County", alias "County" "county");

    ("NoOfMonths_PartACov", num "NoOfMonths_PartACov" num_12);
    ("NoOfMonths_PartBCov", num "NoOfMonths_PartBCov" num_12);

    ("ChronicCond_Alzheimer", num "ChronicCond_Alzheimer" zero);
    ("ChronicCond_Heartfailure", num "ChronicCond_Heartfailure" zero);
    ("ChronicCond_KidneyDisease", num "ChronicCond_KidneyDisease" zero);
    ("ChronicCond_Cancer", num "ChronicCond_Cancer" zero);
    ("ChronicCond_ObstrPulmonary", num "ChronicCond_ObstrPulmonary" zero);
    ("ChronicCond_Depression", num "ChronicCond_Depression" zero);
    ("ChronicCond_Diabetes", num "ChronicCond_Diabetes" zero);
    ("ChronicCond_IschemicHeart", num "ChronicCond_IschemicHeart" zero);
    ("ChronicCond_Osteoporasis", num "ChronicCond_Osteoporasis" zero);
    ("ChronicCond_rheumatoidarthritis", num "ChronicCond_rheumatoidarthritis" zero);
    ("ChronicCond_stroke", num "ChronicCond_stroke" zero);

    ("IPAnnualReimbursementAmt", num "IPAnnualReimbursementAmt" zero);
    ("IPAnnualDeductibleAmt", num "IPAnnualDeductibleAmt" zero);
    ("OPAnnualReimbursementAmt", num "OPAnnualReimbursementAmt" zero);
    ("OPAnnualDeductibleAmt", num "OPAnnualDeductibleAmt" zero);

    ("AgeAtClaim",
      Raise.number (toNum (coalesce (get raw "AgeAtClaim")
                             (coalesce (get raw "patient_age") (VNumber zero)))));
    ("ClaimDuration",
      Raise.number
        (let! v :=
           Raise.or_default (get raw "ClaimDuration")
             (Raise.number
                (let! x := Number_of (coalesce (get raw "service_frequency")
                                                (VNumber num_1)) in
                 Ok (max_1 x))) in
         toNum v));
    ("ClaimsPerProvider", num "ClaimsPerProvider" num_1);
    ("ClaimsPerBene", num "ClaimsPerBene" num_1) ].

Section WithBundle.
Variable b : bundle.

Definition encodeCategorical (colName : string) (rawValue : value) : result value :=
  match encoder_of b colName with
  | None => Ok VNull
  | Some entry =>
      let mapping := default [] (mapping entry) in
      let unknownIdx := coalesce (default VUndefined (unknown_index entry)) VNull in
      let! key := Raise.lookup_key rawValue in
      Ok (match assoc key mapping with
          | Some idx => idx
          | None =>
              if negb (nullish unknownIdx) then unknownIdx
              else match assoc "__UNK__" mapping with
                   | Some idx => idx
                   | None => VNumber zero
                   end
          end)
  end.

Definition cell (normalized : obj) (col : string) : result value :=
  match encoder_of b col with
  | Some _ => encodeCategorical col (get normalized col)
  | None => Raise.number (toNum (get normalized col))
  end.

(** The part of [transformOne] after normalisation: fill, then scale. *)
Definition encode_and_scale (normalized : obj) : result (list value) :=
  let n := length (selected_features b) in
  let! out :=
    Raise.fill (cell normalized) (selected_features b) 0 (replicate n VUndefined) in
  Raise.apply_scaler (mean_ b) (scale_ b) out.

Definition transformOne (raw : value) : result (list value) :=
  match raw with
  | VUndefined | VNull =>
      Throw (TypeError "Cannot read properties of null or undefined")
  | _ =>
      let! normalized := normalizeToTraining (fields_of raw) in
      encode_and_scale normalized
  end.

Definition transformBatch (rows : value) : result (list (list value)) :=
  match rows with
  | VArray items => map_throw transformOne items
  | _ => Throw (Error "transformBatch expects an array of objects")
  end.

End WithBundle.
End V2E.

(** *** The third preprocessor *)

Module V3E.

Definition trim (s : value) : result string :=
  let! t := String_of (coalesce s (VString "")) in
  Ok (str_trim t).

Definition onlyICD (s : value) : result string :=
  let! t := trim s in
  Ok (toUpperCase (match V2.icd_match t with
                   | Some m => if str_eqb m "" then "Unknown" else m
                   | None => "Unknown"
                   end)).

Definition onlyCPT (s : value) : result string :=
  let! t := trim s in
  Ok (match V2.cpt_match t with
      | Some m => if str_eqb m "" then "00000" else m
      | None => "00000"
      end).

(** [Number(v) || 0]. *)
Definition number_or_zero (v : value) : result number :=
  let! x := Number_of v in
  Ok (if truthy (VNumber x) then x else zero).

Definition normalizeToTraining (raw : obj) : result obj :=
  let num (k : string) (d : number) :=
    Raise.number (Number_of (coalesce (get raw k) (VNumber d))) in
  let str (k : string) := Ok (coalesce (get raw k) V3.Unknown) in
  let unknown := Ok V3.Unknown in
  Raise.literal
  [ ("Provider", Raise.text (trim (get raw "provider_id")));
    ("InscClaimAmtReimbursed",
      Raise.number
        (let! s := String_of (or_else (get raw "claim_amount") (VNumber zero)) in
         Ok (StringToNumber (V2.digits_and_dots s))));
    ("AttendingPhysician",
      let! t := trim (get raw "referring_physician") in
      Ok (or_else (VString t) V3.Unknown));
    ("OperatingPhysician", unknown);
    ("OtherPhysician", unknown);
    ("ClmAdmitDiagnosisCode", Raise.text (onlyICD (get raw "diagnosis_code")));
    ("DeductibleAmtPaid", Raise.number (number_or_zero (get raw "deductible_amount")));
    ("DiagnosisGroupCode",
      let! t := trim (get raw "service_location") in
      Ok (or_else (VString t) V3.Unknown));

    ("ClmDiagnosisCode_1", Raise.text (onlyICD (get raw "diagnosis_code")));
    ("ClmDiagnosisCode_2", unknown);
    ("ClmDiagnosisCode_3", unknown);
    ("ClmDiagnosisCode_4", unknown);
    ("ClmDiagnosisCode_5", unknown);
    ("ClmDiagnosisCode_6", unknown);
    ("ClmDiagnosisCode_7", unknown);
    ("ClmDiagnosisCode_8", unknown);
    ("ClmDiagnosisCode_9", unknown);
    ("ClmDiagnosisCode_10", unknown);

    ("ClmProcedureCode_1", Raise.text (onlyCPT (get raw "procedure_code")));
    ("ClmProcedureCode_2", unknown);
    ("ClmProcedureCode_3", unknown);
    ("ClmProcedureCode_4", unknown);
    ("ClmProcedureCode_5", unknown);

    ("Gender", str "gender");
    ("Race", str "race");
    ("RenalDiseaseIndicator", str "renal");
    ("State", str "state");
    ("County", str "county");

    ("NoOfMonths_PartACov", num "NoOfMonths_PartACov" num_12);
    ("NoOfMonths_PartBCov", num "NoOfMonths_PartBCov" num_12);

    ("ChronicCond_Alzheimer", num "ChronicCond_Alzheimer" zero);
    ("ChronicCond_Heartfailure", num "ChronicCond_Heartfailure" zero);
    ("ChronicCond_KidneyDisease", num "ChronicCond_KidneyDisease" zero);
    ("ChronicCond_Cancer", num "ChronicCond_Cancer" zero);
    ("ChronicCond_ObstrPulmonary", num "ChronicCond_ObstrPulmonary" zero);
    ("ChronicCond_Depression", num "ChronicCond_Depression" zero);
    ("ChronicCond_Diabetes", num "ChronicCond_Diabetes" zero);
    ("ChronicCond_IschemicHeart", num "ChronicCond_IschemicHeart" zero);
    ("ChronicCond_Osteoporasis", num "ChronicCond_Osteoporasis" zero);
    ("ChronicCond_rheumatoidarthritis", num "ChronicCond_rheumatoidarthritis" zero);
    ("ChronicCond_stroke", num "ChronicCond_stroke" zero);

    ("IPAnnualReimbursementAmt", num "IPAnnualReimbursementAmt" zero);
    ("IPAnnualDeductibleAmt", num "IPAnnualDeductibleAmt" zero);
    ("OPAnnualReimbursementAmt", num "OPAnnualReimbursementAmt" zero);
    ("OPAnnualDeductibleAmt", num "OPAnnualDeductibleAmt" zero);

    ("AgeAtClaim", num "patient_age" zero);
    ("ClaimDuration",
      Raise.number
        (let! x := Number_of (coalesce (get raw "service_frequency") (VNumber num_1)) in
         Ok (max_1 x)));
    ("ClaimsPerProvider", num "ClaimsPerProvider" num_1);
    ("ClaimsPerBene", num "ClaimsPerBene" num_1) ].

Section WithBundle.
Variable b : bundle.

Definition encode (col : string) (val : value) : result value :=
  match encoder_of b col with
  | None => Ok (VNumber zero)
  | Some enc =>
      match mapping enc with
      | None => Ok (VNumber zero)
      | Some mapping =>
          let! key := Raise.lookup_key val in
          Ok (if has_property mapping key then get mapping key
              else match unknown_index enc with
                   | Some idx => idx
                   | None =>
                       if has_property mapping "__UNK__" then get mapping "__UNK__"
                       else VNumber zero
                   end)
      end
  end.

Definition scaleByIndex (idx : nat) (val : value) : result number :=
  let m := at_index (V3.MEAN_ b) idx in
  let s := at_index (V3.SCALE_ b) idx in
  match m, s with
  | VNull, _ | _, VNull | _, VUndefined => number_or_zero val
  | _, _ =>
      if is_zero_value s then number_or_zero val
      else
        let! x := Number_of val in
        let! mean := Number_of m in
        let! scale := Number_of s in
        Ok (div (sub x mean) scale)
  end.

(** The callback of [FEATURES.map]. *)
Definition column (named : obj) (idx : nat) (col : string) : result value :=
  if V3.is_categorical b col then encode col (get named col)
  else Raise.number (scaleByIndex idx (get named col)).

Definition build_row (named : obj) : result (list value) :=
  Raise.map_indexed (column named) 0 (selected_features b).

(** The predicate of the guard's filter: [Math.abs(v)] converts [v] to a
    number, when [Number.isNaN(v)] has not settled it. *)
Definition is_bad (v : value) : result bool :=
  if Number_isNaN v then Ok true
  else
    let! x := Number_of v in
    Ok (gt (abs x) num_50).

Definition guard (row : list value) : result (list value) :=
  let! flags := map_throw is_bad row in
  let bad := length (List.filter (fun f : bool => f) flags) in
  if (bad =? 0)%nat then Ok row else Throw V3.mismatch.

Definition buildVector (raw : value) : result (list value) :=
  match raw with
  | VUndefined | VNull =>
      Throw (TypeError "Cannot read properties of null or undefined")
  | _ =>
      let! named := normalizeToTraining (fields_of raw) in
      let! row := build_row named in
      guard row
  end.

End WithBundle.
End V3E.

(** ** The server ([server.js])

    The routes that call the preprocessor, and the helpers they use.  What
    lies beyond the process is a parameter: [fetch] is the POST of the JSON
    text of a payload to the scoring endpoint, [JSON_parse] the parser of
    its answer ([None] when it throws), [verify] the check of a token
    against the secret ([None] when it throws).  [server.js] imports
    [preprocess.js]; its route normalises, so it is the second
    preprocessor. *)

Module Server.

(** [typeof v]. *)
Definition typeof (v : value) : string :=
  match v with
  | VUndefined => "undefined"
  | VNull | VArray _ | VObject _ => "object"
  | VBool _ => "boolean"
  | VNumber _ => "number"
  | VString _ => "string"
  | VFunction _ => "function"
  end.

Definition lower_char (c : ascii) : ascii :=
  if is_upper c then ascii_of_nat (nat_of_ascii c + 32) else c.

(** [String.prototype.toLowerCase], on the letters A to Z. *)
Fixpoint toLowerCase (s : string) : string :=
  match s with
  | String c r => String (lower_char c) (toLowerCase r)
  | EmptyString => EmptyString
  end.

(** A variable of the environment, as a condition: set, and not empty. *)
Definition is_set (v : option string) : bool :=
  match v with
  | Some s => negb (str_eqb s "")
  | None => false
  end.

Record environment : Type := {
  AML_CLAIM_URI : option string;
  AML_CLAIM_KEY : option string;
  AML_CLAIM_DEPLOYMENT : option string;
  PAYLOAD_STYLE : option string
}.

(** [AML_CLAIM_PAYLOAD_STYLE], with the default of the destructuring. *)
Definition AML_CLAIM_PAYLOAD_STYLE (env : environment) : string :=
  default "mlflow_split" (PAYLOAD_STYLE env).

(** [e.message]. *)
Definition message (e : exn) : string :=
  match e with
  | Error msg | TypeError msg => msg
  end.

(** A number of elements, as a JavaScript number. *)
Definition of_nat (n : nat) : number := of_Z (Z.of_nat n).

(** What a handler sends: [res.status(code).json(body)], the status being
    200 when the handler does not set it. *)
Record response : Type := {
  status : nat;
  body : value
}.

(** The answer of the scoring endpoint. *)
Record http_response : Type := {
  ok : bool;
  http_status : nat;
  text : string
}.

(** The header [req.headers.authorization] names a bearer token:
    [hdr.startsWith("Bearer ") ? hdr.slice(7) : null]. *)
Definition bearer_token (hdr : string) : option string :=
  if String.prefix "Bearer " hdr then Some (str_drop 7 hdr) else None.

(** Where a middleware ends: the next handler, with [req.user] set, or a
    reply. *)
Inductive outcome : Type :=
  | Next (user : value)
  | Reply (r : response).

Section WithWorld.
Variable fetch : string -> list (string * string) -> value -> result http_response.
Variable JSON_parse : string -> option value.
Variable verify : string -> option value.

Definition request_headers (key deployment : option string) : list (string * string) :=
  [ ("Content-Type", "application/json"); ("Accept", "application/json") ]
  ++ (if is_set key then [("Authorization", ("Bearer " ++ default "" key)%string)] else [])
  ++ (if is_set deployment then [("azureml-model-deployment", default "" deployment)] else []).

Definition callAML (uri key deployment : option string) (payload : value)
    : result value :=
  if negb (is_set uri) then Throw (Error "AML scoring URI not set")
  else
    let! r := fetch (default "" uri) (request_headers key deployment) payload in
    if negb (ok r)
    then Throw (Error ("AML " ++ dec_string (Z.of_nat (http_status r)) ++ ": " ++ text r))
    else Ok (match JSON_parse (text r) with
             | Some v => v
             | None => VString (text r)
             end).

Definition auth (authorization : option string) : outcome :=
  let hdr := if is_set authorization then default "" authorization else "" in
  match bearer_token hdr with
  | Some token =>
      if str_eqb token ""
      then Reply {| status := 401;
                    body := VObject [("error", VString "Missing/invalid Authorization header")] |}
      else match verify token with
           | Some user => Next user
           | None => Reply {| status := 401;
                              body := VObject [("error", VString "Invalid or expired token")] |}
           end
  | None =>
      Reply {| status := 401;
               body := VObject [("error", VString "Missing/invalid Authorization header")] |}
  end.

Section WithBundle.
Variable b : bundle.
Variable env : environment.

Definition columns : value := VArray (map VString (selected_features b)).

Definition data (X : list (list value)) : value := VArray (map VArray X).

(** [Array.from({ length: X.length }, (_, i) => i)]. *)
Definition row_index (X : list (list value)) : value :=
  VArray (map (fun i => VNumber (of_nat i)) (seq 0 (length X))).

(** The payload of the scoring request, by style. *)
Definition claim_payload (X : list (list value)) : value :=
  let style :=
    toLowerCase (if str_eqb (AML_CLAIM_PAYLOAD_STYLE env) ""
                 then "mlflow_split" else AML_CLAIM_PAYLOAD_STYLE env) in
  if str_eqb style "mlflow" then
    VObject [("input_data", VObject [("columns", columns); ("data", data X)])]
  else if str_eqb style "inputs" then
    VObject [("inputs", data X)]
  else
    VObject [("input_data",
              VObject [("columns", columns); ("index", row_index X); ("data", data X)])].

(** [Array.isArray(req.body) ? req.body : \[req.body\]]. *)
Definition raw_rows (req_body : value) : value :=
  if Array_isArray req_body then req_body else VArray [req_body].

Definition bad_request : response :=
  {| status := 400;
     body := VObject
       [("error", VString "bad-request");
        ("message",
         VString "Send JSON body: either a single object or an array of objects")] |}.

Definition scorer_failed (e : exn) : response :=
  {| status := 502;
     body := VObject
       [("error", VString "claim-scorer-failed");
        ("message", VString (message e));
        ("suggestions",
         VArray
           [VString "Ensure preprocessing_bundle.json is beside server.js.";
            VString "If AML complains about schema, try AML_CLAIM_PAYLOAD_STYLE=mlflow_split (default), then mlflow, then inputs."])] |}.

Definition predictions (X : list (list value)) (out : value) : response :=
  {| status := 200;
     body := VObject
       [("ok", VBool true);
        ("predictions", out);
        ("meta",
         VObject [("rows", VNumber (of_nat (length X)));
                  ("cols", VNumber (of_nat (length (selected_features b))));
                  ("payloadStyle", VString (AML_CLAIM_PAYLOAD_STYLE env))])] |}.

(** The handler of [POST /predict/claim], after [auth]. *)
Definition predict_claim (req_body : value) : response :=
  if negb (truthy req_body) || negb (str_eqb (typeof req_body) "object")
  then bad_request
  else
    match V2.transformBatch b (raw_rows req_body) with
    | Throw e => scorer_failed e
    | Ok X =>
        match callAML (AML_CLAIM_URI env) (AML_CLAIM_KEY env)
                (AML_CLAIM_DEPLOYMENT env) (claim_payload X) with
        | Throw e => scorer_failed e
        | Ok out => predictions X out
        end
    end.

(** The handler of [POST /debug/transform-claim], after [auth]. *)
Definition debug_transform_claim (req_body : value) : response :=
  match V2.transformBatch b (raw_rows req_body) with
  | Throw e => {| status := 500; body := VObject [("error", VString (message e))] |}
  | Ok X =>
      {| status := 200;
         body := VObject
           [("ok", VBool true);
            ("selected_features", columns);
            ("vectors", data X);
            ("rows", VNumber (of_nat (length X)));
            ("cols", VNumber (of_nat (length (selected_features b))))] |}
  end.

End WithBundle.
End WithWorld.
End Server.

(** ** Specifications

    The properties below are stated with these definitions: what the
    specification says in its own words ([claimed_...]), and what the code
    does, said without its loops. *)

Module Spec.

(** A position is scaled when its mean and its scale are both finite
    numbers and the scale is not zero. *)
Definition scalable (m s : value) : bool :=
  Number_isFinite m && Number_isFinite s && negb (is_zero_value s).

(** [(value - mean) / scale] at a scaled position, the value itself at
    any other. *)
Definition scaled_entry (mean scale : list value) (i : nat) (v : value) : value :=
  let m := at_index mean i in
  let s := at_index scale i in
  if scalable m s
  then VNumber (div (sub (ToNumber v) (ToNumber m)) (ToNumber s))
  else v.

(** Both statistics are arrays as long as the row. *)
Definition scaler_fits (mean scale : option (list value)) (row : list value) : bool :=
  match mean, scale with
  | Some ms, Some ss => (length ms =? length row)%nat && (length ss =? length row)%nat
  | _, _ => false
  end.

(** The key of a categorical value: ["Unknown"] for [null], [undefined]
    and the empty string. *)
Definition coerced_key (v : value) : string :=
  if nullish v then "Unknown"
  else match v with
       | VString EmptyString => "Unknown"
       | _ => ToString v
       end.

(** A declared unknown index: present, and not [null]. *)
Definition declared (unknown_index : option value) : option value :=
  match unknown_index with
  | Some u => if nullish u then None else Some u
  | None => None
  end.

(** The priority order of the lookup: the exact key, else the declared
    unknown index, else the entry of the reserved key, else [0]. *)
Definition resolve_index (mapping : obj) (unknown_index : option value)
    (key : string) : value :=
  match assoc key mapping with
  | Some idx => idx
  | None =>
      match declared unknown_index with
      | Some u => u
      | None =>
          match assoc "__UNK__" mapping with
          | Some idx => idx
          | None => VNumber zero
          end
      end
  end.

(** A number is implausible when it is not finite ([NaN] or an
    infinity) or when its magnitude exceeds 50. *)
Definition implausible_number (x : number) : bool :=
  negb (finite x) || gt (abs x) num_50.

(** An entry of a vector is implausible when it is an implausible
    number; one that is not a number is judged on the magnitude
    [Math.abs] gives it. *)
Definition implausible (v : value) : bool :=
  match v with
  | VNumber x => implausible_number x
  | _ => gt (abs (ToNumber v)) num_50
  end.


(** The encoder of the example: [{"mapping": {"A": 0, "B": 1},
    "unknown_index": 2}], for the column [Gender]. *)
Definition example_encoder : encoder :=
  {| mapping := Some [("A", VNumber zero); ("B", VNumber num_1)];
     unknown_index := Some (VNumber (of_Z 2)) |}.

Definition example_bundle : bundle :=
  {| selected_features := ["Gender"];
     label_encoders := [("Gender", example_encoder)];
     mean_ := None;
     scale_ := None |}.



(** *** Diagnosis codes *)

(** The pattern as the specification words it: one letter, two digits,
    then any number of letters, digits and dots. *)
Definition claimed_icd_here (s : string) : option string :=
  match s with
  | String c (String d1 (String d2 t)) =>
      if is_letter c && is_digit d1 && is_digit d2
      then Some (String c (String d1 (String d2 (fst (span V2.icd_tail t)))))
      else None
  | _ => None
  end.

Fixpoint claimed_icd_match (s : string) : option string :=
  match claimed_icd_here s with
  | Some m => Some m
  | None =>
      match s with
      | String _ r => claimed_icd_match r
      | EmptyString => None
      end
  end.

(** Extraction as the specification words it: the first match in upper
    case, the literal ["Unknown"] when there is none. *)
Definition claimed_onlyICD (s : string) : string :=
  match claimed_icd_match s with
  | Some m => toUpperCase m
  | None => "Unknown"
  end.

(** A string matching the pattern of the code as a whole: one letter, one
    digit, then letters, digits and dots. *)
Definition icd_token (m : string) : bool :=
  match m with
  | String c (String d t) => is_letter c && is_digit d && str_forallb V2.icd_tail t
  | _ => false
  end.

(** A match can begin at the head of the string: a letter, then a digit. *)
Definition begins_icd (s : string) : bool :=
  match s with
  | String c (String d _) => is_letter c && is_digit d
  | _ => false
  end.

(** No match begins at a position of [pre], in [pre ++ rest]. *)
Fixpoint no_icd_before (pre rest : string) : bool :=
  match pre with
  | String _ r => negb (begins_icd (pre ++ rest)) && no_icd_before r rest
  | EmptyString => true
  end.

(** [m] is the first match of the input [pre ++ m ++ post]: it matches, it
    cannot be extended to the right, and no match begins before it. *)
Definition first_icd_match (pre m post : string) : bool :=
  icd_token m && negb (head_in V2.icd_tail post) && no_icd_before pre (m ++ post).


(** *** Procedure codes *)

(** Extraction as the specification words it: the first maximal run of
    digits that has exactly five of them, a run being bounded by characters
    that are not digits or by the ends of the string. *)
Fixpoint claimed_cpt_scan (prev_digit : bool) (s : string) : option string :=
  match s with
  | String c r =>
      let run := fst (span is_digit s) in
      if negb prev_digit && (String.length run =? 5)%nat then Some run
      else claimed_cpt_scan (is_digit c) r
  | EmptyString => None
  end.

Definition claimed_onlyCPT (s : string) : string :=
  match claimed_cpt_scan false s with
  | Some m => m
  | None => "00000"
  end.

Definition five_digits (m : string) : bool :=
  (String.length m =? 5)%nat && str_forallb is_digit m.

(** A whole token of five digits begins at the head of the string, the
    character before it being a word character or not: five digits, with
    no word character (letter, digit or underscore) on either side. *)
Definition begins_cpt (prev_word : bool) (s : string) : bool :=
  negb prev_word && five_digits (str_take 5 s)
  && negb (head_in is_word (str_drop 5 s)).

(** No such token begins at a position of [pre], in [pre ++ rest]. *)
Fixpoint no_cpt_before (prev_word : bool) (pre rest : string) : bool :=
  match pre with
  | String c r =>
      negb (begins_cpt prev_word (pre ++ rest)) && no_cpt_before (is_word c) r rest
  | EmptyString => true
  end.

(** [m] is the first whole token of five digits of [pre ++ m ++ post]. *)
Definition first_cpt_match (pre m post : string) : bool :=
  five_digits m && negb (last_in is_word pre) && negb (head_in is_word post)
  && no_cpt_before false pre (m ++ post).

(** The input has no whole token of five digits. *)
Definition no_cpt_match (s : string) : bool := no_cpt_before false s "".


(** *** The training schema *)

Definition month_fields : list string :=
  [ "NoOfMonths_PartACov"; "NoOfMonths_PartBCov" ].

Definition flag_fields : list string :=
  [ "ChronicCond_Alzheimer"; "ChronicCond_Heartfailure"; "ChronicCond_KidneyDisease";
    "ChronicCond_Cancer"; "ChronicCond_ObstrPulmonary"; "ChronicCond_Depression";
    "ChronicCond_Diabetes"; "ChronicCond_IschemicHeart"; "ChronicCond_Osteoporasis";
    "ChronicCond_rheumatoidarthritis"; "ChronicCond_stroke" ].

Definition amount_fields : list string :=
  [ "InscClaimAmtReimbursed"; "DeductibleAmtPaid"; "IPAnnualReimbursementAmt";
    "IPAnnualDeductibleAmt"; "OPAnnualReimbursementAmt"; "OPAnnualDeductibleAmt" ].

(** The identity and code fields whose default is ["Unknown"] in the
    code. *)
Definition unknown_fields : list string :=
  [ "Provider"; "AttendingPhysician"; "OperatingPhysician"; "OtherPhysician";
    "DiagnosisGroupCode";
    "ClmDiagnosisCode_2"; "ClmDiagnosisCode_3"; "ClmDiagnosisCode_4";
    "ClmDiagnosisCode_5"; "ClmDiagnosisCode_6"; "ClmDiagnosisCode_7";
    "ClmDiagnosisCode_8"; "ClmDiagnosisCode_9"; "ClmDiagnosisCode_10";
    "ClmProcedureCode_2"; "ClmProcedureCode_3"; "ClmProcedureCode_4";
    "ClmProcedureCode_5";
    "Gender"; "Race"; "RenalDiseaseIndicator"; "State"; "County" ].

(** The three code fields filled by extraction. *)
Definition extracted_fields : list string :=
  [ "ClmAdmitDiagnosisCode"; "ClmDiagnosisCode_1"; "ClmProcedureCode_1" ].

Definition derived_fields : list string :=
  [ "AgeAtClaim"; "ClaimDuration"; "ClaimsPerProvider"; "ClaimsPerBene" ].

(** Every field of the training schema. *)
Definition canonical_fields : list string :=
  (month_fields ++ flag_fields ++ amount_fields ++ unknown_fields
   ++ extracted_fields ++ derived_fields)%list.








(** *** Normal configuration *)

(** An encoder is normally configured when the indices of its mapping and
    its unknown index, if it has one, are finite numbers (integers are). *)
Definition normal_encoder (e : encoder) : bool :=
  forallb (fun kv => Number_isFinite (snd kv)) (default [] (mapping e))
  && match unknown_index e with
     | Some u => Number_isFinite u
     | None => true
     end.

Definition normal_bundle (b : bundle) : bool :=
  forallb (fun ke => normal_encoder (snd ke)) (label_encoders b).

(** Position [i] of the vector of [b] is scaled. *)
Definition scales_position (b : bundle) (i : nat) : bool :=
  match mean_ b, scale_ b with
  | Some ms, Some ss =>
      (length ms =? length (selected_features b))%nat
      && (length ss =? length (selected_features b))%nat
      && scalable (at_index ms i) (at_index ss i)
  | _, _ => false
  end.

(** One numeric column, scaled by [(x - 0) / 0.5]. *)
Definition halving_bundle : bundle :=
  {| selected_features := ["AgeAtClaim"];
     label_encoders := [];
     mean_ := Some [VNumber zero];
     scale_ := Some [VNumber num_half] |}.


(** *** The three cores compared *)













(** A categorical column, not scaled, and a numeric one, scaled by
    [(x - 10) / 0.5]. *)
Definition mixed_bundle : bundle :=
  {| selected_features := ["Gender"; "AgeAtClaim"];
     label_encoders := [("Gender", example_encoder)];
     mean_ := Some [VNull; VNumber num_10];
     scale_ := Some [VNull; VNumber num_half] |}.


(** *** The keys of a raw record *)

(** The keys of the user interface, read besides the training keys. *)
Definition ui_keys : list string :=
  [ "provider_id"; "claim_amount"; "referring_physician"; "deductible_amount";
    "service_location"; "diagnosis_code"; "procedure_code";
    "gender"; "race"; "renal"; "state"; "county";
    "patient_age"; "service_frequency" ].

(** Every key [normalizeToTraining] of [preprocess.js] reads. *)
Definition read_keys : list string := (canonical_fields ++ ui_keys)%list.

(** Every key [normalizeToTraining] of [transformer.js] reads. *)
Definition read_keys_V3 : list string :=
  (ui_keys ++ month_fields ++ flag_fields
   ++ [ "IPAnnualReimbursementAmt"; "IPAnnualDeductibleAmt";
        "OPAnnualReimbursementAmt"; "OPAnnualDeductibleAmt";
        "ClaimsPerProvider"; "ClaimsPerBene" ])%list.

(** The fields [preprocess.js] copies from the training key when it is
    present, whatever its value. *)
Definition passthrough_fields : list string :=
  [ "AttendingPhysician"; "OperatingPhysician"; "OtherPhysician";
    "ClmAdmitDiagnosisCode";
    "ClmDiagnosisCode_1"; "ClmDiagnosisCode_2"; "ClmDiagnosisCode_3";
    "ClmDiagnosisCode_4"; "ClmDiagnosisCode_5"; "ClmDiagnosisCode_6";
    "ClmDiagnosisCode_7"; "ClmDiagnosisCode_8"; "ClmDiagnosisCode_9";
    "ClmDiagnosisCode_10";
    "ClmProcedureCode_1"; "ClmProcedureCode_2"; "ClmProcedureCode_3";
    "ClmProcedureCode_4"; "ClmProcedureCode_5";
    "Gender"; "Race"; "RenalDiseaseIndicator"; "State"; "County" ].

(** No string occurs twice in the list. *)
Fixpoint distinct (l : list string) : bool :=
  match l with
  | [] => true
  | k :: r => negb (existsb (str_eqb k) r) && distinct r
  end.

(** The fields [normalizeToTraining] coerces to a number. *)
Definition numeric_fields : list string :=
  (month_fields ++ flag_fields ++ amount_fields ++ derived_fields)%list.


(** The sign of a number: set for the negative numbers, [-0] included. *)
Definition negative (x : number) : bool :=
  match x with
  | S754_zero s | S754_infinity s | S754_finite s _ _ => s
  | S754_nan => false
  end.

Definition digit_or_dot (c : ascii) : bool := is_digit c || (c =? ".")%char.



(** *** Values that convert *)

(** Every member of the record converts: no member is an object with a
    [toString] member of its own, or an array holding one. *)
Definition convertible_record (raw : obj) : bool :=
  forallb (fun kv => convertible (snd kv)) raw.

(** The indices of an encoder convert. *)
Definition convertible_encoder (e : encoder) : bool :=
  convertible_record (default [] (mapping e))
  && match unknown_index e with
     | Some u => convertible u
     | None => true
     end.

(** The indices of the encoders of the bundle convert. *)
Definition convertible_bundle (b : bundle) : bool :=
  forallb (fun ke => convertible_encoder (snd ke)) (label_encoders b).

(** [{"toString": 1}], as [JSON.parse] gives it. *)
Definition shadowed : value := VObject [("toString", VNumber num_1)].


(** *** The claims, where a value does not convert *)

(** A result throws nothing but a [TypeError]. *)
Definition type_errors {A} (r : result A) : Prop :=
  forall e, r = Throw e -> exists msg, e = TypeError msg.

(** The shape of a batch as the specification states it: for every valid
    bundle and every array of records, as many vectors as records, each as
    long as the feature list. *)
Definition claimed_shape : Prop :=
  forall (b : bundle) (rows : list obj),
    selected_features b <> [] ->
    exists vectors,
      V2E.transformBatch b (VArray (map VObject rows)) = Ok vectors /\
      length vectors = length rows /\
      Forall (fun v => length v = length (selected_features b)) vectors.

(** An encoder whose index for ["A"] is [{"toString": 1}], on a column
    that is scaled. *)
Definition shadowed_index_bundle : bundle :=
  {| selected_features := ["Gender"];
     label_encoders :=
       [("Gender", {| mapping := Some [("A", shadowed)]; unknown_index := None |})];
     mean_ := Some [VNumber zero];
     scale_ := Some [VNumber num_1] |}.





(** The look-up as the specification states it, of [encodeCategorical]
    and of [encode]. *)
Definition claimed_encoding : Prop :=
  forall (b : bundle) (col : string) (enc : encoder) (v : value),
    assoc col (label_encoders b) = Some enc ->
    let idx := resolve_index (default [] (mapping enc)) (unknown_index enc)
                 (coerced_key v) in
    V2E.encodeCategorical b col v = Ok idx /\ V3E.encode b col v = Ok idx.

(** An encoder that declares an unknown index and no mapping. *)
Definition bare_encoder_bundle : bundle :=
  {| selected_features := ["Gender"];
     label_encoders :=
       [("Gender", {| mapping := None; unknown_index := Some (VNumber (of_Z 2)) |})];
     mean_ := None;
     scale_ := None |}.

(** The unknown index of the encoder, if it has one, is not [null]. *)
Definition unknown_index_set (e : encoder) : bool :=
  match unknown_index e with
  | Some u => negb (nullish u)
  | None => true
  end.




(** No categorical column of the record holds the name of a member
    inherited from [Object.prototype]. *)
Definition own_keys (b : bundle) (named : obj) : bool :=
  forallb (fun col => negb (V3.is_categorical b col)
                      || negb (inherited (lookup_key (get named col))))
          (selected_features b).


(** One field of the record normalisation returns. *)
Definition normalized_field (raw : obj) (k : string) : result value :=
  let! normalized := V2E.normalizeToTraining raw in
  Ok (get normalized k).


(** An encoder whose unknown index is [null]. *)
Definition null_unknown_bundle : bundle :=
  {| selected_features := ["Gender"];
     label_encoders :=
       [("Gender", {| mapping := Some [("A", VNumber zero)]; unknown_index := Some VNull |})];
     mean_ := None;
     scale_ := None |}.

End Spec.

(** * Properties *)

Local Open Scope list_scope.

(** ** The loops *)

Lemma length_fill cell cols i out :
  length (fill cell cols i out) = length out.
Proof.
  revert i out. induction cols as [|col cols IH]; intros i out; simpl.
  - reflexivity.
  - rewrite IH. apply length_insert.
Qed.

(** Filling a fresh array column by column builds the row of the cells. *)
Lemma fill_spec cell cols i out :
  i + length cols <= length out ->
  fill cell cols i out = take i out ++ map cell cols ++ drop (i + length cols) out.
Proof.
  revert i out. induction cols as [|col cols IH]; intros i out Hlen; simpl in *.
  - rewrite Nat.add_0_r. symmetry. apply take_drop.
  - rewrite IH by (rewrite length_insert; lia).
    rewrite take_S_r with (x := cell col).
    2:{ apply list_lookup_insert_eq. lia. }
    rewrite take_insert_ge by lia.
    rewrite drop_insert_lt by lia.
    rewrite <- app_assoc. simpl.
    replace (S (i + length cols)) with (i + S (length cols)) by lia.
    reflexivity.
Qed.

Lemma fill_fresh cell cols :
  fill cell cols 0 (replicate (length cols) VUndefined) = map cell cols.
Proof.
  rewrite fill_spec by (rewrite length_replicate; lia).
  simpl. rewrite drop_ge by (rewrite length_replicate; lia).
  apply app_nil_r.
Qed.

Lemma length_scale_step ms ss out i :
  length (scale_step ms ss out i) = length out.
Proof.
  unfold scale_step.
  destruct (_ || _); [reflexivity | apply length_insert].
Qed.

Lemma length_scale_loop ms ss idxs out :
  length (foldl (scale_step ms ss) out idxs) = length out.
Proof.
  revert out. induction idxs as [|i idxs IH]; intros out; simpl.
  - reflexivity.
  - rewrite IH. apply length_scale_step.
Qed.

Lemma scale_step_spec ms ss out i :
  i < length out ->
  scale_step ms ss out i = <[i := Spec.scaled_entry ms ss i (at_index out i)]> out.
Proof.
  intros Hi. unfold scale_step, Spec.scaled_entry, Spec.scalable.
  destruct (Number_isFinite (at_index ms i)), (Number_isFinite (at_index ss i)),
    (is_zero_value (at_index ss i)); simpl; try reflexivity;
    symmetry; apply list_insert_id; unfold at_index;
    destruct (lookup_lt_is_Some_2 out i Hi) as [x Hx]; rewrite Hx; reflexivity.
Qed.

(** The turns [k], [k + 1], ... of the scaling loop touch their own
    positions only. *)
Lemma scale_loop_lookup ms ss n k out j :
  k + n <= length out ->
  foldl (scale_step ms ss) out (seq k n) !! j =
    if decide (k <= j < k + n)
    then Spec.scaled_entry ms ss j <$> out !! j
    else out !! j.
Proof.
  revert k out. induction n as [|n IH]; intros k out Hlen; simpl.
  - destruct (decide _); [lia | reflexivity].
  - rewrite IH by (rewrite length_scale_step; lia).
    rewrite scale_step_spec by lia.
    destruct (decide (S k <= j < S k + n)) as [Hin|Hout].
    + rewrite list_lookup_insert_ne by lia.
      destruct (decide _); [reflexivity | lia].
    + destruct (decide (k <= j < k + S n)) as [Hk|Hk].
      * assert (j = k) as -> by lia.
        rewrite list_lookup_insert_eq by lia.
        unfold at_index.
        destruct (lookup_lt_is_Some_2 out k ltac:(lia)) as [x Hx].
        rewrite Hx. reflexivity.
      * rewrite list_lookup_insert_ne by lia. reflexivity.
Qed.

Lemma scale_loop_spec ms ss out :
  foldl (scale_step ms ss) out (seq 0 (length out)) =
    imap (Spec.scaled_entry ms ss) out.
Proof.
  apply list_eq. intros j.
  rewrite scale_loop_lookup by lia.
  rewrite list_lookup_imap.
  destruct (decide _) as [Hin|Hout]; [reflexivity|].
  rewrite lookup_ge_None_2 by lia. reflexivity.
Qed.

Lemma apply_scaler_spec mean scale out :
  apply_scaler mean scale out =
    if Spec.scaler_fits mean scale out
    then imap (Spec.scaled_entry (default [] mean) (default [] scale)) out
    else out.
Proof.
  unfold apply_scaler, Spec.scaler_fits.
  destruct mean as [ms|], scale as [ss|]; try reflexivity.
  destruct (_ && _); [apply scale_loop_spec | reflexivity].
Qed.

Lemma length_apply_scaler mean scale out :
  length (apply_scaler mean scale out) = length out.
Proof.
  rewrite apply_scaler_spec. destruct (Spec.scaler_fits _ _ _); [|reflexivity].
  apply length_imap.
Qed.

(** The second preprocessor builds the whole row first, then scales it. *)
Lemma encode_and_scale_spec b normalized :
  V2.encode_and_scale b normalized =
    apply_scaler (mean_ b) (scale_ b)
      (map (V2.cell b normalized) (selected_features b)).
Proof.
  unfold V2.encode_and_scale. rewrite fill_fresh. reflexivity.
Qed.

Lemma length_encode_and_scale b normalized :
  length (V2.encode_and_scale b normalized) = length (selected_features b).
Proof.
  rewrite encode_and_scale_spec, length_apply_scaler. apply length_map.
Qed.

Lemma length_V1_transformOne b raw :
  length (V1.transformOne b raw) = length (selected_features b).
Proof.
  unfold V1.transformOne.
  rewrite length_apply_scaler, length_fill. apply length_replicate.
Qed.

Lemma map_throw_total {A B} (f : A -> result B) (g : A -> B) (l : list A) :
  (forall x, In x l -> f x = Ok (g x)) ->
  map_throw f l = Ok (map g l).
Proof.
  induction l as [|x l IH]; intros Hf; simpl.
  - reflexivity.
  - rewrite (Hf x) by (left; reflexivity). simpl.
    rewrite IH by (intros y Hy; apply Hf; right; exact Hy).
    reflexivity.
Qed.


(** ** The categorical lookup *)

Lemma lookup_key_coerced v : lookup_key v = Spec.coerced_key v.
Proof. destruct v as [| | | | [|c s] | | |]; reflexivity. Qed.

(** The look-up of [preprocess.js] follows the priority order: the
    entry of the exact key, else the declared unknown index, else the entry
    of the reserved key, else [0]. *)
Lemma encodeCategorical_resolves (b : bundle) (col : string) (enc : encoder)
    (v : value) :
  assoc col (label_encoders b) = Some enc ->
  V2.encodeCategorical b col v =
    Spec.resolve_index (default [] (mapping enc)) (unknown_index enc)
      (Spec.coerced_key v).
Proof.
  intros Henc.
  unfold V2.encodeCategorical, encoder_of, Spec.resolve_index, Spec.declared.
  rewrite Henc, lookup_key_coerced.
  destruct (assoc (Spec.coerced_key v) _); [reflexivity|].
  destruct (unknown_index enc) as [u|]; simpl; [|reflexivity].
  unfold coalesce. destruct (nullish u) eqn:Hu; simpl.
  - reflexivity.
  - rewrite Hu. reflexivity.
Qed.

(** ** C10: anything but an array is refused *)

(** C10.  For every argument that is not an array (a single record object,
    [null], [undefined], ...) [transformBatch] throws the error
    "transformBatch expects an array of objects": it returns nothing and
    does not wrap a single record.  Both versions of [preprocess.js]. *)
Theorem transformBatch_rejects_non_array (b : bundle) (rows : value) :
  Array_isArray rows = false ->
  V1.transformBatch b rows = Throw (Error "transformBatch expects an array of objects") /\
  V2.transformBatch b rows = Throw (Error "transformBatch expects an array of objects").
Proof.
  intros Hrows. destruct rows; try discriminate Hrows; split; reflexivity.
Qed.

Lemma transformBatch_rejects_non_array_witness :
  Array_isArray (VObject [("provider_id", VString "PRV51001")]) = false /\
  V1.transformBatch Spec.example_bundle (VObject [("provider_id", VString "PRV51001")])
    = Throw (Error "transformBatch expects an array of objects") /\
  V2.transformBatch Spec.example_bundle (VObject [("provider_id", VString "PRV51001")])
    = Throw (Error "transformBatch expects an array of objects").
Proof.
  split; [reflexivity|].
  apply (transformBatch_rejects_non_array Spec.example_bundle
           (VObject [("provider_id", VString "PRV51001")])).
  reflexivity.
Defined.

(** ** C4: the sanity guard *)

Lemma is_bad_implausible v : V3.is_bad v = Spec.implausible v.
Proof.
  destruct v as [| | | x | | | |]; try reflexivity.
  destruct x as [sx|sx| |sx m e]; reflexivity.
Qed.

(** The guard throws as soon as the filter keeps one entry. *)
Lemma guard_spec row :
  V3.guard row = if existsb Spec.implausible row then Throw V3.mismatch else Ok row.
Proof.
  unfold V3.guard.
  replace (existsb Spec.implausible row) with (existsb V3.is_bad row).
  2:{ induction row as [|v row IH]; simpl; [reflexivity|].
      rewrite IH, is_bad_implausible. reflexivity. }
  induction row as [|v row IH]; simpl; [reflexivity|].
  destruct (V3.is_bad v); simpl; [reflexivity|].
  destruct (existsb V3.is_bad row), (length (List.filter V3.is_bad row));
    simpl in *; congruence.
Qed.








(** ** Strings *)

Local Open Scope string_scope.

Lemma append_assoc (a b c : string) : (a ++ b) ++ c = a ++ (b ++ c).
Proof. induction a as [|x a IH]; simpl; [reflexivity | rewrite IH; reflexivity]. Qed.

Lemma append_nil_r (a : string) : a ++ "" = a.
Proof. induction a as [|x a IH]; simpl; [reflexivity | rewrite IH; reflexivity]. Qed.

Lemma length_append (a b : string) :
  String.length (a ++ b) = String.length a + String.length b.
Proof. induction a as [|x a IH]; simpl; [reflexivity | rewrite IH; reflexivity]. Qed.

(** White space is neither a letter, a digit, a dot nor an underscore. *)
Lemma space_not_word c : is_space c = true -> is_word c = false.
Proof.
  destruct c as [b0 b1 b2 b3 b4 b5 b6 b7].
  destruct b0, b1, b2, b3, b4, b5, b6, b7; vm_compute; congruence.
Qed.

Lemma space_not_icd_tail c : is_space c = true -> V2.icd_tail c = false.
Proof.
  destruct c as [b0 b1 b2 b3 b4 b5 b6 b7].
  destruct b0, b1, b2, b3, b4, b5, b6, b7; vm_compute; congruence.
Qed.

Lemma space_not_letter c : is_space c = true -> is_letter c = false.
Proof.
  intros H. apply space_not_word in H. unfold is_word in H.
  destruct (is_letter c); [discriminate | reflexivity].
Qed.

Lemma space_not_digit c : is_space c = true -> is_digit c = false.
Proof.
  intros H. apply space_not_word in H. unfold is_word in H.
  destruct (is_digit c); [|reflexivity].
  rewrite orb_true_r in H. discriminate.
Qed.

Lemma digit_is_word c : is_digit c = true -> is_word c = true.
Proof. intros H. unfold is_word. rewrite H, orb_true_r. reflexivity. Qed.

(** What [trim] removes at the end is white space. *)
Lemma trim_end_split s :
  exists w, s = trim_end s ++ w /\ str_forallb is_space w = true.
Proof.
  induction s as [|c r [w [Hr Hw]]]; simpl.
  - exists "". split; reflexivity.
  - destruct (trim_end r) as [|c' r'] eqn:Hte.
    + simpl in Hr. subst r. destruct (is_space c) eqn:Hc.
      * exists (String c w). simpl. rewrite Hc, Hw. split; reflexivity.
      * exists w. split; [reflexivity | exact Hw].
    + exists w. split; [|exact Hw]. simpl. rewrite Hr at 1. reflexivity.
Qed.

Lemma span_app_stop p t post :
  str_forallb p t = true -> head_in p post = false ->
  span p (t ++ post) = (t, post).
Proof.
  intros Ht Hpost. induction t as [|c t IH]; simpl in *.
  - destruct post as [|x post]; simpl in *; [reflexivity|].
    rewrite Hpost. reflexivity.
  - apply andb_prop in Ht as [Hc Ht]. rewrite Hc, (IH Ht). reflexivity.
Qed.

Lemma span_app_spaces p t w :
  (forall c, is_space c = true -> p c = false) ->
  str_forallb is_space w = true ->
  fst (span p (t ++ w)) = fst (span p t).
Proof.
  intros Hp Hw. induction t as [|c t IH]; simpl.
  - destruct w as [|x w]; simpl in *; [reflexivity|].
    apply andb_prop in Hw as [Hx _]. rewrite (Hp x Hx). reflexivity.
  - destruct (p c); [|reflexivity].
    destruct (span p (t ++ w)), (span p t). simpl in *. rewrite IH. reflexivity.
Qed.

(** ** C5: diagnosis codes *)

Lemma icd_here_app_spaces t w :
  str_forallb is_space w = true ->
  V2.icd_here (t ++ w) = V2.icd_here t.
Proof.
  intros Hw. destruct t as [|c [|d t]]; simpl.
  - destruct w as [|x [|y w]]; simpl in *; try reflexivity.
    apply andb_prop in Hw as [Hx _].
    rewrite (space_not_letter x Hx). reflexivity.
  - destruct w as [|x w]; simpl in *; [reflexivity|].
    apply andb_prop in Hw as [Hx _].
    rewrite (space_not_digit x Hx), andb_false_r. reflexivity.
  - rewrite (span_app_spaces _ _ _ space_not_icd_tail Hw). reflexivity.
Qed.

Lemma icd_match_spaces w :
  str_forallb is_space w = true -> V2.icd_match w = None.
Proof.
  induction w as [|x w IH]; intros Hw; [reflexivity|].
  simpl in Hw. apply andb_prop in Hw as [Hx Hw].
  cbn [V2.icd_match].
  replace (V2.icd_here (String x w)) with (@None string).
  - apply IH, Hw.
  - destruct w; simpl; [reflexivity|].
    rewrite (space_not_letter x Hx). reflexivity.
Qed.

Lemma icd_match_app_spaces t w :
  str_forallb is_space w = true ->
  V2.icd_match (t ++ w) = V2.icd_match t.
Proof.
  intros Hw. induction t as [|c t IH].
  - simpl append. rewrite icd_match_spaces by exact Hw. reflexivity.
  - change (String c t ++ w) with (String c (t ++ w)).
    cbn [V2.icd_match].
    change (String c (t ++ w)) with (String c t ++ w).
    rewrite icd_here_app_spaces by exact Hw.
    rewrite IH. reflexivity.
Qed.

Lemma icd_match_trim_start s : V2.icd_match (trim_start s) = V2.icd_match s.
Proof.
  induction s as [|c s IH]; [reflexivity|].
  cbn [trim_start]. destruct (is_space c) eqn:Hc; [|reflexivity].
  rewrite IH. cbn [V2.icd_match].
  replace (V2.icd_here (String c s)) with (@None string); [reflexivity|].
  destruct s; simpl; [reflexivity|].
  rewrite (space_not_letter c Hc). reflexivity.
Qed.

(** Trimming does not change what the pattern finds. *)
Lemma icd_match_trim s : V2.icd_match (str_trim s) = V2.icd_match s.
Proof.
  unfold str_trim.
  destruct (trim_end_split (trim_start s)) as [w [Hs Hw]].
  rewrite <- (icd_match_trim_start s). rewrite Hs at 2.
  rewrite icd_match_app_spaces by exact Hw. reflexivity.
Qed.

Lemma icd_here_begins s : Spec.begins_icd s = false -> V2.icd_here s = None.
Proof.
  destruct s as [|c [|d t]]; simpl; try reflexivity.
  intros ->. reflexivity.
Qed.

Lemma icd_match_first pre m post :
  Spec.first_icd_match pre m post = true ->
  V2.icd_match (pre ++ m ++ post) = Some m.
Proof.
  unfold Spec.first_icd_match. intros H.
  apply andb_prop in H as [H Hpre]. apply andb_prop in H as [Hm Hpost].
  apply negb_true_iff in Hpost.
  induction pre as [|x pre IH].
  - destruct m as [|c [|d t]]; try discriminate Hm. simpl in *.
    apply andb_prop in Hm as [Hcd Ht]. rewrite Hcd.
    rewrite (span_app_stop _ _ _ Ht Hpost). reflexivity.
  - cbn [Spec.no_icd_before] in Hpre. apply andb_prop in Hpre as [Hx Hpre].
    apply negb_true_iff in Hx.
    change (String x pre ++ m ++ post) with (String x (pre ++ m ++ post)) in *.
    cbn [V2.icd_match]. rewrite (icd_here_begins _ Hx).
    apply IH, Hpre.
Qed.

(** C5, as the code has it.  [onlyICD] returns, in upper case, the first
    substring of the input matching, whatever the case of its letters, one
    letter followed by one digit followed by any number of letters, digits
    and dots.  In particular ["Diag: e11.9 present"] gives ["E11.9"]. *)
Theorem onlyICD_first_match (pre m post : string) :
  Spec.first_icd_match pre m post = true ->
  V2.onlyICD (VString (pre ++ m ++ post)) = toUpperCase m /\
  V3.onlyICD (VString (pre ++ m ++ post)) = toUpperCase m /\
  V2.onlyICD (VString "Diag: e11.9 present") = "E11.9".
Proof.
  intros H.
  assert (V2.icd_match (str_trim (pre ++ m ++ post)) = Some m) as Hm
    by (rewrite icd_match_trim; apply icd_match_first, H).
  assert (str_eqb m "" = false) as Hne.
  { unfold Spec.first_icd_match in H. destruct m; [discriminate H | reflexivity]. }
  unfold V2.onlyICD, V3.onlyICD, V2.trim, V3.trim. simpl coalesce. simpl ToString.
  rewrite Hm, Hne. repeat split.
Qed.

Lemma onlyICD_first_match_witness :
  Spec.first_icd_match "Diag: " "e11.9" " present" = true /\
  V2.onlyICD (VString ("Diag: " ++ "e11.9" ++ " present")) = toUpperCase "e11.9".
Proof.
  split; [reflexivity|].
  apply (onlyICD_first_match "Diag: " "e11.9" " present").
  reflexivity.
Defined.

(** C5 as stated fails.  The input ["B5"] has no substring made of a
    letter and two digits, so the extraction worded by the specification gives
    ["Unknown"]; the code matches a letter and one digit and returns
    ["B5"]. *)
Lemma onlyICD_one_digit_counterexample :
  Spec.claimed_icd_match "B5" = None /\
  Spec.claimed_onlyICD "B5" = "Unknown" /\
  V2.onlyICD (VString "B5") = "B5" /\
  V2.onlyICD (VString "B5") <> Spec.claimed_onlyICD "B5".
Proof.
  split; [reflexivity|]. split; [reflexivity|]. split; [reflexivity|].
  vm_compute. discriminate.
Qed.

(** ** C6: procedure codes *)

Lemma head_is_word_head_in s : V2.head_is_word s = head_in is_word s.
Proof. destruct s; reflexivity. Qed.

(** The match of [/\b\d{5}\b/] at a position is the whole token of five
    digits that begins there. *)
Lemma cpt_here_begins p s :
  V2.cpt_here p s = if Spec.begins_cpt p s then Some (str_take 5 s) else None.
Proof.
  unfold Spec.begins_cpt, Spec.five_digits, V2.boundary.
  destruct s as [|c1 [|c2 [|c3 [|c4 [|c5 t]]]]]; simpl;
    rewrite ?andb_false_r; try reflexivity.
  rewrite head_is_word_head_in. unfold V2.boundary.
  destruct (is_digit c1) eqn:H1; simpl.
  2:{ rewrite ?andb_false_r. reflexivity. }
  rewrite (digit_is_word c1 H1).
  destruct (is_digit c2), (is_digit c3), (is_digit c4); simpl;
    rewrite ?andb_false_r; try reflexivity.
  destruct (is_digit c5) eqn:H5; simpl; rewrite ?andb_false_r; try reflexivity.
  rewrite (digit_is_word c5 H5).
  destruct p, (head_in is_word t); reflexivity.
Qed.

Lemma str_take_app m post :
  str_take (String.length m) (m ++ post) = m.
Proof. induction m as [|c m IH]; simpl; [destruct post|rewrite IH]; reflexivity. Qed.

Lemma str_drop_app m post :
  str_drop (String.length m) (m ++ post) = post.
Proof. induction m as [|c m IH]; simpl; [reflexivity | exact IH]. Qed.

Lemma cpt_scan_first p pre m post :
  Spec.five_digits m = true ->
  head_in is_word post = false ->
  (match pre with EmptyString => p | _ => last_in is_word pre end) = false ->
  Spec.no_cpt_before p pre (m ++ post) = true ->
  V2.cpt_scan p (pre ++ m ++ post) = Some m.
Proof.
  intros Hm Hpost. revert p. induction pre as [|x pre IH]; intros p Hprev Hpre.
  - subst p. simpl append.
    assert (String.length m = 5) as Hlen.
    { unfold Spec.five_digits in Hm. apply andb_prop in Hm as [Hm _].
      apply Nat.eqb_eq, Hm. }
    assert (V2.cpt_here false (m ++ post) = Some m) as Hhere.
    { rewrite cpt_here_begins. unfold Spec.begins_cpt.
      rewrite <- Hlen, str_take_app, str_drop_app, Hm, Hpost. reflexivity. }
    destruct (m ++ post); cbn [V2.cpt_scan]; rewrite Hhere; reflexivity.
  - cbn [Spec.no_cpt_before] in Hpre. apply andb_prop in Hpre as [Hx Hpre].
    apply negb_true_iff in Hx.
    change (String x pre ++ m ++ post) with (String x (pre ++ m ++ post)) in *.
    cbn [V2.cpt_scan]. rewrite cpt_here_begins, Hx.
    apply IH; [|exact Hpre].
    destruct pre; [exact Hprev|]. exact Hprev.
Qed.

Lemma cpt_scan_none p s :
  Spec.no_cpt_before p s "" = true -> V2.cpt_scan p s = None.
Proof.
  revert p. induction s as [|c s IH]; intros p H.
  - reflexivity.
  - cbn [Spec.no_cpt_before] in H. apply andb_prop in H as [Hc H].
    apply negb_true_iff in Hc. rewrite append_nil_r in Hc.
    cbn [V2.cpt_scan]. rewrite cpt_here_begins, Hc. apply IH, H.
Qed.

Lemma str_forallb_space_head w :
  str_forallb is_space w = true -> head_in is_word w = false.
Proof.
  destruct w as [|x w]; simpl; [reflexivity|].
  intros H. apply andb_prop in H as [Hx _]. apply space_not_word, Hx.
Qed.

Lemma cpt_here_app_spaces p t w :
  str_forallb is_space w = true ->
  V2.cpt_here p (t ++ w) = V2.cpt_here p t.
Proof.
  intros Hw.
  assert (forall x r, w = String x r -> is_digit x = false) as Hd.
  { intros x r ->. simpl in Hw. apply andb_prop in Hw as [Hx _].
    apply space_not_digit, Hx. }
  destruct t as [|c1 [|c2 [|c3 [|c4 [|c5 t]]]]].
  6:{ simpl. rewrite !head_is_word_head_in.
      destruct t; simpl; [|reflexivity].
      rewrite (str_forallb_space_head w Hw). reflexivity. }
  all: destruct w as [|x w]; [reflexivity|];
    specialize (Hd x w eq_refl);
    destruct w as [|x2 [|x3 [|x4 [|x5 w]]]]; simpl; try reflexivity;
    rewrite Hd, ?andb_false_r; simpl; rewrite ?andb_false_r; reflexivity.
Qed.

Lemma cpt_scan_spaces p w :
  str_forallb is_space w = true -> V2.cpt_scan p w = None.
Proof.
  revert p. induction w as [|x w IH]; intros p Hw; [reflexivity|].
  cbn [V2.cpt_scan].
  change (String x w) with ("" ++ String x w) at 1.
  rewrite cpt_here_app_spaces by exact Hw.
  simpl in Hw. apply andb_prop in Hw as [_ Hw].
  apply IH, Hw.
Qed.

Lemma cpt_scan_app_spaces p t w :
  str_forallb is_space w = true ->
  V2.cpt_scan p (t ++ w) = V2.cpt_scan p t.
Proof.
  intros Hw. revert p. induction t as [|c t IH]; intros p.
  - simpl append. rewrite cpt_scan_spaces by exact Hw. reflexivity.
  - change (String c t ++ w) with (String c (t ++ w)).
    cbn [V2.cpt_scan].
    change (String c (t ++ w)) with (String c t ++ w).
    rewrite cpt_here_app_spaces by exact Hw.
    rewrite IH. reflexivity.
Qed.

Lemma cpt_scan_trim_start s :
  V2.cpt_scan false (trim_start s) = V2.cpt_scan false s.
Proof.
  induction s as [|c s IH]; [reflexivity|].
  cbn [trim_start]. destruct (is_space c) eqn:Hc; [|reflexivity].
  rewrite IH. cbn [V2.cpt_scan].
  rewrite (space_not_word c Hc).
  replace (V2.cpt_here false (String c s)) with (@None string); [reflexivity|].
  rewrite cpt_here_begins. unfold Spec.begins_cpt, Spec.five_digits.
  destruct s as [|c2 [|c3 [|c4 [|c5 s]]]]; simpl; try reflexivity;
    rewrite (space_not_digit c Hc); reflexivity.
Qed.

(** Trimming does not change what the pattern finds. *)
Lemma cpt_match_trim s : V2.cpt_match (str_trim s) = V2.cpt_match s.
Proof.
  unfold V2.cpt_match, str_trim.
  destruct (trim_end_split (trim_start s)) as [w [Hs Hw]].
  rewrite <- (cpt_scan_trim_start s). rewrite Hs at 2.
  rewrite cpt_scan_app_spaces by exact Hw. reflexivity.
Qed.

(** C6, as the code has it.  [onlyCPT] returns the first run of exactly
    five digits that is bounded, on each side, by a character that is not a
    word character (a letter, a digit or the underscore) or by an end of the
    string; if the input has no such run it returns ["00000"].  In
    particular ["cpt 99213 billed"] gives ["99213"]. *)
Theorem onlyCPT_first_token :
  (forall pre m post,
      Spec.first_cpt_match pre m post = true ->
      V2.onlyCPT (VString (pre ++ m ++ post)) = m /\
      V3.onlyCPT (VString (pre ++ m ++ post)) = m) /\
  (forall s,
      Spec.no_cpt_match s = true ->
      V2.onlyCPT (VString s) = "00000" /\ V3.onlyCPT (VString s) = "00000") /\
  V2.onlyCPT (VString "cpt 99213 billed") = "99213".
Proof.
  split; [|split; [|reflexivity]].
  - intros pre m post H. unfold Spec.first_cpt_match in H.
    apply andb_prop in H as [H Hnone]. apply andb_prop in H as [H Hpost].
    apply andb_prop in H as [Hm Hpre].
    apply negb_true_iff in Hpost, Hpre.
    assert (V2.cpt_match (str_trim (pre ++ m ++ post)) = Some m) as Hfound.
    { rewrite cpt_match_trim. apply cpt_scan_first; try assumption.
      destruct pre; [reflexivity | exact Hpre]. }
    assert (str_eqb m "" = false) as Hne by (destruct m; [discriminate Hm | reflexivity]).
    unfold V2.onlyCPT, V3.onlyCPT, V2.trim, V3.trim. simpl coalesce. simpl ToString.
    rewrite Hfound, Hne. split; reflexivity.
  - intros s H.
    assert (V2.cpt_match (str_trim s) = None) as Hnone
      by (rewrite cpt_match_trim; apply cpt_scan_none, H).
    unfold V2.onlyCPT, V3.onlyCPT, V2.trim, V3.trim. simpl coalesce. simpl ToString.
    rewrite Hnone. split; reflexivity.
Qed.

Lemma onlyCPT_first_token_witness :
  Spec.first_cpt_match "cpt " "99213" " billed" = true /\
  V2.onlyCPT (VString ("cpt " ++ "99213" ++ " billed")) = "99213" /\
  Spec.no_cpt_match "x12345 and 123456" = true /\
  V2.onlyCPT (VString "x12345 and 123456") = "00000".
Proof.
  split; [reflexivity|]. split.
  - apply (proj1 onlyCPT_first_token "cpt " "99213" " billed"). reflexivity.
  - split; [reflexivity|].
    apply (proj1 (proj2 onlyCPT_first_token) "x12345 and 123456"). reflexivity.
Defined.

(** C6 as stated fails.  In ["x12345"] the run [12345] has exactly five
    digits and is bounded by the letter [x], which is not a digit, and by
    the end of the string: the extraction worded by the specification gives
    ["12345"].  The code asks for a word boundary on each side, finds none
    between [x] and [1], and returns ["00000"]. *)
Lemma onlyCPT_word_boundary_counterexample :
  Spec.claimed_onlyCPT "x12345" = "12345" /\
  V2.onlyCPT (VString "x12345") = "00000" /\
  V2.onlyCPT (VString "x12345") <> Spec.claimed_onlyCPT "x12345".
Proof.
  split; [reflexivity|]. split; [reflexivity|].
  vm_compute. discriminate.
Qed.

(** ** Normalisation: fields and defaults *)

Local Open Scope list_scope.

Lemma get_cons_eq k v o : get ((k, v) :: o) k = v.
Proof. unfold get. simpl. unfold str_eqb. rewrite String.eqb_refl. reflexivity. Qed.

Lemma get_cons_ne k k' v o :
  str_eqb k k' = false -> get ((k', v) :: o) k = get o k.
Proof. intros H. unfold get. simpl. rewrite H. reflexivity. Qed.

(** Reads a field of the record literal of [normalizeToTraining]: the
    reads of the raw record are kept as they are, the look-up in the literal
    is computed. *)
Ltac get_field raw :=
  unfold V2.normalizeToTraining, V3.normalizeToTraining;
  let g := fresh "g" in
  set (g := get raw) in *; clearbody g;
  cbv [get assoc str_eqb String.eqb Ascii.eqb Bool.eqb].

(** Splits [In k l], for a literal list [l], into its cases. *)
Ltac each_field H :=
  cbv [Spec.canonical_fields Spec.month_fields Spec.flag_fields Spec.amount_fields
       Spec.unknown_fields Spec.extracted_fields Spec.derived_fields app] in H;
  simpl In in H;
  repeat (destruct H as [<-|H]); [..|contradiction H].

Lemma coalesce_defined a d : nullish d = false -> nullish (coalesce a d) = false.
Proof. unfold coalesce. destruct (nullish a) eqn:Ha; congruence. Qed.

Lemma or_else_defined a d : nullish d = false -> nullish (or_else a d) = false.
Proof.
  unfold or_else. destruct (truthy a) eqn:Ha; [|congruence].
  intros _. destruct a; try reflexivity; discriminate Ha.
Qed.

Lemma coalesce_missing a d : nullish a = true -> coalesce a d = d.
Proof. unfold coalesce. intros ->. reflexivity. Qed.










(** With no diagnosis code to extract, the fallback literal is put in upper
    case along with the matches. *)
Example onlyICD_no_match :
  V2.onlyICD (VString "no code") = "UNKNOWN" /\
  get (V2.normalizeToTraining []) "ClmDiagnosisCode_1" = VString "UNKNOWN".
Proof. split; reflexivity. Qed.

(** ** Floating-point results that are never [NaN] *)

Local Open Scope Z_scope.

Lemma iter_pos_invariant {A} (P : A -> Prop) (f : A -> A) :
  (forall x, P x -> P (f x)) ->
  forall p x, P x -> P (SpecFloat.iter_pos f p x).
Proof.
  intros Hf. induction p as [p IH|p IH|]; intros x Hx; simpl.
  - apply IH, IH, Hf, Hx.
  - apply IH, IH, Hx.
  - apply Hf, Hx.
Qed.

Lemma shr_1_nonneg mrs : 0 <= shr_m mrs -> 0 <= shr_m (shr_1 mrs).
Proof.
  destruct mrs as [m r s]. simpl.
  destruct m as [|[p|p|]|[p|p|]]; simpl; lia.
Qed.

Lemma shr_nonneg mrs e n : 0 <= shr_m mrs -> 0 <= shr_m (fst (shr mrs e n)).
Proof.
  intros H. unfold shr. destruct n as [|p|p]; simpl; try exact H.
  apply (iter_pos_invariant (fun x => 0 <= shr_m x)); [apply shr_1_nonneg | exact H].
Qed.

Lemma shr_fexp_nonneg m e l :
  0 <= m -> 0 <= shr_m (fst (shr_fexp prec emax m e l)).
Proof.
  intros H. unfold shr_fexp. apply shr_nonneg.
  destruct l as [|[]]; simpl; exact H.
Qed.

Lemma round_nearest_even_nonneg m l : 0 <= m -> 0 <= round_nearest_even m l.
Proof.
  intros H. unfold round_nearest_even.
  destruct l as [|[]]; try lia. destruct (Z.even m); lia.
Qed.

(** Rounding a non-negative mantissa gives a zero, a finite number or an
    infinity. *)
Lemma binary_round_aux_not_nan sx mx ex lx :
  0 <= mx -> isNaN (binary_round_aux prec emax sx mx ex lx) = false.
Proof.
  intros H. unfold binary_round_aux.
  pose proof (shr_fexp_nonneg mx ex lx H) as H1.
  destruct (shr_fexp prec emax mx ex lx) as [mrs' e']. simpl in H1.
  pose proof (shr_fexp_nonneg
                (round_nearest_even (shr_m mrs') (loc_of_shr_record mrs')) e' loc_Exact
                (round_nearest_even_nonneg _ _ H1)) as H2.
  destruct (shr_fexp prec emax _ e' loc_Exact) as [mrs'' e'']. simpl in H2.
  destruct (shr_m mrs'') as [|p|p]; [reflexivity| |lia].
  destruct (e'' <=? emax - prec); reflexivity.
Qed.

Lemma binary_normalize_not_nan m e szero :
  isNaN (binary_normalize prec emax m e szero) = false.
Proof.
  unfold binary_normalize, binary_round.
  destruct m as [|p|p]; [reflexivity| |];
    destruct (shl_align _ _ _) as [mz ez]; apply binary_round_aux_not_nan; lia.
Qed.

(** The difference of two finite numbers is never [NaN]. *)
Lemma sub_not_nan x y :
  finite x = true -> finite y = true -> isNaN (sub x y) = false.
Proof.
  unfold sub, SFsub.
  destruct x as [sx|sx| |sx mx ex], y as [sy|sy| |sy my ey];
    try discriminate; intros _ _; try reflexivity.
  - destruct sx, sy; reflexivity.
  - apply binary_normalize_not_nan.
Qed.

(** Dividing anything but [NaN] by a finite number that is not zero never
    gives [NaN]. *)
Lemma div_not_nan x y :
  isNaN x = false -> finite y = true -> is_zero y = false ->
  isNaN (div x y) = false.
Proof.
  unfold div, SFdiv.
  destruct x as [sx|sx| |sx mx ex], y as [sy|sy| |sy my ey];
    try discriminate; intros _ _ _; try reflexivity.
  unfold SFdiv_core_binary.
  set (m' := match _ - _ - _ with Z0 => _ | Zpos _ => _ | Zneg _ => _ end).
  assert (0 <= m') as Hm'.
  { subst m'. destruct (_ - _ - _); try lia. apply Z.shiftl_nonneg. lia. }
  pose proof (Z.div_pos m' (Zpos my) Hm' ltac:(lia)) as Hq.
  unfold Z.div in Hq.
  destruct (Z.div_eucl m' (Zpos my)) as [q r].
  apply binary_round_aux_not_nan, Hq.
Qed.

Local Close Scope Z_scope.

(** ** The entries of a vector *)

Lemma toNum_finite v : finite (V2.toNum v) = true.
Proof.
  unfold V2.toNum, V2.isFiniteNum.
  destruct (Number_isFinite v) eqn:Hv.
  - destruct v; try discriminate Hv. exact Hv.
  - destruct (finite (ToNumber v)) eqn:Hn; [exact Hn | reflexivity].
Qed.

Lemma assoc_forallb {A} (p : A -> bool) k (l : list (string * A)) v :
  forallb (fun kv => p (snd kv)) l = true -> assoc k l = Some v -> p v = true.
Proof.
  induction l as [|[k' v'] l IH]; simpl; [discriminate|].
  intros H. apply andb_prop in H as [Hv Hl].
  destruct (str_eqb k k'); [|apply IH, Hl].
  intros [= <-]. exact Hv.
Qed.

Lemma encoder_of_normal b col e :
  Spec.normal_bundle b = true -> encoder_of b col = Some e ->
  Spec.normal_encoder e = true.
Proof.
  unfold encoder_of, Spec.normal_bundle. intros Hb.
  destruct (assoc col (label_encoders b)) as [e'|] eqn:He.
  - intros [= <-]. exact (assoc_forallb _ _ _ _ Hb He).
  - destruct (inherited col); [|discriminate]. intros [= <-]. reflexivity.
Qed.

(** Under a normal configuration a categorical column encodes to a finite
    number. *)
Lemma encodeCategorical_finite b col e v :
  Spec.normal_bundle b = true -> encoder_of b col = Some e ->
  Number_isFinite (V2.encodeCategorical b col v) = true.
Proof.
  intros Hb He. pose proof (encoder_of_normal b col e Hb He) as Hn.
  unfold V2.encodeCategorical. rewrite He.
  unfold Spec.normal_encoder in Hn. apply andb_prop in Hn as [Hmap Hunk].
  destruct (assoc (lookup_key v) _) as [idx|] eqn:Hkey.
  { exact (assoc_forallb _ _ _ _ Hmap Hkey). }
  destruct (unknown_index e) as [u|]; simpl.
  - unfold coalesce. destruct (nullish u) eqn:Hu.
    + destruct u; discriminate.
    + rewrite Hu. simpl. exact Hunk.
  - destruct (assoc "__UNK__" _) as [idx|] eqn:Hs; [|reflexivity].
    exact (assoc_forallb _ _ _ _ Hmap Hs).
Qed.

Lemma cell_finite b normalized col :
  Spec.normal_bundle b = true ->
  Number_isFinite (V2.cell b normalized col) = true.
Proof.
  intros Hb. unfold V2.cell.
  destruct (encoder_of b col) as [e|] eqn:He.
  - apply (encodeCategorical_finite b col e); assumption.
  - apply toNum_finite.
Qed.

Lemma scalable_inv m s :
  Spec.scalable m s = true ->
  exists mx sx, m = VNumber mx /\ s = VNumber sx /\
                finite mx = true /\ finite sx = true /\ is_zero sx = false.
Proof.
  unfold Spec.scalable. intros H.
  apply andb_prop in H as [H Hz]. apply andb_prop in H as [Hm Hs].
  apply negb_true_iff in Hz.
  destruct m as [| | |mx| | | |]; try discriminate Hm.
  destruct s as [| | |sx| | | |]; try discriminate Hs.
  exists mx, sx. repeat split; assumption.
Qed.

(** A finite entry stays a number that is not [NaN] when it is scaled. *)
Lemma scaled_entry_number ms ss i v :
  Number_isFinite v = true ->
  exists x, Spec.scaled_entry ms ss i v = VNumber x /\ isNaN x = false /\
            (Spec.scalable (at_index ms i) (at_index ss i) = false -> finite x = true).
Proof.
  intros Hv. destruct v as [| | |x| | | |]; try discriminate Hv. simpl in Hv.
  unfold Spec.scaled_entry.
  destruct (Spec.scalable _ _) eqn:Hsc.
  - destruct (scalable_inv _ _ Hsc) as [mx [sx [-> [-> [Hm [Hs Hz]]]]]].
    eexists. split; [reflexivity|]. split; [|discriminate].
    simpl. apply div_not_nan; [|assumption..].
    apply sub_not_nan; assumption.
  - exists x. split; [reflexivity|]. split; [|intros _; exact Hv].
    destruct x; try discriminate Hv; reflexivity.
Qed.

(** What [buildVector] returns has passed its guard: the numbers in it
    are finite. *)
Lemma guard_numbers_finite row out x :
  V3.guard row = Ok out -> In (VNumber x) out -> finite x = true.
Proof.
  rewrite guard_spec. destruct (existsb Spec.implausible row) eqn:Hbad; [discriminate|].
  intros [= <-] Hx.
  assert (Spec.implausible (VNumber x) = false) as Hp.
  { destruct (Spec.implausible (VNumber x)) eqn:Hp; [|reflexivity].
    rewrite <- Hbad. symmetry. apply existsb_exists. eauto. }
  simpl in Hp. unfold Spec.implausible_number in Hp.
  apply orb_false_iff in Hp as [Hp _]. apply negb_false_iff, Hp.
Qed.

(** For a normally configured bundle, every entry of the vector computed
    for a record is a number and never [NaN]; the entry of a position that
    is not scaled is finite. *)
Lemma transformOne_entries (b : bundle) (raw : obj) :
  Spec.normal_bundle b = true ->
  forall i v, V2.encode_and_scale b (V2.normalizeToTraining raw) !! i = Some v ->
    exists x, v = VNumber x /\ isNaN x = false /\
              (Spec.scales_position b i = false -> finite x = true).
Proof.
  intros Hb i v Hv.
  rewrite encode_and_scale_spec, apply_scaler_spec in Hv.
  set (row := map (V2.cell b (V2.normalizeToTraining raw)) (selected_features b)) in *.
  assert (forall j w, row !! j = Some w -> Number_isFinite w = true) as Hrow.
  { intros j w Hw. subst row. rewrite list_lookup_fmap in Hw.
    destruct (selected_features b !! j); [|discriminate].
    injection Hw as <-. apply cell_finite, Hb. }
  assert (length row = length (selected_features b)) as Hlen
    by (subst row; apply length_map).
  unfold Spec.scales_position. unfold Spec.scaler_fits in Hv.
  destruct (mean_ b) as [ms|], (scale_ b) as [ss|]; simpl in Hv.
  2-4: (specialize (Hrow i v Hv); destruct v; try discriminate Hrow;
        eexists; split; [reflexivity|]; split; [|intros _; exact Hrow];
        destruct x; try discriminate Hrow; reflexivity).
  rewrite Hlen in Hv.
  destruct (_ && _); simpl.
  - rewrite list_lookup_imap in Hv.
    destruct (row !! i) as [w|] eqn:Hw; [|discriminate].
    injection Hv as <-.
    apply scaled_entry_number, (Hrow i w Hw).
  - specialize (Hrow i v Hv). destruct v; try discriminate Hrow.
    eexists. split; [reflexivity|]. split; [|intros _; exact Hrow].
    destruct x; try discriminate Hrow; reflexivity.
Qed.

(** ** C9: the three cores *)






(** On a categorical column with a mapping, the look-up of
    [transformer.js] is the one of [preprocess.js], as long as the key is
    not the name of an inherited member and the unknown index is not
    [null]. *)
Lemma encode_V3_V2 b col e m v :
  encoder_of b col = Some e -> mapping e = Some m ->
  match unknown_index e with Some u => negb (nullish u) | None => true end = true ->
  inherited (lookup_key v) = false ->
  V3.encode b col v = V2.encodeCategorical b col v.
Proof.
  intros He Hm Hu Hk. unfold V3.encode, V2.encodeCategorical.
  rewrite He, Hm. simpl default.
  unfold has_property, hasOwnProperty, get. rewrite Hk.
  destruct (assoc (lookup_key v) m); [reflexivity|]. simpl.
  destruct (unknown_index e) as [u|]; simpl.
  - apply negb_true_iff in Hu. unfold coalesce. rewrite Hu. simpl. rewrite Hu. reflexivity.
  - destruct (assoc "__UNK__" m); reflexivity.
Qed.







(** * Further properties of the sources *)

Local Open Scope list_scope.

(** Membership in a literal list of strings, decided by computation. *)
Lemma existsb_str_In k l : existsb (str_eqb k) l = true -> In k l.
Proof.
  intros H. apply existsb_exists in H as [x [Hx Heq]].
  apply String.eqb_eq in Heq. subst x. exact Hx.
Qed.

Lemma In_existsb_str k l : In k l -> existsb (str_eqb k) l = true.
Proof.
  intros H. apply existsb_exists. exists k. split; [exact H|].
  apply String.eqb_refl.
Qed.

Lemma incl_by_computation (l1 l2 : list string) :
  forallb (fun k => existsb (str_eqb k) l2) l1 = true -> incl l1 l2.
Proof.
  intros H k Hk. rewrite forallb_forall in H. apply existsb_str_In, H, Hk.
Qed.

Lemma distinct_NoDup l : Spec.distinct l = true -> NoDup l.
Proof.
  induction l as [|k l IH]; simpl; intros H; constructor.
  - apply andb_prop in H as [H _]. apply negb_true_iff in H.
    intros Hin. apply list_elem_of_In, In_existsb_str in Hin. congruence.
  - apply andb_prop in H as [_ H]. apply IH, H.
Qed.

(** ** Numeric coercion *)

Lemma toNum_idempotent v : V2.toNum (VNumber (V2.toNum v)) = V2.toNum v.
Proof.
  unfold V2.toNum at 1. unfold V2.isFiniteNum. simpl.
  rewrite toNum_finite. reflexivity.
Qed.

(** ** The record normalisation builds *)

Lemma normalized_keys_V2 raw :
  map fst (V2.normalizeToTraining raw) =
    [ "Provider"; "InscClaimAmtReimbursed"; "AttendingPhysician"; "OperatingPhysician";
      "OtherPhysician"; "ClmAdmitDiagnosisCode"; "DeductibleAmtPaid"; "DiagnosisGroupCode";
      "ClmDiagnosisCode_1"; "ClmDiagnosisCode_2"; "ClmDiagnosisCode_3";
      "ClmDiagnosisCode_4"; "ClmDiagnosisCode_5"; "ClmDiagnosisCode_6";
      "ClmDiagnosisCode_7"; "ClmDiagnosisCode_8"; "ClmDiagnosisCode_9";
      "ClmDiagnosisCode_10";
      "ClmProcedureCode_1"; "ClmProcedureCode_2"; "ClmProcedureCode_3";
      "ClmProcedureCode_4"; "ClmProcedureCode_5";
      "Gender"; "Race"; "RenalDiseaseIndicator"; "State"; "County";
      "NoOfMonths_PartACov"; "NoOfMonths_PartBCov";
      "ChronicCond_Alzheimer"; "ChronicCond_Heartfailure"; "ChronicCond_KidneyDisease";
      "ChronicCond_Cancer"; "ChronicCond_ObstrPulmonary"; "ChronicCond_Depression";
      "ChronicCond_Diabetes"; "ChronicCond_IschemicHeart"; "ChronicCond_Osteoporasis";
      "ChronicCond_rheumatoidarthritis"; "ChronicCond_stroke";
      "IPAnnualReimbursementAmt"; "IPAnnualDeductibleAmt";
      "OPAnnualReimbursementAmt"; "OPAnnualDeductibleAmt";
      "AgeAtClaim"; "ClaimDuration"; "ClaimsPerProvider"; "ClaimsPerBene" ].
Proof. reflexivity. Qed.

(** X2.  Whatever the raw record, the record [normalizeToTraining] builds
    has the same keys, in the same order, in [preprocess.js] and in
    [transformer.js]: the 49 fields of the training schema, each once. *)
Theorem normalized_keys (raw raw' : obj) :
  map fst (V2.normalizeToTraining raw) = map fst (V3.normalizeToTraining raw') /\
  NoDup (map fst (V2.normalizeToTraining raw)) /\
  length (V2.normalizeToTraining raw) = 49 /\
  (forall k, In k (map fst (V2.normalizeToTraining raw)) <-> In k Spec.canonical_fields).
Proof.
  split; [reflexivity|]. split; [|split; [reflexivity|]].
  - rewrite normalized_keys_V2. apply distinct_NoDup. reflexivity.
  - rewrite normalized_keys_V2. intros k. split.
    + apply incl_by_computation. reflexivity.
    + apply incl_by_computation. reflexivity.
Qed.

Lemma coalesce_keep a d : nullish a = false -> coalesce a d = a.
Proof. unfold coalesce. intros ->. reflexivity. Qed.

Lemma or_else_idempotent a : or_else (or_else a V2.Unknown) V2.Unknown = or_else a V2.Unknown.
Proof. unfold or_else. destruct (truthy a) eqn:Ha; [rewrite Ha|]; reflexivity. Qed.

(** Settles that a field of a normalised record is neither [undefined]
    nor [null]. *)
Ltac field_defined :=
  repeat first [reflexivity | apply coalesce_defined | apply or_else_defined].

(** X3.  Normalisation is idempotent: a record that is already normalised
    is left as it is, so [transformOne] gives the same vector for a raw
    record and for its normalised form.  ([preprocess.js] accepts the keys of
    the user interface and the training keys alike.) *)
Theorem normalize_idempotent (b : bundle) (raw : obj) :
  V2.normalizeToTraining (V2.normalizeToTraining raw) = V2.normalizeToTraining raw /\
  V2.transformOne b (VObject (V2.normalizeToTraining raw)) = V2.transformOne b (VObject raw).
Proof.
  assert (V2.normalizeToTraining (V2.normalizeToTraining raw)
          = V2.normalizeToTraining raw) as Hidem.
  { unfold V2.normalizeToTraining.
    set (g := get raw). clearbody g.
    cbv [get assoc str_eqb String.eqb Ascii.eqb Bool.eqb inherited existsb
         object_prototype_names].
    rewrite !(coalesce_keep (VNumber _)) by reflexivity.
    rewrite !toNum_idempotent.
    rewrite !(coalesce_keep (coalesce _ _)) by field_defined.
    rewrite !(coalesce_keep (or_else _ _)) by field_defined.
    rewrite !or_else_idempotent.
    reflexivity. }
  split; [exact Hidem|]. simpl. rewrite Hidem. reflexivity.
Qed.

(** X4.  Normalisation looks at a raw record through the keys it reads
    and nothing else: two records that agree on these keys (whatever the
    order of their keys, whatever other keys they hold) are normalised
    alike.  [transformer.js] reads the keys of the user interface only: it
    does not look at the training keys of the identity, code and amount
    fields. *)
Theorem normalize_reads_keys (raw raw' : obj) :
  ((forall k, In k Spec.read_keys -> get raw k = get raw' k) ->
   V2.normalizeToTraining raw = V2.normalizeToTraining raw') /\
  ((forall k, In k Spec.read_keys_V3 -> get raw k = get raw' k) ->
   V3.normalizeToTraining raw = V3.normalizeToTraining raw').
Proof.
  split; intros H.
  - assert (forall k, existsb (str_eqb k) Spec.read_keys = true ->
                      get raw k = get raw' k) as H'
      by (intros k Hk; apply H, existsb_str_In, Hk).
    unfold V2.normalizeToTraining.
    repeat match goal with
           | |- context [get raw ?k] => rewrite (H' k eq_refl)
           end.
    reflexivity.
  - assert (forall k, existsb (str_eqb k) Spec.read_keys_V3 = true ->
                      get raw k = get raw' k) as H'
      by (intros k Hk; apply H, existsb_str_In, Hk).
    unfold V3.normalizeToTraining.
    repeat match goal with
           | |- context [get raw ?k] => rewrite (H' k eq_refl)
           end.
    reflexivity.
Qed.

Lemma normalize_reads_keys_witness :
  (forall k, In k Spec.read_keys ->
     get [("gender", VString "M"); ("note", VString "x"); ("State", VNumber num_12)] k =
     get [("State", VNumber num_12); ("gender", VString "M")] k) /\
  V2.normalizeToTraining
    [("gender", VString "M"); ("note", VString "x"); ("State", VNumber num_12)] =
  V2.normalizeToTraining [("State", VNumber num_12); ("gender", VString "M")].
Proof.
  assert (forall k, In k Spec.read_keys ->
     get [("gender", VString "M"); ("note", VString "x"); ("State", VNumber num_12)] k =
     get [("State", VNumber num_12); ("gender", VString "M")] k) as H.
  { intros k Hk. each_field Hk; reflexivity. }
  split; [exact H|].
  apply (proj1 (normalize_reads_keys
    [("gender", VString "M"); ("note", VString "x"); ("State", VNumber num_12)]
    [("State", VNumber num_12); ("gender", VString "M")])).
  exact H.
Defined.

(** X5.  A training key that is present wins over the key of the user
    interface and is copied as it is, whatever its type: for the fields
    guarded by [??] alone, the normalised value is the raw value of the
    training key as soon as that value is neither [undefined] nor [null]
    (an empty string or a number stays what it is). *)
Theorem training_key_passes_through (raw : obj) (k : string) :
  In k Spec.passthrough_fields ->
  nullish (get raw k) = false ->
  get (V2.normalizeToTraining raw) k = get raw k.
Proof.
  intros Hk Hv.
  cbv [Spec.passthrough_fields] in Hk. simpl In in Hk.
  repeat (destruct Hk as [<-|Hk]); [..|contradiction Hk];
    get_field raw; rewrite ?(coalesce_keep _ _ Hv); reflexivity.
Qed.

Lemma training_key_passes_through_witness :
  In "Gender" Spec.passthrough_fields /\
  nullish (get [("Gender", VNumber num_1); ("gender", VString "F")] "Gender") = false /\
  get (V2.normalizeToTraining [("Gender", VNumber num_1); ("gender", VString "F")]) "Gender"
    = get [("Gender", VNumber num_1); ("gender", VString "F")] "Gender".
Proof.
  assert (In "Gender" Spec.passthrough_fields) as Hin
    by (apply existsb_str_In; reflexivity).
  split; [exact Hin|]. split; [reflexivity|].
  apply (training_key_passes_through
           [("Gender", VNumber num_1); ("gender", VString "F")] "Gender" Hin).
  reflexivity.
Defined.

(** Every numeric field of a record normalised by [preprocess.js]
    (coverage months, chronic-condition flags, amounts, age, duration,
    counts) holds a finite number, whatever the raw record holds there. *)
Lemma numeric_fields_finite_value (raw : obj) (k : string) :
  In k Spec.numeric_fields ->
  exists x, get (V2.normalizeToTraining raw) k = VNumber x /\ finite x = true.
Proof.
  intros Hk.
  cbv [Spec.numeric_fields Spec.month_fields Spec.flag_fields Spec.amount_fields
       Spec.derived_fields app] in Hk. simpl In in Hk.
  repeat (destruct Hk as [<-|Hk]); [..|contradiction Hk];
    get_field raw; eexists; (split; [reflexivity | apply toNum_finite]).
Qed.

(** ** Code extraction *)

Local Open Scope string_scope.

Lemma cpt_scan_five p s m :
  V2.cpt_scan p s = Some m -> Spec.five_digits m = true.
Proof.
  revert p. induction s as [|c s IH]; intros p; cbn [V2.cpt_scan];
    rewrite cpt_here_begins.
  - unfold Spec.begins_cpt. simpl. rewrite andb_false_r. discriminate.
  - destruct (Spec.begins_cpt p (String c s)) eqn:Hb; [|apply IH].
    intros [= <-]. unfold Spec.begins_cpt in Hb.
    apply andb_prop in Hb as [Hb _]. apply andb_prop in Hb as [_ Hb]. exact Hb.
Qed.

Lemma five_digits_alone m :
  Spec.five_digits m = true -> V2.cpt_match (str_trim m) = Some m.
Proof.
  intros Hm. rewrite cpt_match_trim. unfold V2.cpt_match.
  rewrite <- (append_nil_r m) at 1.
  apply (cpt_scan_first false "" m ""); try reflexivity. exact Hm.
Qed.

(** [onlyCPT] always returns five digits, the code found or
    ["00000"], and applied to what it returned it returns it again; so does
    the [onlyCPT] of [transformer.js]. *)
Lemma onlyCPT_value_five_digits (v : value) :
  Spec.five_digits (V2.onlyCPT v) = true /\
  V2.onlyCPT (VString (V2.onlyCPT v)) = V2.onlyCPT v /\
  V3.onlyCPT v = V2.onlyCPT v.
Proof.
  assert (Spec.five_digits (V2.onlyCPT v) = true) as H5.
  { unfold V2.onlyCPT, V2.cpt_match.
    destruct (V2.cpt_scan false (V2.trim v)) as [m|] eqn:Hm; [|reflexivity].
    pose proof (cpt_scan_five _ _ _ Hm) as H.
    destruct m; [discriminate H | exact H]. }
  split; [exact H5|]. split; [|reflexivity].
  unfold V2.onlyCPT at 1. unfold V2.trim. simpl coalesce. simpl ToString.
  rewrite (five_digits_alone _ H5).
  destruct (V2.onlyCPT v); [discriminate H5 | reflexivity].
Qed.

Lemma icd_match_none s :
  Spec.no_icd_before s "" = true -> V2.icd_match s = None.
Proof.
  induction s as [|c s IH]; intros H; [reflexivity|].
  cbn [Spec.no_icd_before] in H. apply andb_prop in H as [Hc H].
  apply negb_true_iff in Hc. rewrite append_nil_r in Hc.
  cbn [V2.icd_match]. rewrite (icd_here_begins _ Hc). apply IH, H.
Qed.

(** X8.  When no letter of the input is followed at once by a digit,
    [onlyICD] returns ["UNKNOWN"]: the fallback ["Unknown"] goes through
    [toUpperCase] with the matches.  The normalised diagnosis code of such a
    record is ["UNKNOWN"], not the key ["Unknown"] an encoder falls back on
    for missing values. *)
Theorem onlyICD_without_code (s : string) :
  Spec.no_icd_before s "" = true ->
  V2.onlyICD (VString s) = "UNKNOWN" /\
  V3.onlyICD (VString s) = "UNKNOWN" /\
  get (V2.normalizeToTraining [("diagnosis_code", VString s)]) "ClmDiagnosisCode_1"
    = VString "UNKNOWN" /\
  lookup_key (VString (V2.onlyICD (VString s))) <> lookup_key VNull.
Proof.
  intros H.
  assert (V2.icd_match (str_trim s) = None) as Hn
    by (rewrite icd_match_trim; apply icd_match_none, H).
  assert (V2.onlyICD (VString s) = "UNKNOWN") as H2.
  { unfold V2.onlyICD, V2.trim. simpl coalesce. simpl ToString. rewrite Hn. reflexivity. }
  split; [exact H2|]. split.
  { unfold V3.onlyICD, V3.trim. simpl coalesce. simpl ToString. rewrite Hn. reflexivity. }
  split.
  { change (get (V2.normalizeToTraining [("diagnosis_code", VString s)]) "ClmDiagnosisCode_1")
      with (VString (V2.onlyICD (VString s))).
    rewrite H2. reflexivity. }
  rewrite H2. discriminate.
Qed.

Lemma onlyICD_without_code_witness :
  Spec.no_icd_before "chest pain, no code given" "" = true /\
  V2.onlyICD (VString "chest pain, no code given") = "UNKNOWN".
Proof.
  split; [reflexivity|].
  apply (onlyICD_without_code "chest pain, no code given"). reflexivity.
Defined.

Lemma upper_char_classes c :
  is_letter (upper_char c) = is_letter c /\
  is_digit (upper_char c) = is_digit c /\
  V2.icd_tail (upper_char c) = V2.icd_tail c /\
  upper_char (upper_char c) = upper_char c.
Proof.
  destruct c as [b0 b1 b2 b3 b4 b5 b6 b7].
  destruct b0, b1, b2, b3, b4, b5, b6, b7; vm_compute; repeat split.
Qed.

Lemma toUpperCase_idempotent s : toUpperCase (toUpperCase s) = toUpperCase s.
Proof.
  induction s as [|c s IH]; simpl; [reflexivity|].
  rewrite IH, (proj2 (proj2 (proj2 (upper_char_classes c)))). reflexivity.
Qed.

Lemma str_forallb_upper s :
  str_forallb V2.icd_tail (toUpperCase s) = str_forallb V2.icd_tail s.
Proof.
  induction s as [|c s IH]; simpl; [reflexivity|].
  rewrite IH, (proj1 (proj2 (proj2 (upper_char_classes c)))). reflexivity.
Qed.

Lemma span_fst_forallb p s : str_forallb p (fst (span p s)) = true.
Proof.
  induction s as [|c s IH]; simpl; [reflexivity|].
  destruct (p c) eqn:Hc; [|reflexivity].
  destruct (span p s). simpl in *. rewrite Hc, IH. reflexivity.
Qed.

(** What the pattern finds matches the pattern as a whole. *)
Lemma icd_match_token s m : V2.icd_match s = Some m -> Spec.icd_token m = true.
Proof.
  induction s as [|c s IH]; cbn [V2.icd_match].
  - simpl. discriminate.
  - destruct (V2.icd_here (String c s)) as [m'|] eqn:Hh; [|exact IH].
    intros [= <-]. destruct s as [|d t]; [discriminate Hh|].
    simpl in Hh. destruct (is_letter c && is_digit d) eqn:Hcd; [|discriminate Hh].
    injection Hh as <-. simpl. rewrite Hcd, span_fst_forallb. reflexivity.
Qed.

Lemma icd_token_upper m :
  Spec.icd_token m = true -> Spec.icd_token (toUpperCase m) = true.
Proof.
  destruct m as [|c [|d t]]; try discriminate. simpl.
  rewrite (proj1 (upper_char_classes c)), (proj1 (proj2 (upper_char_classes d))).
  rewrite str_forallb_upper. exact (fun H => H).
Qed.

Lemma icd_token_alone m :
  Spec.icd_token m = true -> V2.icd_match (str_trim m) = Some m.
Proof.
  intros Hm. rewrite icd_match_trim.
  rewrite <- (append_nil_r m) at 1.
  apply (icd_match_first "" m ""). unfold Spec.first_icd_match.
  rewrite Hm. reflexivity.
Qed.

(** What [onlyICD] returns is in upper case and is a fixed point of
    the extraction: applied to a code it extracted (or to its fallback
    ["UNKNOWN"]) it returns it unchanged.  A code it extracts matches the
    pattern as a whole: a letter, a digit, then letters, digits and dots. *)
Lemma onlyICD_value_fixed_point (v : value) :
  toUpperCase (V2.onlyICD v) = V2.onlyICD v /\
  V2.onlyICD (VString (V2.onlyICD v)) = V2.onlyICD v /\
  (V2.onlyICD v = "UNKNOWN" \/ Spec.icd_token (V2.onlyICD v) = true) /\
  V3.onlyICD v = V2.onlyICD v.
Proof.
  split; [unfold V2.onlyICD; apply toUpperCase_idempotent|].
  assert (V2.onlyICD v = "UNKNOWN" \/ Spec.icd_token (V2.onlyICD v) = true) as Hcase.
  { unfold V2.onlyICD.
    destruct (V2.icd_match (V2.trim v)) as [m|] eqn:Hm; [|left; reflexivity].
    pose proof (icd_match_token _ _ Hm) as Ht.
    destruct m as [|c m]; [discriminate Ht|].
    right. simpl str_eqb. cbv iota. apply icd_token_upper, Ht. }
  split; [|split; [exact Hcase | reflexivity]].
  destruct Hcase as [-> | Ht]; [reflexivity|].
  unfold V2.onlyICD at 1. unfold V2.trim. simpl coalesce. simpl ToString.
  rewrite (icd_token_alone _ Ht).
  destruct (V2.onlyICD v) eqn:Hr; [discriminate Ht|].
  simpl str_eqb. cbv iota. rewrite <- Hr.
  unfold V2.onlyICD. apply toUpperCase_idempotent.
Qed.

(** ** Categorical encoding *)

Local Open Scope list_scope.

Lemma assoc_In_values {A} k (l : list (string * A)) v :
  assoc k l = Some v -> In v (map snd l).
Proof.
  induction l as [|[k' v'] l IH]; simpl; [discriminate|].
  destruct (str_eqb k k'); [intros [= ->]; left; reflexivity | right; apply IH, H].
Qed.

(** [encodeCategorical] never invents an index: for a declared
    column its result is an index of the mapping, the declared unknown
    index, or 0, whatever the value encoded. *)
Lemma encodeCategorical_value_range (b : bundle) (col : string) (enc : encoder) (v : value) :
  assoc col (label_encoders b) = Some enc ->
  In (V2.encodeCategorical b col v) (map snd (default [] (mapping enc))) \/
  unknown_index enc = Some (V2.encodeCategorical b col v) \/
  V2.encodeCategorical b col v = VNumber zero.
Proof.
  intros He. unfold V2.encodeCategorical, encoder_of. rewrite He.
  destruct (assoc (lookup_key v) _) as [idx|] eqn:Hk.
  { left. exact (assoc_In_values _ _ _ Hk). }
  destruct (unknown_index enc) as [u|]; simpl.
  - unfold coalesce. destruct (nullish u) eqn:Hu; simpl.
    + destruct (assoc "__UNK__" _) as [idx|] eqn:Hs.
      * left. exact (assoc_In_values _ _ _ Hs).
      * right. right. reflexivity.
    + rewrite Hu. simpl. right. left. reflexivity.
  - destruct (assoc "__UNK__" _) as [idx|] eqn:Hs.
    + left. exact (assoc_In_values _ _ _ Hs).
    + right. right. reflexivity.
Qed.

Local Open Scope string_scope.

Lemma append_cons_nonempty a c b : (a ++ String c b) <> "".
Proof. destruct a; discriminate. Qed.

Lemma append_nonempty_l a b : a <> "" -> (a ++ b) <> "".
Proof. destruct a; [congruence | discriminate]. Qed.

Lemma dec_string_nonempty z : dec_string z <> "".
Proof.
  unfold dec_string, NilZero.string_of_uint.
  destruct (N.to_uint (Z.to_N z)); simpl; discriminate.
Qed.

Lemma format_decimal_nonempty s n k : format_decimal s n k <> "".
Proof.
  unfold format_decimal.
  destruct (_ && _); [apply append_nonempty_l, dec_string_nonempty|].
  destruct (_ && _); [apply append_cons_nonempty|].
  destruct (_ && _); [discriminate|].
  cbv zeta. destruct (k =? 1)%Z.
  - apply append_nonempty_l, dec_string_nonempty.
  - rewrite append_assoc. apply append_cons_nonempty.
Qed.

(** A number is never written as the empty string. *)
Lemma NumberToString_nonempty x : NumberToString x <> "".
Proof.
  destruct x as [s|s| |s m e]; try (simpl; discriminate).
  - destruct s; discriminate.
  - unfold NumberToString. cbv zeta.
    match goal with
    | |- context [shortest_decimal ?a ?b ?c ?d ?e ?f] =>
        destruct (shortest_decimal a b c d e f) as [[sd n'] k]; cbv [fst snd]
    end.
    destruct s.
    + discriminate.
    + apply format_decimal_nonempty.
Qed.

(** A categorical value is looked up under its text: a number and
    the string that writes it (1 and ["1"]), a boolean and its name, encode
    alike, in the three sources. *)
Lemma encode_by_text_value (b : bundle) (col : string) (x : number) (t : bool) :
  V2.encodeCategorical b col (VNumber x) =
    V2.encodeCategorical b col (VString (NumberToString x)) /\
  V1.encodeCategorical b col (VNumber x) =
    V1.encodeCategorical b col (VString (NumberToString x)) /\
  V3.encode b col (VNumber x) = V3.encode b col (VString (NumberToString x)) /\
  V2.encodeCategorical b col (VBool t) =
    V2.encodeCategorical b col (VString (if t then "true" else "false")) /\
  V2.encodeCategorical b col (VNumber num_1) = V2.encodeCategorical b col (VString "1").
Proof.
  assert (lookup_key (VNumber x) = lookup_key (VString (NumberToString x))) as Hx.
  { simpl. pose proof (NumberToString_nonempty x) as Hne.
    destruct (NumberToString x); [congruence | reflexivity]. }
  assert (lookup_key (VBool t) = lookup_key (VString (if t then "true" else "false"))) as Ht
    by (destruct t; reflexivity).
  unfold V2.encodeCategorical, V1.encodeCategorical, V3.encode.
  rewrite Hx, Ht. repeat split.
Qed.

Local Open Scope list_scope.

(** ** Columns and rows *)

Lemma get_outside_schema raw col :
  ~ In col Spec.canonical_fields ->
  get (V2.normalizeToTraining raw) col =
    if inherited col then inherited_value col else VUndefined.
Proof.
  intros Hcol.
  assert (assoc col (V2.normalizeToTraining raw) = None) as Ha.
  { destruct (assoc col (V2.normalizeToTraining raw)) as [v|] eqn:Hv; [|reflexivity].
    exfalso. apply Hcol.
    assert (In col (map fst (V2.normalizeToTraining raw))) as Hin.
    { revert Hv. generalize (V2.normalizeToTraining raw). intros l.
      induction l as [|[k' v'] l IH]; simpl; [discriminate|].
      destruct (str_eqb col k') eqn:Hk.
      - intros _. left. symmetry. apply String.eqb_eq, Hk.
      - intros H. right. apply IH, H. }
    rewrite normalized_keys_V2 in Hin.
    revert Hin. apply incl_by_computation. reflexivity. }
  unfold get. rewrite Ha. reflexivity.
Qed.

(** X12.  A selected feature that is no field of the training schema and
    has no encoder is filled with 0, for every record: a misspelt feature
    name is not an error.  With an encoder it is encoded like a missing
    value, under the key ["Unknown"], unless it bears the name of an
    inherited member. *)
Theorem foreign_feature_is_zero (b : bundle) (raw : obj) (col : string) :
  ~ In col Spec.canonical_fields ->
  (assoc col (label_encoders b) = None ->
   V2.cell b (V2.normalizeToTraining raw) col = VNumber zero) /\
  (inherited col = false ->
   forall enc, assoc col (label_encoders b) = Some enc ->
   V2.cell b (V2.normalizeToTraining raw) col = V2.encodeCategorical b col (VString "Unknown")).
Proof.
  intros Hcol. pose proof (get_outside_schema raw col Hcol) as Hget.
  split.
  - intros He. unfold V2.cell, encoder_of, V2.encodeCategorical, encoder_of.
    rewrite He, Hget.
    destruct (inherited col); [reflexivity|].
    reflexivity.
  - intros Hinh enc He. unfold V2.cell, encoder_of. rewrite He, Hget, Hinh.
    unfold V2.encodeCategorical. reflexivity.
Qed.

Lemma foreign_feature_is_zero_witness :
  ~ In "InscClaimAmtReimbursd" Spec.canonical_fields /\
  V2.cell Spec.example_bundle
    (V2.normalizeToTraining [("InscClaimAmtReimbursed", VNumber num_50)])
    "InscClaimAmtReimbursd" = VNumber zero.
Proof.
  assert (~ In "InscClaimAmtReimbursd" Spec.canonical_fields) as Hout.
  { intros Hin. apply In_existsb_str in Hin. vm_compute in Hin. discriminate Hin. }
  split; [exact Hout|].
  apply (proj1 (foreign_feature_is_zero Spec.example_bundle
                  [("InscClaimAmtReimbursed", VNumber num_50)]
                  "InscClaimAmtReimbursd" Hout)).
  reflexivity.
Defined.

Lemma map_throw_Ok_length {A B} (f : A -> result B) l ys :
  map_throw f l = Ok ys -> length ys = length l.
Proof.
  revert ys. induction l as [|x l IH]; simpl; intros ys.
  - intros [= <-]. reflexivity.
  - destruct (f x) as [y|e]; simpl; [|discriminate].
    destruct (map_throw f l) as [ys'|e]; simpl; [|discriminate].
    intros [= <-]. simpl. rewrite (IH ys' eq_refl). reflexivity.
Qed.

Lemma map_throw_Ok_In {A B} (f : A -> result B) l ys y :
  map_throw f l = Ok ys -> In y ys -> exists x, In x l /\ f x = Ok y.
Proof.
  revert ys. induction l as [|x l IH]; simpl; intros ys.
  - intros [= <-] [].
  - destruct (f x) as [y'|e] eqn:Hx; simpl; [|discriminate].
    destruct (map_throw f l) as [ys'|e]; simpl; [|discriminate].
    intros [= <-] [<-|Hy].
    + exists x. split; [left; reflexivity | exact Hx].
    + destruct (IH ys' eq_refl Hy) as [x' [Hin Hf]]. exists x'. split; [right|]; assumption.
Qed.

Lemma transformBatch_rows b items :
  V2.transformBatch b (VArray items) =
    if existsb nullish items
    then Throw (TypeError "Cannot read properties of null or undefined")
    else Ok (map (fun raw => V2.encode_and_scale b (V2.normalizeToTraining (fields_of raw)))
               items).
Proof.
  unfold V2.transformBatch.
  induction items as [|raw items IH]; simpl; [reflexivity|].
  destruct raw; simpl; try reflexivity; rewrite IH; destruct (existsb nullish items); reflexivity.
Qed.

(** X14.  When [buildVector] returns, the vector has one entry per feature
    of [FEATURES], and every entry has passed the guard: no number in it is
    [NaN] or exceeds 50 in magnitude. *)
Theorem buildVector_shape (b : bundle) (raw : value) (out : list value) :
  V3.buildVector b raw = Ok out ->
  length out = length (selected_features b) /\
  forall x, In (VNumber x) out -> isNaN x = false /\ gt (abs x) num_50 = false.
Proof.
  intros H.
  assert (V3.guard (V3.build_row b (V3.normalizeToTraining (fields_of raw))) = Ok out) as Hg
    by (destruct raw; try discriminate H; exact H).
  rewrite guard_spec in Hg.
  destruct (existsb Spec.implausible _) eqn:Hbad; [discriminate|].
  injection Hg as <-. split.
  - unfold V3.build_row. apply length_imap.
  - intros x Hx.
    assert (Spec.implausible (VNumber x) = false) as Hp.
    { destruct (Spec.implausible (VNumber x)) eqn:Hp; [|reflexivity].
      rewrite <- Hbad. symmetry. apply existsb_exists. eauto. }
    simpl in Hp. unfold Spec.implausible_number in Hp.
    apply orb_false_iff in Hp as [Hf Hm]. split; [|exact Hm].
    apply negb_false_iff in Hf. destruct x; try discriminate Hf; reflexivity.
Qed.

Lemma buildVector_shape_witness :
  V3.buildVector Spec.example_bundle (VObject [("gender", VString "B")]) = Ok [VNumber num_1] /\
  length [VNumber num_1] = length (selected_features Spec.example_bundle).
Proof.
  assert (V3.buildVector Spec.example_bundle (VObject [("gender", VString "B")])
          = Ok [VNumber num_1]) as H by reflexivity.
  split; [exact H|].
  apply (buildVector_shape Spec.example_bundle (VObject [("gender", VString "B")])
           [VNumber num_1] H).
Defined.

(** ** The server *)

Local Open Scope string_scope.

Lemma prefix_append p t : String.prefix p (p ++ t) = true.
Proof.
  induction p as [|c p IH]; simpl; [destruct t; reflexivity|].
  destruct (ascii_dec c c); [exact IH | congruence].
Qed.

Lemma prefix_split p h :
  String.prefix p h = true -> h = p ++ str_drop (String.length p) h.
Proof.
  revert h. induction p as [|c p IH]; intros h.
  - intros _. destruct h; reflexivity.
  - destruct h as [|d h]; simpl; [discriminate|].
    destruct (ascii_dec c d) as [<-|]; [|discriminate].
    intros H. rewrite <- (IH h H). reflexivity.
Qed.

Lemma bearer_token_spec hdr token :
  Server.bearer_token hdr = Some token <-> hdr = "Bearer " ++ token.
Proof.
  unfold Server.bearer_token. split.
  - destruct (String.prefix "Bearer " hdr) eqn:Hp; [|discriminate].
    intros [= <-]. exact (prefix_split "Bearer " hdr Hp).
  - intros ->. rewrite prefix_append. reflexivity.
Qed.

(** X15.  [auth] lets a request through exactly when its [Authorization]
    header is ["Bearer "] followed by a token that is not empty and that
    [jwt.verify] accepts; the user of the request is then what [verify]
    returned for that very token.  Every other request is answered 401. *)
Theorem auth_accepts_bearer (verify : string -> option value)
    (authorization : option string) :
  (forall user,
     Server.auth verify authorization = Server.Next user <->
     exists token, authorization = Some ("Bearer " ++ token) /\ token <> "" /\
                   verify token = Some user) /\
  (forall r, Server.auth verify authorization = Server.Reply r -> Server.status r = 401).
Proof.
  split.
  - intros user. unfold Server.auth. split.
    + destruct authorization as [h|]; simpl; [|discriminate].
      destruct (str_eqb h "") eqn:Hh; simpl; [discriminate|].
      destruct (Server.bearer_token h) as [token|] eqn:Ht; [|discriminate].
      apply bearer_token_spec in Ht.
      destruct (str_eqb token "") eqn:Hne; [discriminate|].
      destruct (verify token) as [u|] eqn:Hv; [|discriminate].
      intros [= <-]. exists token. split; [f_equal; exact Ht|]. split; [|exact Hv].
      apply String.eqb_neq, Hne.
    + intros [token [-> [Hne Hv]]].
      assert (Server.bearer_token ("Bearer " ++ token) = Some token) as Hb
        by (apply bearer_token_spec; reflexivity).
      change (if Server.is_set (Some ("Bearer " ++ token))
              then default "" (Some ("Bearer " ++ token)) else "")
        with ("Bearer " ++ token).
      rewrite Hb. apply String.eqb_neq in Hne. unfold str_eqb. rewrite Hne, Hv.
      reflexivity.
  - intros r. unfold Server.auth.
    destruct (Server.bearer_token _) as [token|]; [|intros [= <-]; reflexivity].
    destruct (str_eqb token ""); [intros [= <-]; reflexivity|].
    destruct (verify token); [discriminate | intros [= <-]; reflexivity].
Qed.

Local Open Scope list_scope.

(** X16.  The routes hand [transformBatch] an array, whatever the body: an
    array as it is, anything else wrapped in an array of one row.  So a
    single record gets the answer of the batch holding it alone, and
    [transformBatch] never refuses the argument of a route: if it throws
    there, it is the [TypeError] of a [null] row. *)
Theorem routes_wrap_single_record
    (fetch : string -> list (string * string) -> value -> result Server.http_response)
    (JSON_parse : string -> option value) (b : bundle) (env : Server.environment)
    (req_body : value) :
  Array_isArray (Server.raw_rows req_body) = true /\
  (forall e, V2.transformBatch b (Server.raw_rows req_body) = Throw e ->
             exists msg, e = TypeError msg) /\
  (forall o : obj,
     Server.predict_claim fetch JSON_parse b env (VObject o) =
       Server.predict_claim fetch JSON_parse b env (VArray [VObject o]) /\
     Server.debug_transform_claim b (VObject o) =
       Server.debug_transform_claim b (VArray [VObject o])).
Proof.
  split; [unfold Server.raw_rows; destruct req_body; reflexivity|].
  split; [|intros o; split; reflexivity].
  intros e.
  assert (exists items, Server.raw_rows req_body = VArray items) as [items ->]
    by (unfold Server.raw_rows; destruct req_body; simpl; eauto).
  rewrite transformBatch_rows. destruct (existsb nullish items); [|discriminate].
  intros [= <-]. eexists. reflexivity.
Qed.

(** X17.  A [null] row in the body of [POST /predict/claim] is answered
    502 ["claim-scorer-failed"] although the scorer is never asked (the
    answer does not depend on [fetch]); the same body gets 500 from
    [POST /debug/transform-claim].  A body that is missing gets 400 from the
    first route, which checks it, and 500 from the second, which does not. *)
Theorem null_row_answers
    (fetch fetch' : string -> list (string * string) -> value -> result Server.http_response)
    (JSON_parse : string -> option value) (b : bundle) (env : Server.environment)
    (items : list value) :
  existsb nullish items = true ->
  Server.predict_claim fetch JSON_parse b env (VArray items) =
    Server.predict_claim fetch' JSON_parse b env (VArray items) /\
  Server.status (Server.predict_claim fetch JSON_parse b env (VArray items)) = 502 /\
  get (fields_of (Server.body (Server.predict_claim fetch JSON_parse b env (VArray items))))
      "error" = VString "claim-scorer-failed" /\
  Server.status (Server.debug_transform_claim b (VArray items)) = 500 /\
  Server.status (Server.predict_claim fetch JSON_parse b env VUndefined) = 400 /\
  Server.status (Server.debug_transform_claim b VUndefined) = 500.
Proof.
  intros Hnull.
  assert (forall f, Server.predict_claim f JSON_parse b env (VArray items) =
            Server.scorer_failed
              (TypeError "Cannot read properties of null or undefined")) as Hp.
  { intros f. unfold Server.predict_claim.
    change (Server.raw_rows (VArray items)) with (VArray items).
    rewrite transformBatch_rows, Hnull. reflexivity. }
  assert (Server.status (Server.debug_transform_claim b (VArray items)) = 500) as Hd.
  { unfold Server.debug_transform_claim.
    change (Server.raw_rows (VArray items)) with (VArray items).
    rewrite transformBatch_rows, Hnull. reflexivity. }
  rewrite !Hp. repeat split. exact Hd.
Qed.

Lemma null_row_answers_witness :
  existsb nullish [VObject []; VNull] = true /\
  Server.status
    (Server.predict_claim (fun _ _ _ => Throw (Error "offline")) (fun _ => None)
       Spec.example_bundle
       {| Server.AML_CLAIM_URI := None; Server.AML_CLAIM_KEY := None;
          Server.AML_CLAIM_DEPLOYMENT := None; Server.PAYLOAD_STYLE := None |}
       (VArray [VObject []; VNull])) = 502.
Proof.
  split; [reflexivity|].
  apply (null_row_answers (fun _ _ _ => Throw (Error "offline"))
           (fun _ _ _ => Throw (Error "offline")) (fun _ => None) Spec.example_bundle
           {| Server.AML_CLAIM_URI := None; Server.AML_CLAIM_KEY := None;
              Server.AML_CLAIM_DEPLOYMENT := None; Server.PAYLOAD_STYLE := None |}
           [VObject []; VNull]).
  reflexivity.
Defined.

Lemma transformBatch_vectors b items X :
  V2.transformBatch b (VArray items) = Ok X ->
  length X = length items /\
  Forall (fun v => length v = length (selected_features b)) X.
Proof.
  rewrite transformBatch_rows. destruct (existsb nullish items); [discriminate|].
  intros [= <-]. split; [apply length_map|].
  apply Forall_forall. intros v Hv.
  apply list_elem_of_In, in_map_iff in Hv as [raw [<- _]].
  apply length_encode_and_scale.
Qed.



Lemma lower_char_idempotent c : Server.lower_char (Server.lower_char c) = Server.lower_char c.
Proof.
  destruct c as [b0 b1 b2 b3 b4 b5 b6 b7].
  destruct b0, b1, b2, b3, b4, b5, b6, b7; vm_compute; reflexivity.
Qed.

Lemma toLowerCase_idempotent s :
  Server.toLowerCase (Server.toLowerCase s) = Server.toLowerCase s.
Proof.
  induction s as [|c s IH]; simpl; [reflexivity|].
  rewrite IH, lower_char_idempotent. reflexivity.
Qed.

(** X19.  The payload the route sends is rectangular: for the vectors [X]
    of a body of [n] rows, [index] is [0, 1, ..., n - 1], [data] holds the
    [n] vectors and each vector has as many entries as [columns].  The style
    is read without regard to case, and any style but [mlflow] and [inputs]
    gives the [mlflow_split] payload. *)
Theorem claim_payload_shape (b : bundle) (env : Server.environment)
    (items : list value) (X : list (list value)) :
  V2.transformBatch b (VArray items) = Ok X ->
  Server.row_index X =
    VArray (map (fun i => VNumber (Server.of_nat i)) (seq 0 (length items))) /\
  Server.data X = VArray (map VArray X) /\ length X = length items /\
  Forall (fun v => length v = length (selected_features b)) X /\
  (forall style,
     Server.PAYLOAD_STYLE env = Some style ->
     Server.claim_payload b env X =
       Server.claim_payload b
         {| Server.AML_CLAIM_URI := Server.AML_CLAIM_URI env;
            Server.AML_CLAIM_KEY := Server.AML_CLAIM_KEY env;
            Server.AML_CLAIM_DEPLOYMENT := Server.AML_CLAIM_DEPLOYMENT env;
            Server.PAYLOAD_STYLE := Some (Server.toLowerCase style) |} X) /\
  (str_eqb (Server.toLowerCase (Server.AML_CLAIM_PAYLOAD_STYLE env)) "mlflow" = false ->
   str_eqb (Server.toLowerCase (Server.AML_CLAIM_PAYLOAD_STYLE env)) "inputs" = false ->
   Server.claim_payload b env X =
     VObject [("input_data",
               VObject [("columns", Server.columns b); ("index", Server.row_index X);
                        ("data", Server.data X)])]).
Proof.
  intros HX. destruct (transformBatch_vectors b items X HX) as [Hlen Hall].
  split; [unfold Server.row_index; rewrite Hlen; reflexivity|].
  split; [reflexivity|]. split; [exact Hlen|]. split; [exact Hall|]. split.
  - intros style Hs. unfold Server.claim_payload, Server.AML_CLAIM_PAYLOAD_STYLE.
    simpl. rewrite Hs. simpl.
    destruct style as [|c style]; [reflexivity|].
    simpl. rewrite toLowerCase_idempotent, lower_char_idempotent. reflexivity.
  - intros Hm Hi. unfold Server.claim_payload.
    destruct (str_eqb (Server.AML_CLAIM_PAYLOAD_STYLE env) "") eqn:He.
    + reflexivity.
    + rewrite Hm, Hi. reflexivity.
Qed.

Lemma claim_payload_shape_witness :
  V2.transformBatch Spec.example_bundle
    (VArray [VObject [("gender", VString "A")]; VObject [("gender", VString "B")]])
    = Ok [[VNumber zero]; [VNumber num_1]] /\
  Server.row_index [[VNumber zero]; [VNumber num_1]] =
    VArray (map (fun i => VNumber (Server.of_nat i)) (seq 0 2)).
Proof.
  assert (V2.transformBatch Spec.example_bundle
    (VArray [VObject [("gender", VString "A")]; VObject [("gender", VString "B")]])
    = Ok [[VNumber zero]; [VNumber num_1]]) as H by (vm_compute; reflexivity).
  split; [exact H|].
  apply (claim_payload_shape Spec.example_bundle
           {| Server.AML_CLAIM_URI := None; Server.AML_CLAIM_KEY := None;
              Server.AML_CLAIM_DEPLOYMENT := None; Server.PAYLOAD_STYLE := None |}
           [VObject [("gender", VString "A")]; VObject [("gender", VString "B")]]
           [[VNumber zero]; [VNumber num_1]] H).
Defined.

(** ** The scaler of [transformer.js] out of bounds *)





(** ** Amounts read from the user interface *)

Lemma toNum_value v :
  V2.toNum v = (if finite (ToNumber v) then ToNumber v else zero).
Proof.
  unfold V2.toNum, V2.isFiniteNum.
  destruct (Number_isFinite v) eqn:Hv; [|reflexivity].
  destruct v; try discriminate Hv. simpl in *. rewrite Hv. reflexivity.
Qed.

Local Open Scope string_scope.

Lemma str_filter_forallb p s : str_forallb p (str_filter p s) = true.
Proof.
  induction s as [|c s IH]; simpl; [reflexivity|].
  destruct (p c) eqn:Hc; [simpl; rewrite Hc|]; exact IH.
Qed.

Lemma trim_start_forallb p s :
  str_forallb p s = true -> str_forallb p (trim_start s) = true.
Proof.
  induction s as [|c s IH]; simpl; [reflexivity|].
  intros H. destruct (is_space c); [|exact H].
  apply andb_prop in H as [_ H]. apply IH, H.
Qed.

Lemma trim_end_forallb p s :
  str_forallb p s = true -> str_forallb p (trim_end s) = true.
Proof.
  induction s as [|c s IH]; simpl; [reflexivity|].
  intros H. apply andb_prop in H as [Hc H]. specialize (IH H).
  destruct (trim_end s).
  - destruct (is_space c); simpl; [reflexivity | rewrite Hc; reflexivity].
  - simpl in *. rewrite Hc. exact IH.
Qed.

Lemma binary_round_aux_sign mx ex lx :
  Spec.negative (binary_round_aux prec emax false mx ex lx) = false.
Proof.
  unfold binary_round_aux.
  destruct (shr_fexp prec emax mx ex lx) as [mrs' e'].
  destruct (shr_fexp prec emax _ e' loc_Exact) as [mrs'' e''].
  destruct (shr_m mrs''); try reflexivity.
  destruct (_ <=? _)%Z; reflexivity.
Qed.

Lemma of_decimal_sign m e : Spec.negative (of_decimal false m e) = false.
Proof.
  unfold of_decimal, round_ratio.
  destruct m; try reflexivity.
  destruct (0 <=? e)%Z; cbv zeta;
    destruct (Z.div_eucl _ _); apply binary_round_aux_sign.
Qed.

Lemma unsigned_decimal_sign s : Spec.negative (unsigned_decimal false s) = false.
Proof.
  unfold unsigned_decimal.
  destruct (str_eqb s "Infinity"); [reflexivity|].
  destruct (span is_digit s) as [ip r1].
  destruct (match r1 with String "." t => span is_digit t | _ => (EmptyString, r1) end)
    as [fp r2].
  destruct (ip ++ fp); [reflexivity|].
  destruct (exponent_part r2); [apply of_decimal_sign | reflexivity].
Qed.

(** Digits and dots are read as an unsigned decimal literal. *)
Lemma StringToNumber_unsigned s :
  str_forallb Spec.digit_or_dot s = true ->
  Spec.negative (StringToNumber s) = false.
Proof.
  intros Hs. unfold StringToNumber, str_trim.
  apply trim_start_forallb, trim_end_forallb in Hs.
  destruct (trim_end (trim_start s)) as [|c1 r]; [reflexivity|].
  simpl in Hs. apply andb_prop in Hs as [H1 Hr].
  destruct c1 as [b0 b1 b2 b3 b4 b5 b6 b7].
  destruct b0, b1, b2, b3, b4, b5, b6, b7;
    try (vm_compute in H1; discriminate H1);
    try apply unsigned_decimal_sign.
  destruct r as [|c2 r']; [apply unsigned_decimal_sign|].
  simpl in Hr. apply andb_prop in Hr as [H2 _].
  destruct c2 as [b0 b1 b2 b3 b4 b5 b6 b7].
  destruct b0, b1, b2, b3, b4, b5, b6, b7;
    try (vm_compute in H2; discriminate H2);
    apply unsigned_decimal_sign.
Qed.

Local Open Scope list_scope.

(** The claim amount read from the key [claim_amount] of the user
    interface is never negative: everything but digits and dots is removed
    before the number is read, the sign with the currency symbols.  In
    [preprocess.js] the amount is then a finite number that is not negative
    (0 when the text left is no number); in [transformer.js] it is not
    negative either, and may be [NaN].  An amount of [-10] is normalised to
    [10]. *)
Lemma claim_amount_value_unsigned (raw : obj) :
  (nullish (get raw "InscClaimAmtReimbursed") = true ->
   exists x, get (V2.normalizeToTraining raw) "InscClaimAmtReimbursed" = VNumber x /\
             finite x = true /\ Spec.negative x = false) /\
  (exists x, get (V3.normalizeToTraining raw) "InscClaimAmtReimbursed" = VNumber x /\
             Spec.negative x = false) /\
  get (V2.normalizeToTraining [("claim_amount", VNumber num_neg_10)])
      "InscClaimAmtReimbursed" = VNumber num_10.
Proof.
  split; [|split; [|vm_compute; reflexivity]].
  - intros Hk. get_field raw. rewrite (coalesce_missing _ _ Hk).
    eexists. split; [reflexivity|]. split; [apply toNum_finite|].
    rewrite toNum_value.
    simpl ToNumber. destruct (finite _); [|reflexivity].
    apply StringToNumber_unsigned, str_filter_forallb.
  - get_field raw. eexists. split; [reflexivity|].
    apply StringToNumber_unsigned, str_filter_forallb.
Qed.

(** ** The scoring request *)

Local Open Scope string_scope.

Lemma is_set_Some (v : option string) :
  Server.is_set v = true <-> exists s, v = Some s /\ s <> "".
Proof.
  destruct v as [s|]; simpl.
  - unfold str_eqb. destruct (String.eqb_spec s ""); simpl; split.
    + discriminate.
    + intros (s' & [= <-] & Hs). contradiction.
    + intros _. exists s. split; [reflexivity | assumption].
    + reflexivity.
  - split; [discriminate | intros (s & H & _); discriminate H].
Qed.

Local Open Scope list_scope.

(** X22.  [callAML] sends the [Authorization] header exactly when the key is
    set and not empty, as [Bearer <key>], and the deployment header exactly
    when the deployment is; it returns a value only for an answer of the
    endpoint that is [ok], the parsed body or, when the body is not JSON,
    the body as a string; and its errors are the unset URI, an error of
    [fetch] itself, or [AML <status>: <body>] for an answer that is not
    [ok]. *)
Theorem callAML_outcomes
    (fetch : string -> list (string * string) -> value -> result Server.http_response)
    (JSON_parse : string -> option value)
    (uri key deployment : option string) (payload : value) :
  let headers := Server.request_headers key deployment in
  (forall h, In ("Authorization", h) headers <->
             exists k, key = Some k /\ k <> "" /\ h = ("Bearer " ++ k)%string) /\
  (forall h, In ("azureml-model-deployment", h) headers <->
             deployment = Some h /\ h <> "") /\
  (forall v, Server.callAML fetch JSON_parse uri key deployment payload = Ok v <->
     exists u r, uri = Some u /\ u <> "" /\
       fetch u headers payload = Ok r /\ Server.ok r = true /\
       v = default (VString (Server.text r)) (JSON_parse (Server.text r))) /\
  (forall e, Server.callAML fetch JSON_parse uri key deployment payload = Throw e <->
     (Server.is_set uri = false /\ e = Error "AML scoring URI not set") \/
     (exists u, uri = Some u /\ u <> "" /\
        (fetch u headers payload = Throw e \/
         exists r, fetch u headers payload = Ok r /\ Server.ok r = false /\
           e = Error ("AML " ++ dec_string (Z.of_nat (Server.http_status r))
                        ++ ": " ++ Server.text r)%string))).
Proof.
  intros headers. split; [|split; [|split]].
  - intros h. unfold headers, Server.request_headers.
    destruct (Server.is_set key) eqn:Hk.
    + apply is_set_Some in Hk as (k & -> & Hne). simpl. split.
      * intros [H|[H|[H|H]]]; try discriminate H.
        -- injection H as <-. exists k. repeat split; assumption.
        -- destruct (Server.is_set deployment); simpl in H;
             [destruct H as [H|[]]; discriminate H | destruct H].
      * intros (k' & [= <-] & _ & ->). right. right. left. reflexivity.
    + split.
      * simpl. intros [H|[H|H]]; try discriminate H.
        destruct (Server.is_set deployment); simpl in H;
          [destruct H as [H|[]]; discriminate H | destruct H].
      * intros (k & -> & Hne & _).
        assert (Server.is_set (Some k) = true) as Hs
          by (apply is_set_Some; exists k; split; [reflexivity | assumption]).
        congruence.
  - intros h. unfold headers, Server.request_headers.
    destruct (Server.is_set deployment) eqn:Hd.
    + apply is_set_Some in Hd as (d & -> & Hne). split.
      * intros H. apply in_app_or in H as [H|H];
          [simpl in H; destruct H as [H|[H|[]]]; discriminate H|].
        apply in_app_or in H as [H|H].
        -- destruct (Server.is_set key); simpl in H;
             [destruct H as [H|[]]; discriminate H | destruct H].
        -- simpl in H. destruct H as [H|[]]. injection H as <-.
           split; [reflexivity | assumption].
      * intros [[= <-] _]. apply in_or_app. right. apply in_or_app. right.
        left. reflexivity.
    + split.
      * intros H. apply in_app_or in H as [H|H];
          [simpl in H; destruct H as [H|[H|[]]]; discriminate H|].
        apply in_app_or in H as [H|H]; [|destruct H].
        destruct (Server.is_set key); simpl in H;
          [destruct H as [H|[]]; discriminate H | destruct H].
      * intros [-> Hne].
        assert (Server.is_set (Some h) = true) as Hs
          by (apply is_set_Some; exists h; split; [reflexivity | assumption]).
        congruence.
  - intros v. unfold Server.callAML. fold headers.
    destruct (Server.is_set uri) eqn:Hu; simpl.
    + apply is_set_Some in Hu as (u & -> & Hne). simpl.
      destruct (fetch u headers payload) as [r|e] eqn:Hf; simpl.
      * destruct (Server.ok r) eqn:Hok; simpl; split.
        -- intros [= <-]. exists u, r. repeat split; assumption.
        -- intros (u' & r' & [= <-] & _ & Hf' & _ & ->).
           rewrite Hf in Hf'. injection Hf' as <-.
           destruct (JSON_parse (Server.text r)); reflexivity.
        -- discriminate.
        -- intros (u' & r' & [= <-] & _ & Hf' & Hok' & _).
           rewrite Hf in Hf'. injection Hf' as <-. congruence.
      * split; [discriminate|].
        intros (u' & r' & [= <-] & _ & Hf' & _). congruence.
    + split; [discriminate|].
      intros (u & r & -> & Hne & _).
      assert (Server.is_set (Some u) = true) as Hs
        by (apply is_set_Some; exists u; split; [reflexivity | assumption]).
      congruence.
  - intros e. unfold Server.callAML. fold headers.
    destruct (Server.is_set uri) eqn:Hu; simpl.
    + apply is_set_Some in Hu as (u & -> & Hne). simpl.
      destruct (fetch u headers payload) as [r|e'] eqn:Hf; simpl.
      * destruct (Server.ok r) eqn:Hok; simpl; split.
        -- discriminate.
        -- intros [[H _]|(u' & [= <-] & _ & [H|(r' & Hf' & Hok' & _)])].
           ++ assert (Server.is_set (Some u) = true) as Hs
                by (apply is_set_Some; exists u; split; [reflexivity | assumption]).
              congruence.
           ++ congruence.
           ++ rewrite Hf in Hf'. injection Hf' as <-. congruence.
        -- intros [= <-]. right. exists u. repeat split; try assumption.
           right. exists r. repeat split; assumption.
        -- intros [[H _]|(u' & [= <-] & _ & [H|(r' & Hf' & _ & ->)])].
           ++ assert (Server.is_set (Some u) = true) as Hs
                by (apply is_set_Some; exists u; split; [reflexivity | assumption]).
              congruence.
           ++ congruence.
           ++ rewrite Hf in Hf'. injection Hf' as <-. reflexivity.
      * split.
        -- intros [= <-]. right. exists u. repeat split; try assumption.
           left. exact Hf.
        -- intros [[H _]|(u' & [= <-] & _ & [H|(r' & Hf' & _)])].
           ++ assert (Server.is_set (Some u) = true) as Hs
                by (apply is_set_Some; exists u; split; [reflexivity | assumption]).
              congruence.
           ++ congruence.
           ++ congruence.
    + split.
      * intros [= <-]. left. split; reflexivity.
      * intros [[_ ->]|(u & -> & Hne & _)]; [reflexivity|].
        assert (Server.is_set (Some u) = true) as Hs
          by (apply is_set_Some; exists u; split; [reflexivity | assumption]).
        congruence.
Qed.

(** * The exceptions of the conversions

    What [V1E], [V2E] and [V3E] return is what [V1], [V2] and [V3] compute
    ([..._agrees]), and they return whenever the values they convert do
    ([..._returns]). *)

Local Open Scope list_scope.

(** ** Conversions *)

Lemma String_of_agrees v : Raise.agrees (String_of v) (ToString v).
Proof. unfold String_of. intros x. destruct (convertible v); congruence. Qed.

Lemma Number_of_agrees v : Raise.agrees (Number_of v) (ToNumber v).
Proof. unfold Number_of. intros x. destruct (convertible v); congruence. Qed.

Lemma String_of_returns v : convertible v = true -> String_of v = Ok (ToString v).
Proof. unfold String_of. intros ->. reflexivity. Qed.

Lemma Number_of_returns v : convertible v = true -> Number_of v = Ok (ToNumber v).
Proof. unfold Number_of. intros ->. reflexivity. Qed.

Lemma convertible_coalesce a d :
  convertible a = true -> convertible d = true -> convertible (coalesce a d) = true.
Proof. unfold coalesce. destruct (nullish a); auto. Qed.

Lemma convertible_or_else a d :
  convertible a = true -> convertible d = true -> convertible (or_else a d) = true.
Proof. unfold or_else. destruct (truthy a); auto. Qed.

(** What is read from a record that converts, converts. *)
Lemma convertible_get raw k :
  Spec.convertible_record raw = true -> convertible (get raw k) = true.
Proof.
  intros Hraw. unfold get.
  destruct (assoc k raw) as [v|] eqn:Hk.
  - exact (assoc_forallb convertible k raw v Hraw Hk).
  - unfold inherited_value.
    destruct (inherited k); [|reflexivity].
    destruct (str_eqb k "__proto__"); [reflexivity|].
    destruct (str_eqb k "constructor"); reflexivity.
Qed.

Lemma convertible_at_index l i :
  forallb convertible l = true -> convertible (at_index l i) = true.
Proof.
  intros Hl. unfold at_index.
  destruct (l !! i) as [x|] eqn:Hx; [|reflexivity]. simpl.
  rewrite forallb_forall in Hl. apply Hl.
  apply list_elem_of_In, list_elem_of_lookup. eauto.
Qed.

(** ** Results that agree *)

Lemma agrees_Ok {A} (a : A) : Raise.agrees (Ok a) a.
Proof. intros x [= <-]. reflexivity. Qed.

Lemma agrees_Throw {A} e (a : A) : Raise.agrees (Throw e) a.
Proof. intros x H. discriminate H. Qed.

Lemma agrees_bind {A B} (r : result A) (k : A -> result B) a c :
  Raise.agrees r a -> Raise.agrees (k a) c -> Raise.agrees (rbind r k) c.
Proof.
  intros Hr Hk x. destruct r as [y|e]; simpl; [|discriminate].
  rewrite (Hr y eq_refl). apply Hk.
Qed.

Lemma agrees_or_default a d v :
  Raise.agrees d v -> Raise.agrees (Raise.or_default a d) (coalesce a v).
Proof.
  unfold Raise.or_default, coalesce. intros Hd.
  destruct (nullish a); [exact Hd | apply agrees_Ok].
Qed.

Lemma agrees_text r s : Raise.agrees r s -> Raise.agrees (Raise.text r) (VString s).
Proof. intros Hr. eapply agrees_bind; [exact Hr | apply agrees_Ok]. Qed.

Lemma agrees_number r x : Raise.agrees r x -> Raise.agrees (Raise.number r) (VNumber x).
Proof. intros Hr. eapply agrees_bind; [exact Hr | apply agrees_Ok]. Qed.

Lemma agrees_literal_cons k r v rest o :
  Raise.agrees r v -> Raise.agrees (Raise.literal rest) o ->
  Raise.agrees (Raise.literal ((k, r) :: rest)) ((k, v) :: o).
Proof.
  intros Hr Ho. simpl.
  eapply agrees_bind; [exact Hr|].
  eapply agrees_bind; [exact Ho | apply agrees_Ok].
Qed.

Lemma agrees_lookup_key v : Raise.agrees (Raise.lookup_key v) (lookup_key v).
Proof.
  destruct v as [| | | | [|c s] | | |]; simpl;
    first [apply agrees_Ok | apply String_of_agrees].
Qed.

Lemma lookup_key_returns v :
  convertible v = true -> Raise.lookup_key v = Ok (lookup_key v).
Proof.
  intros Hv. destruct v as [| | | | [|c s] | | |]; try reflexivity;
    apply String_of_returns, Hv.
Qed.

Lemma agrees_fill cell cell' cols i out :
  (forall col, Raise.agrees (cell col) (cell' col)) ->
  Raise.agrees (Raise.fill cell cols i out) (fill cell' cols i out).
Proof.
  intros Hc. revert i out. induction cols as [|col cols IH]; intros i out; simpl.
  - apply agrees_Ok.
  - eapply agrees_bind; [apply Hc | apply IH].
Qed.

Lemma fill_returns cell cell' cols i out :
  (forall col, In col cols -> cell col = Ok (cell' col)) ->
  Raise.fill cell cols i out = Ok (fill cell' cols i out).
Proof.
  revert i out. induction cols as [|col cols IH]; intros i out Hc; simpl.
  - reflexivity.
  - rewrite (Hc col) by (left; reflexivity). simpl.
    apply IH. intros c Hin. apply Hc. right. exact Hin.
Qed.

Lemma agrees_scale_step ms ss out i :
  Raise.agrees (Raise.scale_step ms ss out i) (scale_step ms ss out i).
Proof.
  unfold Raise.scale_step, scale_step.
  destruct (_ || _); [apply agrees_Ok|].
  eapply agrees_bind; [apply Number_of_agrees | apply agrees_Ok].
Qed.

Lemma agrees_scale_loop ms ss idxs out :
  Raise.agrees (Raise.scale_loop ms ss idxs out) (foldl (scale_step ms ss) out idxs).
Proof.
  revert out. induction idxs as [|i idxs IH]; intros out; simpl.
  - apply agrees_Ok.
  - eapply agrees_bind; [apply agrees_scale_step | apply IH].
Qed.

Lemma agrees_apply_scaler mean scale out :
  Raise.agrees (Raise.apply_scaler mean scale out) (apply_scaler mean scale out).
Proof.
  unfold Raise.apply_scaler, apply_scaler.
  destruct mean as [ms|], scale as [ss|]; try apply agrees_Ok.
  destruct (_ && _); [apply agrees_scale_loop | apply agrees_Ok].
Qed.

Lemma forallb_insert (p : value -> bool) l i v :
  forallb p l = true -> p v = true -> forallb p (<[i := v]> l) = true.
Proof.
  revert i. induction l as [|x l IH]; intros i Hl Hv; [exact Hl|].
  simpl in Hl. apply andb_prop in Hl as [Hx Hl].
  destruct i as [|i]; simpl.
  - rewrite Hv. exact Hl.
  - rewrite Hx. apply IH; assumption.
Qed.

Lemma scale_step_convertible ms ss out i :
  forallb convertible out = true ->
  forallb convertible (scale_step ms ss out i) = true.
Proof.
  intros Hout. unfold scale_step.
  destruct (_ || _); [exact Hout|].
  apply forallb_insert; [exact Hout | reflexivity].
Qed.

Lemma scale_step_returns ms ss out i :
  forallb convertible out = true ->
  Raise.scale_step ms ss out i = Ok (scale_step ms ss out i).
Proof.
  intros Hout. unfold Raise.scale_step, scale_step.
  destruct (_ || _); [reflexivity|].
  rewrite Number_of_returns by (apply convertible_at_index, Hout). reflexivity.
Qed.

Lemma scale_loop_returns ms ss idxs out :
  forallb convertible out = true ->
  Raise.scale_loop ms ss idxs out = Ok (foldl (scale_step ms ss) out idxs).
Proof.
  revert out. induction idxs as [|i idxs IH]; intros out Hout; simpl.
  - reflexivity.
  - rewrite scale_step_returns by exact Hout. simpl.
    apply IH, scale_step_convertible, Hout.
Qed.

(** The scaling block returns on a row whose entries convert. *)
Lemma apply_scaler_returns mean scale out :
  forallb convertible out = true ->
  Raise.apply_scaler mean scale out = Ok (apply_scaler mean scale out).
Proof.
  intros Hout. unfold Raise.apply_scaler, apply_scaler.
  destruct mean as [ms|], scale as [ss|]; try reflexivity.
  destruct (_ && _); [apply scale_loop_returns, Hout | reflexivity].
Qed.

Lemma agrees_map_throw {A B} (f : A -> result B) (g : A -> B) l :
  (forall x, Raise.agrees (f x) (g x)) ->
  Raise.agrees (map_throw f l) (map g l).
Proof.
  intros Hf. induction l as [|x l IH]; simpl.
  - apply agrees_Ok.
  - eapply agrees_bind; [apply Hf|].
    eapply agrees_bind; [exact IH | apply agrees_Ok].
Qed.

Lemma agrees_map_indexed {A B} (f : nat -> A -> result B) (g : nat -> A -> B) i l :
  (forall j x, Raise.agrees (f j x) (g j x)) ->
  Raise.agrees (Raise.map_indexed f i l) (imap (fun j => g (i + j)) l).
Proof.
  intros Hf. revert i. induction l as [|x l IH]; intros i; simpl.
  - apply agrees_Ok.
  - rewrite Nat.add_0_r.
    eapply agrees_bind; [apply Hf|].
    eapply agrees_bind; [|apply agrees_Ok].
    replace (imap ((fun j => g (i + j)) ∘ S) l) with (imap (fun j => g (S i + j)) l).
    + apply IH.
    + apply imap_ext. intros j y _. simpl. f_equal. lia.
Qed.

(** ** The second preprocessor *)

Lemma agrees_trim v : Raise.agrees (V2E.trim v) (V2.trim v).
Proof. eapply agrees_bind; [apply String_of_agrees | apply agrees_Ok]. Qed.

Lemma trim_returns v : convertible v = true -> V2E.trim v = Ok (V2.trim v).
Proof.
  intros Hv. unfold V2E.trim, V2.trim.
  rewrite String_of_returns by (apply convertible_coalesce; [exact Hv | reflexivity]).
  reflexivity.
Qed.

Lemma agrees_toNum v : Raise.agrees (V2E.toNum v) (V2.toNum v).
Proof.
  unfold V2E.toNum, V2.toNum. destruct (V2.isFiniteNum v); [apply agrees_Ok|].
  eapply agrees_bind; [apply Number_of_agrees | apply agrees_Ok].
Qed.

Lemma toNum_returns v : convertible v = true -> V2E.toNum v = Ok (V2.toNum v).
Proof.
  intros Hv. unfold V2E.toNum, V2.toNum. destruct (V2.isFiniteNum v); [reflexivity|].
  rewrite Number_of_returns by exact Hv. reflexivity.
Qed.

Lemma agrees_onlyICD v : Raise.agrees (V2E.onlyICD v) (V2.onlyICD v).
Proof. eapply agrees_bind; [apply agrees_trim | apply agrees_Ok]. Qed.

Lemma onlyICD_returns v : convertible v = true -> V2E.onlyICD v = Ok (V2.onlyICD v).
Proof. intros Hv. unfold V2E.onlyICD. rewrite trim_returns by exact Hv. reflexivity. Qed.

Lemma agrees_onlyCPT v : Raise.agrees (V2E.onlyCPT v) (V2.onlyCPT v).
Proof. eapply agrees_bind; [apply agrees_trim | apply agrees_Ok]. Qed.

Lemma onlyCPT_returns v : convertible v = true -> V2E.onlyCPT v = Ok (V2.onlyCPT v).
Proof. intros Hv. unfold V2E.onlyCPT. rewrite trim_returns by exact Hv. reflexivity. Qed.

(** Solves [Raise.agrees r a] for an expression [r] written with the
    combinators of [Raise]. *)
Ltac agree :=
  cbv beta;
  first
    [ apply agrees_Ok
    | apply agrees_toNum
    | apply agrees_trim
    | apply agrees_onlyICD
    | apply agrees_onlyCPT
    | apply String_of_agrees
    | apply Number_of_agrees
    | apply agrees_number; agree
    | apply agrees_text; agree
    | apply agrees_or_default; agree
    | eapply agrees_bind; [agree | agree] ].

Ltac agree_members :=
  repeat (apply agrees_literal_cons; [agree|]); apply agrees_Ok.

Lemma agrees_normalizeToTraining raw :
  Raise.agrees (V2E.normalizeToTraining raw) (V2.normalizeToTraining raw).
Proof.
  unfold V2E.normalizeToTraining, V2.normalizeToTraining.
  set (g := get raw). clearbody g.
  eapply agrees_bind; [agree|].
  eapply agrees_bind; [agree|].
  eapply agrees_bind; [agree|].
  eapply agrees_bind; [agree|].
  cbv zeta. agree_members.
Qed.

Lemma or_default_Ok a v : Raise.or_default a (Ok v) = Ok (coalesce a v).
Proof. unfold Raise.or_default, coalesce. destruct (nullish a); reflexivity. Qed.

(** Proves that a value built from the reads [g k] of a record that
    converts, converts. *)
Ltac conv Hg :=
  repeat first [ apply Hg
               | apply convertible_coalesce
               | apply convertible_or_else
               | reflexivity ].

(** Replaces the conversions of a normalisation by their values, the
    reads of the record being known to convert. *)
Ltac returns_step Hg :=
  first [ rewrite String_of_returns by conv Hg
        | rewrite Number_of_returns by conv Hg
        | rewrite trim_returns by conv Hg
        | rewrite onlyICD_returns by conv Hg
        | rewrite onlyCPT_returns by conv Hg
        | rewrite toNum_returns by conv Hg
        | rewrite or_default_Ok
        | progress cbn [rbind Raise.text Raise.number] ].

(** Normalisation returns on a record whose members convert. *)
Lemma normalizeToTraining_returns raw :
  Spec.convertible_record raw = true ->
  V2E.normalizeToTraining raw = Ok (V2.normalizeToTraining raw).
Proof.
  intros Hraw. pose proof (fun k => convertible_get raw k Hraw) as Hg.
  unfold V2E.normalizeToTraining, V2.normalizeToTraining.
  set (g := get raw) in *. clearbody g.
  repeat returns_step Hg. reflexivity.
Qed.

(** The members of the normalised record convert as well. *)
Lemma normalized_convertible raw :
  Spec.convertible_record raw = true ->
  Spec.convertible_record (V2.normalizeToTraining raw) = true.
Proof.
  intros Hraw. pose proof (fun k => convertible_get raw k Hraw) as Hg.
  unfold V2.normalizeToTraining, Spec.convertible_record.
  set (g := get raw) in *. clearbody g.
  cbn [forallb snd].
  repeat (apply andb_true_intro; split); conv Hg.
Qed.

Lemma encoder_of_convertible b col e :
  Spec.convertible_bundle b = true -> encoder_of b col = Some e ->
  Spec.convertible_encoder e = true.
Proof.
  unfold Spec.convertible_bundle, encoder_of. intros Hb.
  destruct (assoc col (label_encoders b)) as [e'|] eqn:He.
  - intros [= <-]. exact (assoc_forallb _ _ _ _ Hb He).
  - destruct (inherited col); [|discriminate]. intros [= <-]. reflexivity.
Qed.

Lemma agrees_encodeCategorical b col v :
  Raise.agrees (V2E.encodeCategorical b col v) (V2.encodeCategorical b col v).
Proof.
  unfold V2E.encodeCategorical, V2.encodeCategorical.
  destruct (encoder_of b col); [|apply agrees_Ok].
  eapply agrees_bind; [apply agrees_lookup_key | apply agrees_Ok].
Qed.

Lemma encodeCategorical_returns b col v :
  convertible v = true ->
  V2E.encodeCategorical b col v = Ok (V2.encodeCategorical b col v).
Proof.
  intros Hv. unfold V2E.encodeCategorical, V2.encodeCategorical.
  destruct (encoder_of b col); [|reflexivity].
  rewrite lookup_key_returns by exact Hv. reflexivity.
Qed.

(** With indices that convert, an encoded value converts. *)
Lemma encodeCategorical_convertible b col v :
  Spec.convertible_bundle b = true ->
  convertible (V2.encodeCategorical b col v) = true.
Proof.
  intros Hb. unfold V2.encodeCategorical.
  destruct (encoder_of b col) as [e|] eqn:He; [|reflexivity].
  pose proof (encoder_of_convertible b col e Hb He) as Hc.
  unfold Spec.convertible_encoder in Hc. apply andb_prop in Hc as [Hm Hu].
  destruct (assoc (lookup_key v) _) as [idx|] eqn:Hk.
  { exact (assoc_forallb convertible _ _ _ Hm Hk). }
  destruct (unknown_index e) as [u|]; simpl.
  - unfold coalesce. destruct (nullish u) eqn:Hn; simpl.
    + destruct (assoc "__UNK__" _) as [idx|] eqn:Hs; [|reflexivity].
      exact (assoc_forallb convertible _ _ _ Hm Hs).
    + rewrite Hn. exact Hu.
  - destruct (assoc "__UNK__" _) as [idx|] eqn:Hs; [|reflexivity].
    exact (assoc_forallb convertible _ _ _ Hm Hs).
Qed.

Lemma agrees_cell b normalized col :
  Raise.agrees (V2E.cell b normalized col) (V2.cell b normalized col).
Proof.
  unfold V2E.cell, V2.cell. destruct (encoder_of b col).
  - apply agrees_encodeCategorical.
  - apply agrees_number, agrees_toNum.
Qed.

Lemma cell_returns b normalized col :
  Spec.convertible_record normalized = true ->
  V2E.cell b normalized col = Ok (V2.cell b normalized col).
Proof.
  intros Hn. pose proof (convertible_get normalized col Hn) as Hv.
  unfold V2E.cell, V2.cell. destruct (encoder_of b col).
  - apply encodeCategorical_returns, Hv.
  - rewrite toNum_returns by exact Hv. reflexivity.
Qed.

Lemma cell_convertible b normalized col :
  Spec.convertible_bundle b = true ->
  convertible (V2.cell b normalized col) = true.
Proof.
  intros Hb. unfold V2.cell. destruct (encoder_of b col); [|reflexivity].
  apply encodeCategorical_convertible, Hb.
Qed.

Lemma forallb_map_all {A} (p : value -> bool) (f : A -> value) l :
  (forall x, p (f x) = true) -> forallb p (map f l) = true.
Proof.
  intros Hf. induction l as [|x l IH]; simpl; [reflexivity|].
  rewrite Hf. exact IH.
Qed.

Lemma agrees_encode_and_scale b normalized :
  Raise.agrees (V2E.encode_and_scale b normalized) (V2.encode_and_scale b normalized).
Proof.
  unfold V2E.encode_and_scale, V2.encode_and_scale. cbv zeta.
  eapply agrees_bind; [apply agrees_fill; intros col; apply agrees_cell|].
  apply agrees_apply_scaler.
Qed.

(** The core returns when the indices of the bundle and the members of the
    normalised record convert. *)
Lemma encode_and_scale_returns b normalized :
  Spec.convertible_bundle b = true ->
  Spec.convertible_record normalized = true ->
  V2E.encode_and_scale b normalized = Ok (V2.encode_and_scale b normalized).
Proof.
  intros Hb Hn. unfold V2E.encode_and_scale, V2.encode_and_scale. cbv zeta.
  rewrite (fill_returns _ (V2.cell b normalized))
    by (intros col _; apply cell_returns, Hn).
  simpl. apply apply_scaler_returns.
  rewrite fill_fresh. apply forallb_map_all. intros col. apply cell_convertible, Hb.
Qed.

(** Whenever [transformOne] returns, it returns the vector computed
    without regard to exceptions. *)
Lemma transformOne_agrees b raw out :
  V2E.transformOne b raw = Ok out -> V2.transformOne b raw = Ok out.
Proof.
  assert (forall o, Raise.agrees
            (let! normalized := V2E.normalizeToTraining o in
             V2E.encode_and_scale b normalized)
            (V2.encode_and_scale b (V2.normalizeToTraining o))) as H.
  { intros o. eapply agrees_bind;
      [apply agrees_normalizeToTraining | apply agrees_encode_and_scale]. }
  intros Hout. destruct raw; try discriminate Hout;
    unfold V2E.transformOne in Hout; unfold V2.transformOne;
    rewrite (H _ _ Hout); reflexivity.
Qed.

Lemma transformOne_returns b raw :
  Spec.convertible_bundle b = true ->
  Spec.convertible_record raw = true ->
  V2E.transformOne b (VObject raw) =
    Ok (V2.encode_and_scale b (V2.normalizeToTraining raw)).
Proof.
  intros Hb Hraw. unfold V2E.transformOne, fields_of.
  rewrite normalizeToTraining_returns by exact Hraw. cbn [rbind].
  apply encode_and_scale_returns; [exact Hb | apply normalized_convertible, Hraw].
Qed.

Lemma map_throw_agrees {A B} (f f' : A -> result B) l ys :
  (forall x y, f x = Ok y -> f' x = Ok y) ->
  map_throw f l = Ok ys -> map_throw f' l = Ok ys.
Proof.
  intros Hf. revert ys. induction l as [|x l IH]; intros ys; simpl; [tauto|].
  destruct (f x) as [y|e] eqn:Hx; simpl; [|discriminate].
  rewrite (Hf x y Hx). simpl.
  destruct (map_throw f l) as [zs|e]; simpl; [|discriminate].
  rewrite (IH zs eq_refl). tauto.
Qed.

Lemma transformBatch_agrees b rows X :
  V2E.transformBatch b rows = Ok X -> V2.transformBatch b rows = Ok X.
Proof.
  destruct rows; simpl; try discriminate.
  apply map_throw_agrees. apply transformOne_agrees.
Qed.

(** On records whose members convert the batch returns the vector of each
    record, in order. *)
Lemma transformBatch_returns b (rows : list obj) :
  Spec.convertible_bundle b = true ->
  forallb Spec.convertible_record rows = true ->
  V2E.transformBatch b (VArray (map VObject rows)) =
    Ok (map (fun raw => V2.encode_and_scale b (V2.normalizeToTraining raw)) rows).
Proof.
  intros Hb Hrows. unfold V2E.transformBatch.
  rewrite (map_throw_total _
    (fun raw => V2.encode_and_scale b (V2.normalizeToTraining (fields_of raw)))).
  - rewrite map_map. reflexivity.
  - intros x Hx. apply in_map_iff in Hx as [raw [<- Hin]].
    apply transformOne_returns; [exact Hb|].
    rewrite forallb_forall in Hrows. apply Hrows, Hin.
Qed.

(** ** The first preprocessor *)

Lemma agrees_toNumberOrZero v : Raise.agrees (V1E.toNumberOrZero v) (V1.toNumberOrZero v).
Proof.
  unfold V1E.toNumberOrZero, V1.toNumberOrZero. destruct (V1.isNumber v); [apply agrees_Ok|].
  eapply agrees_bind; [apply Number_of_agrees | apply agrees_Ok].
Qed.

Lemma toNumberOrZero_returns v :
  convertible v = true -> V1E.toNumberOrZero v = Ok (V1.toNumberOrZero v).
Proof.
  intros Hv. unfold V1E.toNumberOrZero, V1.toNumberOrZero.
  destruct (V1.isNumber v); [reflexivity|].
  rewrite Number_of_returns by exact Hv. reflexivity.
Qed.

Lemma agrees_encodeCategorical_V1 b col v :
  Raise.agrees (V1E.encodeCategorical b col v) (V1.encodeCategorical b col v).
Proof.
  unfold V1E.encodeCategorical, V1.encodeCategorical.
  destruct (encoder_of b col); [|apply agrees_Ok].
  eapply agrees_bind; [apply agrees_lookup_key | apply agrees_Ok].
Qed.

Lemma encodeCategorical_returns_V1 b col v :
  convertible v = true ->
  V1E.encodeCategorical b col v = Ok (V1.encodeCategorical b col v).
Proof.
  intros Hv. unfold V1E.encodeCategorical, V1.encodeCategorical.
  destruct (encoder_of b col); [|reflexivity].
  rewrite lookup_key_returns by exact Hv. reflexivity.
Qed.

Lemma agrees_cell_V1 b raw col :
  Raise.agrees (V1E.cell b raw col) (V1.cell b raw col).
Proof.
  unfold V1E.cell, V1.cell. destruct (encoder_of b col).
  - apply agrees_encodeCategorical_V1.
  - apply agrees_number, agrees_toNumberOrZero.
Qed.

Lemma cell_returns_V1 b raw col :
  Spec.convertible_record raw = true ->
  V1E.cell b (VObject raw) col = Ok (V1.cell b (VObject raw) col).
Proof.
  intros Hraw. pose proof (convertible_get raw col Hraw) as Hv.
  unfold V1E.cell, V1.cell, V1.read. simpl fields_of. destruct (encoder_of b col).
  - apply encodeCategorical_returns_V1, Hv.
  - rewrite toNumberOrZero_returns by exact Hv. reflexivity.
Qed.

Lemma cell_convertible_V1 b raw col :
  Spec.convertible_bundle b = true ->
  convertible (V1.cell b raw col) = true.
Proof.
  intros Hb. unfold V1.cell.
  destruct (encoder_of b col) as [e|] eqn:He; [|reflexivity].
  pose proof (encoder_of_convertible b col e Hb He) as Hc.
  unfold Spec.convertible_encoder in Hc. apply andb_prop in Hc as [Hm Hu].
  unfold V1.encodeCategorical. rewrite He.
  destruct (assoc (lookup_key _) _) as [idx|] eqn:Hk.
  { exact (assoc_forallb convertible _ _ _ Hm Hk). }
  destruct (unknown_index e) as [u|]; simpl; [|reflexivity].
  unfold coalesce. destruct (nullish u) eqn:Hn; simpl; [reflexivity|].
  rewrite Hn. exact Hu.
Qed.

Lemma transformOne_agrees_V1 b raw :
  Raise.agrees (V1E.transformOne b raw) (V1.transformOne b raw).
Proof.
  unfold V1E.transformOne, V1.transformOne. cbv zeta.
  eapply agrees_bind; [apply agrees_fill; intros col; apply agrees_cell_V1|].
  apply agrees_apply_scaler.
Qed.

Lemma transformOne_returns_V1 b raw :
  Spec.convertible_bundle b = true ->
  Spec.convertible_record raw = true ->
  V1E.transformOne b (VObject raw) = Ok (V1.transformOne b (VObject raw)).
Proof.
  intros Hb Hraw. unfold V1E.transformOne, V1.transformOne. cbv zeta.
  rewrite (fill_returns _ (V1.cell b (VObject raw)))
    by (intros col _; apply cell_returns_V1, Hraw).
  simpl. apply apply_scaler_returns.
  rewrite fill_fresh. apply forallb_map_all. intros col. apply cell_convertible_V1, Hb.
Qed.

Lemma transformBatch_returns_V1 b (rows : list obj) :
  Spec.convertible_bundle b = true ->
  forallb Spec.convertible_record rows = true ->
  V1E.transformBatch b (VArray (map VObject rows)) =
    Ok (map (fun raw => V1.transformOne b (VObject raw)) rows).
Proof.
  intros Hb Hrows. unfold V1E.transformBatch.
  rewrite (map_throw_total _ (V1.transformOne b)).
  - rewrite map_map. reflexivity.
  - intros x Hx. apply in_map_iff in Hx as [raw [<- Hin]].
    apply transformOne_returns_V1; [exact Hb|].
    rewrite forallb_forall in Hrows. apply Hrows, Hin.
Qed.

(** ** The third preprocessor *)

Lemma agrees_trim_V3 v : Raise.agrees (V3E.trim v) (V3.trim v).
Proof. eapply agrees_bind; [apply String_of_agrees | apply agrees_Ok]. Qed.


Lemma agrees_onlyICD_V3 v : Raise.agrees (V3E.onlyICD v) (V3.onlyICD v).
Proof. eapply agrees_bind; [apply agrees_trim_V3 | apply agrees_Ok]. Qed.


Lemma agrees_onlyCPT_V3 v : Raise.agrees (V3E.onlyCPT v) (V3.onlyCPT v).
Proof. eapply agrees_bind; [apply agrees_trim_V3 | apply agrees_Ok]. Qed.


Lemma agrees_number_or_zero v :
  Raise.agrees (V3E.number_or_zero v) (V3.number_or_zero v).
Proof. eapply agrees_bind; [apply Number_of_agrees | apply agrees_Ok]. Qed.


Ltac agree_V3 :=
  cbv beta;
  first
    [ apply agrees_Ok
    | apply agrees_trim_V3
    | apply agrees_onlyICD_V3
    | apply agrees_onlyCPT_V3
    | apply agrees_number_or_zero
    | apply String_of_agrees
    | apply Number_of_agrees
    | apply agrees_number; agree_V3
    | apply agrees_text; agree_V3
    | eapply agrees_bind; [agree_V3 | agree_V3] ].

Lemma agrees_normalizeToTraining_V3 raw :
  Raise.agrees (V3E.normalizeToTraining raw) (V3.normalizeToTraining raw).
Proof.
  unfold V3E.normalizeToTraining, V3.normalizeToTraining.
  set (g := get raw). clearbody g. cbv zeta.
  repeat (apply agrees_literal_cons; [agree_V3|]); apply agrees_Ok.
Qed.



Lemma agrees_encode_V3 b col v :
  Raise.agrees (V3E.encode b col v) (V3.encode b col v).
Proof.
  unfold V3E.encode, V3.encode.
  destruct (encoder_of b col) as [e|]; [|apply agrees_Ok].
  destruct (mapping e); [|apply agrees_Ok].
  eapply agrees_bind; [apply agrees_lookup_key | apply agrees_Ok].
Qed.

Lemma agrees_scaleByIndex b i v :
  Raise.agrees (V3E.scaleByIndex b i v) (V3.scaleByIndex b i v).
Proof.
  unfold V3E.scaleByIndex, V3.scaleByIndex.
  assert (Raise.agrees
            (if is_zero_value (at_index (V3.SCALE_ b) i)
             then V3E.number_or_zero v
             else let! x := Number_of v in
                  let! mean := Number_of (at_index (V3.MEAN_ b) i) in
                  let! scale := Number_of (at_index (V3.SCALE_ b) i) in
                  Ok (div (sub x mean) scale))
            (if is_zero_value (at_index (V3.SCALE_ b) i)
             then V3.number_or_zero v
             else div (sub (ToNumber v) (ToNumber (at_index (V3.MEAN_ b) i)))
                    (ToNumber (at_index (V3.SCALE_ b) i)))) as H.
  { destruct (is_zero_value _); [apply agrees_number_or_zero|].
    eapply agrees_bind; [apply Number_of_agrees|].
    eapply agrees_bind; [apply Number_of_agrees|].
    eapply agrees_bind; [apply Number_of_agrees | apply agrees_Ok]. }
  destruct (at_index (V3.MEAN_ b) i), (at_index (V3.SCALE_ b) i);
    first [apply agrees_number_or_zero | exact H].
Qed.

Lemma agrees_column b named i col :
  Raise.agrees (V3E.column b named i col) (V3.column b named i col).
Proof.
  unfold V3E.column, V3.column. destruct (V3.is_categorical b col).
  - apply agrees_encode_V3.
  - apply agrees_number, agrees_scaleByIndex.
Qed.

Lemma agrees_build_row b named :
  Raise.agrees (V3E.build_row b named) (V3.build_row b named).
Proof.
  unfold V3E.build_row, V3.build_row.
  apply (agrees_map_indexed (V3E.column b named) (V3.column b named) 0).
  intros j col. apply agrees_column.
Qed.

Lemma agrees_is_bad v : Raise.agrees (V3E.is_bad v) (V3.is_bad v).
Proof.
  unfold V3E.is_bad, V3.is_bad. destruct (Number_isNaN v); [apply agrees_Ok|].
  eapply agrees_bind; [apply Number_of_agrees | apply agrees_Ok].
Qed.

Lemma filter_flags {A} (p : A -> bool) l :
  length (List.filter (fun f : bool => f) (map p l)) = length (List.filter p l).
Proof.
  induction l as [|x l IH]; simpl; [reflexivity|].
  destruct (p x); simpl; rewrite IH; reflexivity.
Qed.

(** Whenever the guard returns, it is the guard computed without regard
    to exceptions that returns. *)
Lemma guard_agrees row out : V3E.guard row = Ok out -> V3.guard row = Ok out.
Proof.
  unfold V3E.guard, V3.guard.
  destruct (map_throw V3E.is_bad row) as [flags|e] eqn:Hf; simpl; [|discriminate].
  rewrite (agrees_map_throw V3E.is_bad V3.is_bad row agrees_is_bad flags Hf).
  rewrite filter_flags. tauto.
Qed.

Lemma buildVector_agrees b raw out :
  V3E.buildVector b raw = Ok out -> V3.buildVector b raw = Ok out.
Proof.
  assert (forall o,
            (let! named := V3E.normalizeToTraining o in
             let! row := V3E.build_row b named in
             V3E.guard row) = Ok out ->
            V3.guard (V3.build_row b (V3.normalizeToTraining o)) = Ok out) as H.
  { intros o.
    destruct (V3E.normalizeToTraining o) as [named|e] eqn:Hn; simpl; [|discriminate].
    rewrite (agrees_normalizeToTraining_V3 o named Hn).
    destruct (V3E.build_row b _) as [row|e] eqn:Hr; simpl; [|discriminate].
    rewrite (agrees_build_row b _ row Hr). apply guard_agrees. }
  intros Hout. destruct raw; try discriminate Hout;
    unfold V3E.buildVector in Hout; unfold V3.buildVector; apply H, Hout.
Qed.

(** ** C1: the shape of a batch *)

Lemma finite_convertible v : Number_isFinite v = true -> convertible v = true.
Proof. destruct v; try discriminate; reflexivity. Qed.

(** C1, as the code has it.  For every bundle whose encoder indices
    convert and every array of [n] raw records whose members convert
    ([String] and [Number] return on them: none is an object with a
    [toString] member of its own, or an array holding one),
    [transformBatch] returns exactly [n] vectors, each as long as
    [selected_features].  This holds of the [transformBatch] of both
    versions of [preprocess.js]. *)
Theorem transformBatch_shape (b : bundle) (rows : list obj) :
  Spec.convertible_bundle b = true ->
  forallb Spec.convertible_record rows = true ->
  (exists vectors,
      V2E.transformBatch b (VArray (map VObject rows)) = Ok vectors /\
      length vectors = length rows /\
      Forall (fun v => length v = length (selected_features b)) vectors) /\
  (exists vectors,
      V1E.transformBatch b (VArray (map VObject rows)) = Ok vectors /\
      length vectors = length rows /\
      Forall (fun v => length v = length (selected_features b)) vectors).
Proof.
  intros Hb Hrows. split.
  - eexists. split; [apply transformBatch_returns; assumption|].
    split; [apply length_map|].
    apply Forall_forall. intros v Hv.
    apply list_elem_of_In, in_map_iff in Hv as [raw [<- _]].
    apply length_encode_and_scale.
  - eexists. split; [apply transformBatch_returns_V1; assumption|].
    split; [apply length_map|].
    apply Forall_forall. intros v Hv.
    apply list_elem_of_In, in_map_iff in Hv as [raw [<- _]].
    apply length_V1_transformOne.
Qed.

Lemma transformBatch_shape_witness :
  Spec.convertible_bundle Spec.mixed_bundle = true /\
  forallb Spec.convertible_record
    [[("gender", VString "B"); ("patient_age", VNumber num_12)]; []] = true /\
  exists vectors,
    V2E.transformBatch Spec.mixed_bundle
      (VArray (map VObject [[("gender", VString "B"); ("patient_age", VNumber num_12)]; []]))
      = Ok vectors /\
    length vectors = 2 /\
    Forall (fun v => length v = 2) vectors.
Proof.
  split; [reflexivity|]. split; [reflexivity|].
  apply (proj1 (transformBatch_shape Spec.mixed_bundle
                  [[("gender", VString "B"); ("patient_age", VNumber num_12)]; []]
                  eq_refl eq_refl)).
Defined.

(** C1 as stated fails.  A record whose provider is [{"toString": 1}] is
    a raw record, and the bundle of the example is valid; [transformBatch]
    throws the [TypeError] of [String], in both versions, and returns no
    vector.  So does a valid bundle with such an object for index, on a
    record like any other. *)
Lemma transformBatch_shape_counterexample :
  V2E.transformBatch Spec.example_bundle
    (VArray [VObject [("provider_id", Spec.shadowed)]]) = Throw not_primitive /\
  V1E.transformBatch Spec.example_bundle
    (VArray [VObject [("Gender", Spec.shadowed)]]) = Throw not_primitive /\
  V2E.transformBatch Spec.shadowed_index_bundle
    (VArray [VObject [("gender", VString "A")]]) = Throw not_primitive /\
  ~ Spec.claimed_shape.
Proof.
  split; [vm_compute; reflexivity|]. split; [vm_compute; reflexivity|].
  split; [vm_compute; reflexivity|].
  intros H.
  destruct (H Spec.example_bundle [[("provider_id", Spec.shadowed)]])
    as [vectors [Hv _]]; [discriminate|].
  vm_compute in Hv. discriminate Hv.
Qed.

(** ** C2: scaling by position *)





(** ** C3: the categorical lookup *)

(** C3, as the code has it.  For a column declared in [label_encoders]
    and a value that converts, [encodeCategorical] of [preprocess.js] looks
    the value up under the key ["Unknown"] when it is [null], [undefined] or
    the empty string, under [String(value)] otherwise, and resolves the
    index in this order: the entry of the exact key; else the declared
    unknown index; else the entry of the reserved key [__UNK__]; else [0].
    [encode] of [transformer.js] returns [0] for an encoder without a
    mapping, and follows that same order for an encoder with one, when the
    key is not the name of an inherited member and the unknown index is not
    [null].  With the mapping [{"A": 0, "B": 1}] and unknown index [2],
    ["C"] encodes to [2] in the three sources, ["A"] to [0], and [null] to
    [2] as the mapping has no ["Unknown"] entry. *)
Theorem encodeCategorical_priority (b : bundle) (col : string) (enc : encoder)
    (v : value) :
  assoc col (label_encoders b) = Some enc ->
  convertible v = true ->
  V2E.encodeCategorical b col v =
    Ok (Spec.resolve_index (default [] (mapping enc)) (unknown_index enc)
          (Spec.coerced_key v)) /\
  (mapping enc = None -> V3E.encode b col v = Ok (VNumber zero)) /\
  (forall m, mapping enc = Some m ->
     inherited (Spec.coerced_key v) = false ->
     Spec.unknown_index_set enc = true ->
     V3E.encode b col v =
       Ok (Spec.resolve_index m (unknown_index enc) (Spec.coerced_key v))) /\
  V2E.encodeCategorical Spec.example_bundle "Gender" (VString "C") = Ok (VNumber (of_Z 2)) /\
  V3E.encode Spec.example_bundle "Gender" (VString "C") = Ok (VNumber (of_Z 2)) /\
  V1E.encodeCategorical Spec.example_bundle "Gender" (VString "C") = Ok (VNumber (of_Z 2)) /\
  V2E.encodeCategorical Spec.example_bundle "Gender" (VString "A") = Ok (VNumber zero) /\
  V2E.encodeCategorical Spec.example_bundle "Gender" VNull = Ok (VNumber (of_Z 2)).
Proof.
  intros Henc Hv.
  assert (encoder_of b col = Some enc) as He by (unfold encoder_of; rewrite Henc; reflexivity).
  split.
  { rewrite encodeCategorical_returns by exact Hv.
    rewrite (encodeCategorical_resolves b col enc v Henc). reflexivity. }
  split.
  { intros Hm. unfold V3E.encode. rewrite He, Hm. reflexivity. }
  split; [|repeat split; vm_compute; reflexivity].
  intros m Hm Hk Hu.
  assert (V3E.encode b col v = Ok (V3.encode b col v)) as ->.
  { unfold V3E.encode, V3.encode. rewrite He, Hm.
    rewrite lookup_key_returns by exact Hv. reflexivity. }
  rewrite <- lookup_key_coerced in Hk.
  rewrite (encode_V3_V2 b col enc m v He Hm Hu Hk).
  rewrite (encodeCategorical_resolves b col enc v Henc), Hm. reflexivity.
Qed.

Lemma encodeCategorical_priority_witness :
  assoc "Gender" (label_encoders Spec.example_bundle) = Some Spec.example_encoder /\
  convertible (VString "C") = true /\
  V2E.encodeCategorical Spec.example_bundle "Gender" (VString "C") =
    Ok (Spec.resolve_index (default [] (mapping Spec.example_encoder))
          (unknown_index Spec.example_encoder) (Spec.coerced_key (VString "C"))).
Proof.
  split; [reflexivity|]. split; [reflexivity|].
  apply (encodeCategorical_priority Spec.example_bundle "Gender"
           Spec.example_encoder (VString "C")); reflexivity.
Defined.

(** C3 as stated fails.  For an encoder that declares the unknown index
    [2] and no mapping, the order of the specification gives [2], and so
    does [encodeCategorical]; [encode] returns [0], its guard on the mapping
    coming first.  On a value that does not convert both throw.  And
    [encode] leaves the order in two more places: the value
    ["constructor"] is found in the mapping of the example, as an inherited
    member, and an unknown index that is [null] is returned as it is. *)
Lemma encodeCategorical_priority_counterexample :
  assoc "Gender" (label_encoders Spec.bare_encoder_bundle)
    = Some {| mapping := None; unknown_index := Some (VNumber (of_Z 2)) |} /\
  Spec.resolve_index [] (Some (VNumber (of_Z 2))) (Spec.coerced_key (VString "C"))
    = VNumber (of_Z 2) /\
  V2E.encodeCategorical Spec.bare_encoder_bundle "Gender" (VString "C")
    = Ok (VNumber (of_Z 2)) /\
  V3E.encode Spec.bare_encoder_bundle "Gender" (VString "C") = Ok (VNumber zero) /\
  V2E.encodeCategorical Spec.example_bundle "Gender" Spec.shadowed = Throw not_primitive /\
  V3E.encode Spec.example_bundle "Gender" Spec.shadowed = Throw not_primitive /\
  (V2E.encodeCategorical Spec.example_bundle "Gender" (VString "constructor")
     = Ok (VNumber (of_Z 2)) /\
   V3E.encode Spec.example_bundle "Gender" (VString "constructor")
     = Ok (VFunction "Object")) /\
  (V2E.encodeCategorical Spec.null_unknown_bundle "Gender" (VString "C")
     = Ok (VNumber zero) /\
   V3E.encode Spec.null_unknown_bundle "Gender" (VString "C") = Ok VNull) /\
  ~ Spec.claimed_encoding.
Proof.
  split; [reflexivity|]. split; [reflexivity|]. split; [vm_compute; reflexivity|].
  split; [reflexivity|]. split; [reflexivity|]. split; [reflexivity|].
  split; [split; vm_compute; reflexivity|].
  split; [split; vm_compute; reflexivity|].
  intros H.
  destruct (H Spec.bare_encoder_bundle "Gender" _ (VString "C") eq_refl) as [_ H3].
  vm_compute in H3. discriminate H3.
Qed.

(** ** C7: normalisation *)








(** ** C8: the entries of a vector *)

Lemma normal_convertible b :
  Spec.normal_bundle b = true -> Spec.convertible_bundle b = true.
Proof.
  unfold Spec.normal_bundle, Spec.convertible_bundle. intros Hb.
  apply forallb_forall. intros [k e] Hin.
  rewrite forallb_forall in Hb. specialize (Hb (k, e) Hin). simpl in *.
  unfold Spec.normal_encoder in Hb. apply andb_prop in Hb as [Hm Hu].
  unfold Spec.convertible_encoder, Spec.convertible_record.
  apply andb_true_intro. split.
  - apply forallb_forall. intros kv Hkv. rewrite forallb_forall in Hm.
    apply finite_convertible, Hm, Hkv.
  - destruct (unknown_index e); [apply finite_convertible, Hu | reflexivity].
Qed.

Lemma assoc_own {A} k (m : list (string * A)) :
  hasOwnProperty m k = true -> exists v, assoc k m = Some v.
Proof. unfold hasOwnProperty. destruct (assoc k m); [eauto | discriminate]. Qed.

(** Under a normal configuration [encode] gives a finite number, when the
    key is not the name of an inherited member. *)
Lemma encode_finite_V3 b col v :
  Spec.normal_bundle b = true ->
  inherited (lookup_key v) = false ->
  Number_isFinite (V3.encode b col v) = true.
Proof.
  intros Hb Hk. unfold V3.encode.
  destruct (encoder_of b col) as [e|] eqn:He; [|reflexivity].
  pose proof (encoder_of_normal b col e Hb He) as Hn.
  unfold Spec.normal_encoder in Hn. apply andb_prop in Hn as [Hm Hu].
  destruct (mapping e) as [m|]; [|reflexivity]. simpl in Hm.
  unfold has_property, get. rewrite Hk, orb_false_r. unfold hasOwnProperty.
  destruct (assoc (lookup_key v) m) as [idx|] eqn:Hidx.
  { exact (assoc_forallb _ _ _ _ Hm Hidx). }
  destruct (unknown_index e) as [u|]; [exact Hu|].
  simpl. destruct (assoc "__UNK__" m) as [idx|] eqn:Hs; [|reflexivity].
  exact (assoc_forallb _ _ _ _ Hm Hs).
Qed.

(** C8, as the code has it.  For every raw record and every normally
    configured bundle (finite indices in the mappings, a finite unknown
    index when there is one), every entry of a vector [transformOne] returns
    is a number and never [NaN] nor a value of another type, and the entry
    of a position that is not scaled is finite; [transformOne] returns a
    vector when the members of the record convert.  In [transformer.js]
    every entry of a vector [buildVector] returns is a finite number, when
    no categorical column holds the name of an inherited member. *)
Theorem vector_entries_numbers (b : bundle) (raw : obj) :
  Spec.normal_bundle b = true ->
  (forall out,
     V2E.transformOne b (VObject raw) = Ok out ->
     forall i v, out !! i = Some v ->
       exists x, v = VNumber x /\ isNaN x = false /\
                 (Spec.scales_position b i = false -> finite x = true)) /\
  (Spec.convertible_record raw = true ->
   exists out, V2E.transformOne b (VObject raw) = Ok out) /\
  (forall out,
     V3E.buildVector b (VObject raw) = Ok out ->
     Spec.own_keys b (V3.normalizeToTraining raw) = true ->
     forall v, In v out -> exists x, v = VNumber x /\ finite x = true).
Proof.
  intros Hb. split.
  { intros out Hout i v Hv.
    apply transformOne_agrees in Hout. injection Hout as <-.
    exact (transformOne_entries b raw Hb i v Hv). }
  split.
  { intros Hraw. eexists.
    apply transformOne_returns; [apply normal_convertible, Hb | exact Hraw]. }
  intros out Hout Hown v Hv.
  apply buildVector_agrees in Hout. simpl in Hout.
  pose proof Hout as Hguard.
  rewrite guard_spec in Hout.
  destruct (existsb Spec.implausible _); [discriminate Hout|].
  injection Hout as <-.
  apply list_elem_of_In, list_elem_of_lookup in Hv as [i Hi].
  unfold V3.build_row in Hi. rewrite list_lookup_imap in Hi.
  destruct (selected_features b !! i) as [col|] eqn:Hcol; [|discriminate Hi].
  simpl in Hi. injection Hi as Hi.
  unfold V3.column in Hi.
  destruct (V3.is_categorical b col) eqn:Hcat.
  - assert (inherited (lookup_key (get (V3.normalizeToTraining raw) col)) = false) as Hk.
    { unfold Spec.own_keys in Hown. rewrite forallb_forall in Hown.
      assert (In col (selected_features b)) as Hin
        by (apply list_elem_of_In, list_elem_of_lookup; eauto).
      specialize (Hown col Hin). rewrite Hcat in Hown. simpl in Hown.
      apply negb_true_iff, Hown. }
    pose proof (encode_finite_V3 b col _ Hb Hk) as Hf. rewrite Hi in Hf.
    destruct v; try discriminate Hf. eexists. split; [reflexivity | exact Hf].
  - subst v. eexists. split; [reflexivity|].
    apply (guard_numbers_finite _ _ _ Hguard).
    apply list_elem_of_In, list_elem_of_lookup. exists i.
    unfold V3.build_row. rewrite list_lookup_imap, Hcol. simpl.
    unfold V3.column. rewrite Hcat. reflexivity.
Qed.

Lemma vector_entries_numbers_witness :
  Spec.normal_bundle Spec.example_bundle = true /\
  Spec.convertible_record [("gender", VString "B")] = true /\
  exists out, V2E.transformOne Spec.example_bundle (VObject [("gender", VString "B")]) = Ok out.
Proof.
  split; [reflexivity|]. split; [reflexivity|].
  apply (proj1 (proj2 (vector_entries_numbers Spec.example_bundle [("gender", VString "B")]
                         eq_refl))).
  reflexivity.
Defined.

(** C8 as stated fails.  A normally configured bundle scales its one
    numeric column by [(x - 0) / 0.5]; for the record [{"AgeAtClaim":
    1e308}] the quotient overflows and the entry returned is [Infinity].
    And for the value ["constructor"] in the categorical column of the
    example, [buildVector] returns the function found under that key, its
    guard letting it through. *)
Lemma vector_entry_overflow_counterexample :
  Spec.normal_bundle Spec.halving_bundle = true /\
  V2E.transformOne Spec.halving_bundle (VObject [("AgeAtClaim", VNumber num_1e308)])
    = Ok [VNumber Infinity] /\
  Number_isFinite (VNumber Infinity) = false /\
  Spec.normal_bundle Spec.example_bundle = true /\
  V3E.buildVector Spec.example_bundle (VObject [("gender", VString "constructor")])
    = Ok [VFunction "Object"] /\
  Number_isFinite (VFunction "Object") = false.
Proof.
  split; [reflexivity|]. split; [vm_compute; reflexivity|]. split; [reflexivity|].
  split; [reflexivity|]. split; [vm_compute; reflexivity | reflexivity].
Qed.

(** ** Further properties, with the exceptions *)

(** X1.  Whenever [toNum] returns, it returns a finite number: [Number(v)]
    when that is finite, 0 otherwise ([NaN], the infinities, text that is
    not a number, plain objects), and [toNum] of that number is the number
    again.  It returns for every value that converts and throws the
    [TypeError] of [Number] for the others.  [toNumberOrZero] of the first
    [preprocess.js] does the same. *)
Theorem toNum_finite_total (v : value) :
  (forall x, V2E.toNum v = Ok x ->
     finite x = true /\
     x = (if finite (ToNumber v) then ToNumber v else zero) /\
     V2E.toNum (VNumber x) = Ok x) /\
  (convertible v = true -> V2E.toNum v = Ok (V2.toNum v)) /\
  (convertible v = false -> V2E.toNum v = Throw not_primitive) /\
  V1E.toNumberOrZero v = V2E.toNum v.
Proof.
  split; [|split; [apply toNum_returns | split; [|reflexivity]]].
  - intros x Hx. rewrite (agrees_toNum v x Hx).
    split; [apply toNum_finite|]. split; [apply toNum_value|].
    rewrite toNum_returns by reflexivity. rewrite toNum_idempotent. reflexivity.
  - intros Hv. unfold V2E.toNum, Number_of. rewrite Hv.
    destruct v; try discriminate Hv; reflexivity.
Qed.

(** X6.  Every numeric field of a record that normalisation returns, in
    [preprocess.js] (coverage months, chronic-condition flags, amounts, age,
    duration, counts), holds a finite number, whatever the raw record holds
    there. *)
Theorem numeric_fields_finite (raw normalized : obj) (k : string) :
  V2E.normalizeToTraining raw = Ok normalized ->
  In k Spec.numeric_fields ->
  exists x, get normalized k = VNumber x /\ finite x = true.
Proof.
  intros Hn Hk. rewrite (agrees_normalizeToTraining raw normalized Hn).
  apply numeric_fields_finite_value, Hk.
Qed.

Lemma numeric_fields_finite_witness :
  V2E.normalizeToTraining [("patient_age", VString "n/a")]
    = Ok (V2.normalizeToTraining [("patient_age", VString "n/a")]) /\
  In "AgeAtClaim" Spec.numeric_fields /\
  exists x, get (V2.normalizeToTraining [("patient_age", VString "n/a")]) "AgeAtClaim"
            = VNumber x /\ finite x = true.
Proof.
  assert (V2E.normalizeToTraining [("patient_age", VString "n/a")]
          = Ok (V2.normalizeToTraining [("patient_age", VString "n/a")])) as Hn
    by (apply normalizeToTraining_returns; reflexivity).
  assert (In "AgeAtClaim" Spec.numeric_fields) as Hin
    by (apply existsb_str_In; reflexivity).
  split; [exact Hn|]. split; [exact Hin|].
  apply (numeric_fields_finite [("patient_age", VString "n/a")] _ "AgeAtClaim" Hn Hin).
Defined.

(** X7.  Whenever [onlyCPT] returns, it returns exactly five digits, the
    code found or ["00000"]; applied to what it returned it returns it
    again, and the [onlyCPT] of [transformer.js] returns the same.  It
    returns on every string. *)
Theorem onlyCPT_five_digits (v : value) (code : string) :
  V2E.onlyCPT v = Ok code ->
  Spec.five_digits code = true /\
  V2E.onlyCPT (VString code) = Ok code /\
  V3E.onlyCPT v = Ok code /\
  forall s, exists c, V2E.onlyCPT (VString s) = Ok c.
Proof.
  intros Hc. pose proof (agrees_onlyCPT v code Hc) as ->.
  destruct (onlyCPT_value_five_digits v) as [H5 [Hfix _]].
  split; [exact H5|]. split.
  { rewrite onlyCPT_returns by reflexivity. rewrite Hfix. reflexivity. }
  split; [exact Hc|].
  intros s. eexists. apply onlyCPT_returns. reflexivity.
Qed.

Lemma onlyCPT_five_digits_witness :
  V2E.onlyCPT (VString "cpt 99213 billed") = Ok "99213" /\
  Spec.five_digits "99213" = true /\
  V2E.onlyCPT (VString "99213") = Ok "99213".
Proof.
  assert (V2E.onlyCPT (VString "cpt 99213 billed") = Ok "99213") as H
    by (vm_compute; reflexivity).
  split; [exact H|].
  destruct (onlyCPT_five_digits (VString "cpt 99213 billed") "99213" H) as [H5 [Hfix _]].
  split; [exact H5 | exact Hfix].
Defined.

(** X9.  Whenever [onlyICD] returns, what it returns is in upper case and
    is a fixed point of the extraction: applied to a code it extracted (or
    to its fallback ["UNKNOWN"]) it returns it unchanged.  A code it
    extracts matches the pattern as a whole: a letter, a digit, then
    letters, digits and dots.  The [onlyICD] of [transformer.js] returns the
    same. *)
Theorem onlyICD_fixed_point (v : value) (code : string) :
  V2E.onlyICD v = Ok code ->
  toUpperCase code = code /\
  V2E.onlyICD (VString code) = Ok code /\
  (code = "UNKNOWN" \/ Spec.icd_token code = true) /\
  V3E.onlyICD v = Ok code.
Proof.
  intros Hc. pose proof (agrees_onlyICD v code Hc) as ->.
  destruct (onlyICD_value_fixed_point v) as [Hup [Hfix [Hcase _]]].
  split; [exact Hup|]. split.
  { rewrite onlyICD_returns by reflexivity. rewrite Hfix. reflexivity. }
  split; [exact Hcase | exact Hc].
Qed.

Lemma onlyICD_fixed_point_witness :
  V2E.onlyICD (VString "Diag: e11.9 present") = Ok "E11.9" /\
  V2E.onlyICD (VString "E11.9") = Ok "E11.9" /\
  Spec.icd_token "E11.9" = true.
Proof.
  assert (V2E.onlyICD (VString "Diag: e11.9 present") = Ok "E11.9") as H
    by (vm_compute; reflexivity).
  split; [exact H|].
  destruct (onlyICD_fixed_point (VString "Diag: e11.9 present") "E11.9" H)
    as [_ [Hfix _]].
  split; [exact Hfix | reflexivity].
Defined.

(** X10.  [encodeCategorical] never invents an index: for a declared
    column, whatever it returns is an index of the mapping, the declared
    unknown index, or 0. *)
Theorem encodeCategorical_range (b : bundle) (col : string) (enc : encoder)
    (v idx : value) :
  assoc col (label_encoders b) = Some enc ->
  V2E.encodeCategorical b col v = Ok idx ->
  In idx (map snd (default [] (mapping enc))) \/
  unknown_index enc = Some idx \/
  idx = VNumber zero.
Proof.
  intros He Hidx. rewrite (agrees_encodeCategorical b col v idx Hidx).
  apply encodeCategorical_value_range, He.
Qed.

Lemma encodeCategorical_range_witness :
  assoc "Gender" (label_encoders Spec.example_bundle) = Some Spec.example_encoder /\
  V2E.encodeCategorical Spec.example_bundle "Gender" (VString "zz") = Ok (VNumber (of_Z 2)) /\
  (In (VNumber (of_Z 2)) (map snd (default [] (mapping Spec.example_encoder))) \/
   unknown_index Spec.example_encoder = Some (VNumber (of_Z 2)) \/
   VNumber (of_Z 2) = VNumber zero).
Proof.
  split; [reflexivity|]. split; [reflexivity|].
  apply (encodeCategorical_range Spec.example_bundle "Gender" Spec.example_encoder
           (VString "zz")); reflexivity.
Defined.

(** X11.  A categorical value is looked up under its text: a number and
    the string that writes it, a boolean and its name, encode alike in the
    three sources.  So 1 is found under ["1"], a half under ["0.5"], [-0]
    under ["0"] like 0, [2 ^ -24] under ["5.960464477539063e-8"] and
    [1e21] under ["1e+21"]. *)
Theorem encode_by_text (b : bundle) (col : string) (x : number) (t : bool) :
  V2E.encodeCategorical b col (VNumber x) =
    V2E.encodeCategorical b col (VString (NumberToString x)) /\
  V1E.encodeCategorical b col (VNumber x) =
    V1E.encodeCategorical b col (VString (NumberToString x)) /\
  V3E.encode b col (VNumber x) = V3E.encode b col (VString (NumberToString x)) /\
  V2E.encodeCategorical b col (VBool t) =
    V2E.encodeCategorical b col (VString (if t then "true" else "false")) /\
  V2E.encodeCategorical b col (VNumber (S754_zero true)) =
    V2E.encodeCategorical b col (VNumber zero) /\
  NumberToString num_1 = "1" /\
  NumberToString num_half = "0.5" /\
  NumberToString (S754_zero true) = "0" /\
  NumberToString (S754_finite false 4503599627370496 (-76)) = "5.960464477539063e-8" /\
  NumberToString (StringToNumber "1e21") = "1e+21".
Proof.
  destruct (encode_by_text_value b col x t) as [H2 [H1 [H3 [Ht _]]]].
  rewrite !encodeCategorical_returns, !encodeCategorical_returns_V1 by reflexivity.
  assert (forall v, convertible v = true -> V3E.encode b col v = Ok (V3.encode b col v)) as E3.
  { intros v Hv. unfold V3E.encode, V3.encode.
    destruct (encoder_of b col) as [e|]; [|reflexivity].
    destruct (mapping e); [|reflexivity].
    rewrite lookup_key_returns by exact Hv. reflexivity. }
  rewrite !E3 by reflexivity.
  rewrite H2, H1, H3, Ht.
  repeat split; vm_compute; reflexivity.
Qed.

(** ** What a batch throws *)

Lemma type_errors_Ok {A} (a : A) : Spec.type_errors (Ok a).
Proof. intros e H. discriminate H. Qed.

Lemma type_errors_bind {A B} (r : result A) (k : A -> result B) :
  Spec.type_errors r -> (forall a, Spec.type_errors (k a)) ->
  Spec.type_errors (rbind r k).
Proof.
  intros Hr Hk e. destruct r as [a|e']; simpl.
  - apply Hk.
  - intros [= <-]. apply Hr. reflexivity.
Qed.

Lemma type_errors_String_of v : Spec.type_errors (String_of v).
Proof.
  unfold String_of. destruct (convertible v); [apply type_errors_Ok|].
  intros e [= <-]. eexists. reflexivity.
Qed.

Lemma type_errors_Number_of v : Spec.type_errors (Number_of v).
Proof.
  unfold Number_of. destruct (convertible v); [apply type_errors_Ok|].
  intros e [= <-]. eexists. reflexivity.
Qed.

Lemma type_errors_or_default a d :
  Spec.type_errors d -> Spec.type_errors (Raise.or_default a d).
Proof.
  unfold Raise.or_default. intros Hd. destruct (nullish a); [exact Hd | apply type_errors_Ok].
Qed.

Lemma type_errors_literal_cons k r rest :
  Spec.type_errors r -> Spec.type_errors (Raise.literal rest) ->
  Spec.type_errors (Raise.literal ((k, r) :: rest)).
Proof.
  intros Hr Hrest. simpl.
  apply type_errors_bind; [exact Hr|]. intros v.
  apply type_errors_bind; [exact Hrest|]. intros o. apply type_errors_Ok.
Qed.

Lemma type_errors_text r : Spec.type_errors r -> Spec.type_errors (Raise.text r).
Proof. intros Hr. apply type_errors_bind; [exact Hr | intros t; apply type_errors_Ok]. Qed.

Lemma type_errors_number r : Spec.type_errors r -> Spec.type_errors (Raise.number r).
Proof. intros Hr. apply type_errors_bind; [exact Hr | intros t; apply type_errors_Ok]. Qed.

Lemma type_errors_toNum v : Spec.type_errors (V2E.toNum v).
Proof.
  unfold V2E.toNum. destruct (V2.isFiniteNum v); [apply type_errors_Ok|].
  apply type_errors_bind; [apply type_errors_Number_of | intros x; apply type_errors_Ok].
Qed.

Lemma type_errors_trim v : Spec.type_errors (V2E.trim v).
Proof.
  apply type_errors_bind; [apply type_errors_String_of | intros x; apply type_errors_Ok].
Qed.

Lemma type_errors_onlyICD v : Spec.type_errors (V2E.onlyICD v).
Proof.
  apply type_errors_bind; [apply type_errors_trim | intros x; apply type_errors_Ok].
Qed.

Lemma type_errors_onlyCPT v : Spec.type_errors (V2E.onlyCPT v).
Proof.
  apply type_errors_bind; [apply type_errors_trim | intros x; apply type_errors_Ok].
Qed.

(** Solves [Spec.type_errors r] for an expression [r] written with the
    combinators of [Raise] and the conversions. *)
Ltac only_type_errors :=
  cbv beta;
  lazymatch goal with
  | |- Spec.type_errors (Ok _) => apply type_errors_Ok
  | |- Spec.type_errors (V2E.toNum _) => apply type_errors_toNum
  | |- Spec.type_errors (V2E.trim _) => apply type_errors_trim
  | |- Spec.type_errors (V2E.onlyICD _) => apply type_errors_onlyICD
  | |- Spec.type_errors (V2E.onlyCPT _) => apply type_errors_onlyCPT
  | |- Spec.type_errors (String_of _) => apply type_errors_String_of
  | |- Spec.type_errors (Number_of _) => apply type_errors_Number_of
  | |- Spec.type_errors (Raise.text _) => apply type_errors_text; only_type_errors
  | |- Spec.type_errors (Raise.number _) => apply type_errors_number; only_type_errors
  | |- Spec.type_errors (Raise.or_default _ _) =>
      apply type_errors_or_default; only_type_errors
  | |- Spec.type_errors (rbind _ _) =>
      apply type_errors_bind; [only_type_errors | intros ?; only_type_errors]
  | |- Spec.type_errors (Raise.literal (_ :: _)) =>
      apply type_errors_literal_cons; [only_type_errors | only_type_errors]
  | |- Spec.type_errors (Raise.literal []) => apply type_errors_Ok
  end.

Lemma type_errors_normalizeToTraining raw :
  Spec.type_errors (V2E.normalizeToTraining raw).
Proof.
  unfold V2E.normalizeToTraining.
  set (g := get raw). clearbody g. cbv zeta.
  only_type_errors.
Qed.

Lemma type_errors_fill cell cols i out :
  (forall col, Spec.type_errors (cell col)) ->
  Spec.type_errors (Raise.fill cell cols i out).
Proof.
  intros Hc. revert i out. induction cols as [|col cols IH]; intros i out; simpl.
  - apply type_errors_Ok.
  - apply type_errors_bind; [apply Hc | intros v; apply IH].
Qed.

Lemma type_errors_apply_scaler mean scale out :
  Spec.type_errors (Raise.apply_scaler mean scale out).
Proof.
  unfold Raise.apply_scaler.
  destruct mean as [ms|], scale as [ss|]; try apply type_errors_Ok.
  destruct (_ && _); [|apply type_errors_Ok].
  generalize (seq 0 (length out)). intros idxs. revert out.
  induction idxs as [|i idxs IH]; intros out; simpl.
  - apply type_errors_Ok.
  - apply type_errors_bind; [|intros o; apply IH].
    unfold Raise.scale_step. destruct (_ || _); [apply type_errors_Ok|].
    apply type_errors_bind; [apply type_errors_Number_of | intros x; apply type_errors_Ok].
Qed.

Lemma type_errors_cell b normalized col : Spec.type_errors (V2E.cell b normalized col).
Proof.
  unfold V2E.cell, V2E.encodeCategorical, Raise.number, Raise.lookup_key.
  destruct (encoder_of b col).
  - apply type_errors_bind; [|intros key; apply type_errors_Ok].
    destruct (get normalized col) as [| | | | [|c s] | | |];
      first [apply type_errors_Ok | apply type_errors_String_of].
  - apply type_errors_bind; [apply type_errors_toNum | intros x; apply type_errors_Ok].
Qed.

(** Whatever [transformOne] throws is a [TypeError]. *)
Lemma type_errors_transformOne b raw : Spec.type_errors (V2E.transformOne b raw).
Proof.
  assert (forall o, Spec.type_errors
            (let! normalized := V2E.normalizeToTraining o in
             V2E.encode_and_scale b normalized)) as H.
  { intros o. apply type_errors_bind; [apply type_errors_normalizeToTraining|].
    intros n. unfold V2E.encode_and_scale. cbv zeta.
    apply type_errors_bind; [|intros out; apply type_errors_apply_scaler].
    apply type_errors_fill. intros col. apply type_errors_cell. }
  destruct raw; try apply H; intros e [= <-]; eexists; reflexivity.
Qed.

Lemma type_errors_map_throw {A B} (f : A -> result B) l :
  (forall x, Spec.type_errors (f x)) -> Spec.type_errors (map_throw f l).
Proof.
  intros Hf. induction l as [|x l IH]; simpl.
  - apply type_errors_Ok.
  - apply type_errors_bind; [apply Hf|]. intros y.
    apply type_errors_bind; [exact IH | intros ys; apply type_errors_Ok].
Qed.

(** One element on which [f] throws makes the whole map throw. *)
Lemma map_throw_fails {A B} (f : A -> result B) l x :
  In x l -> (forall y, f x <> Ok y) -> exists e, map_throw f l = Throw e.
Proof.
  intros Hin Hx. induction l as [|z l IH]; [contradiction Hin|]. simpl.
  destruct (f z) as [y|e] eqn:Hz; simpl; [|eauto].
  destruct Hin as [->|Hin]; [exfalso; exact (Hx y Hz)|].
  destruct (IH Hin) as [e ->]. simpl. eauto.
Qed.

Lemma cell_returns_read b raw col :
  convertible (V1.read raw col) = true ->
  V1E.cell b raw col = Ok (V1.cell b raw col).
Proof.
  intros Hv. unfold V1E.cell, V1.cell. destruct (encoder_of b col).
  - apply encodeCategorical_returns_V1, Hv.
  - rewrite toNumberOrZero_returns by exact Hv. reflexivity.
Qed.

(** X13.  A row that is [null] or [undefined] makes the batch of the
    second [preprocess.js] throw, as a whole, whatever the other rows; and
    whatever that batch throws on an array is a [TypeError] (a [null] row,
    or a member that does not convert).  The first [preprocess.js] returns
    a vector for a [null] row, when the indices of the bundle convert: it
    reads the row like the empty record, as long as no feature bears the
    name of an inherited member. *)
Theorem transformBatch_null_rows (b : bundle) (items : list value) :
  (existsb nullish items = true ->
   exists msg, V2E.transformBatch b (VArray items) = Throw (TypeError msg)) /\
  (forall e, V2E.transformBatch b (VArray items) = Throw e ->
   exists msg, e = TypeError msg) /\
  (Spec.convertible_bundle b = true ->
   V1E.transformOne b VNull = Ok (V1.transformOne b VNull) /\
   V1E.transformOne b VUndefined = Ok (V1.transformOne b VNull) /\
   (existsb inherited (selected_features b) = false ->
    V1E.transformOne b VNull = V1E.transformOne b (VObject []))).
Proof.
  assert (forall e, V2E.transformBatch b (VArray items) = Throw e ->
                    exists msg, e = TypeError msg) as Hte
    by (apply type_errors_map_throw; intros x; apply type_errors_transformOne).
  split; [|split; [exact Hte|]].
  - intros Hn. apply existsb_exists in Hn as [x [Hin Hx]].
    destruct (map_throw_fails (V2E.transformOne b) items x Hin) as [e He].
    { destruct x; try discriminate Hx; intros y Hy; discriminate Hy. }
    destruct (Hte e He) as [msg ->]. exists msg. exact He.
  - intros Hb.
    assert (forall raw, (forall col, convertible (V1.read raw col) = true) ->
              V1E.transformOne b raw = Ok (V1.transformOne b raw)) as Hret.
    { intros raw Hraw. unfold V1E.transformOne, V1.transformOne. cbv zeta.
      rewrite (fill_returns _ (V1.cell b raw))
        by (intros col _; apply cell_returns_read, Hraw).
      simpl. apply apply_scaler_returns.
      rewrite fill_fresh. apply forallb_map_all. intros col.
      apply cell_convertible_V1, Hb. }
    split; [apply Hret; reflexivity|].
    split; [rewrite (Hret VUndefined) by reflexivity; reflexivity|].
    intros Hinh. rewrite (Hret VNull) by reflexivity.
    rewrite (Hret (VObject [])) by (intros col; apply convertible_get; reflexivity).
    f_equal. unfold V1.transformOne. rewrite !fill_fresh. f_equal.
    apply map_ext_in. intros col Hcol.
    assert (inherited col = false) as Hc.
    { destruct (inherited col) eqn:Hc; [|reflexivity].
      rewrite <- Hinh. symmetry. apply existsb_exists. eauto. }
    unfold V1.cell, V1.read, get. simpl. rewrite Hc. reflexivity.
Qed.

Lemma transformBatch_null_rows_witness :
  existsb nullish [VObject [("gender", VString "A")]; VNull] = true /\
  (exists msg,
     V2E.transformBatch Spec.example_bundle (VArray [VObject [("gender", VString "A")]; VNull])
       = Throw (TypeError msg)) /\
  Spec.convertible_bundle Spec.example_bundle = true /\
  V1E.transformOne Spec.example_bundle VNull = Ok [VNumber (of_Z 2)].
Proof.
  split; [reflexivity|]. split.
  - apply (proj1 (transformBatch_null_rows Spec.example_bundle
                    [VObject [("gender", VString "A")]; VNull])).
    reflexivity.
  - split; [reflexivity|].
    rewrite (proj1 (proj2 (proj2 (transformBatch_null_rows Spec.example_bundle []))
                      eq_refl)).
    vm_compute. reflexivity.
Defined.

(** X21.  In a record that normalisation returns, the claim amount read
    from the key [claim_amount] of the user interface is never negative:
    everything but digits and dots is removed before the number is read,
    the sign with the currency symbols.  In [preprocess.js] the amount is
    then a finite number that is not negative (0 when the text left is no
    number); in [transformer.js] it is not negative either, and may be
    [NaN].  An amount of [-10] is normalised to [10]. *)
Theorem claim_amount_unsigned (raw : obj) :
  (forall normalized,
     V2E.normalizeToTraining raw = Ok normalized ->
     nullish (get raw "InscClaimAmtReimbursed") = true ->
     exists x, get normalized "InscClaimAmtReimbursed" = VNumber x /\
               finite x = true /\ Spec.negative x = false) /\
  (forall normalized,
     V3E.normalizeToTraining raw = Ok normalized ->
     exists x, get normalized "InscClaimAmtReimbursed" = VNumber x /\
               Spec.negative x = false) /\
  Spec.normalized_field [("claim_amount", VNumber num_neg_10)] "InscClaimAmtReimbursed"
    = Ok (VNumber num_10).
Proof.
  destruct (claim_amount_value_unsigned raw) as [H2 [H3 _]].
  split; [|split; [|vm_compute; reflexivity]].
  - intros n Hn Hk. rewrite (agrees_normalizeToTraining raw n Hn). apply H2, Hk.
  - intros n Hn. rewrite (agrees_normalizeToTraining_V3 raw n Hn). exact H3.
Qed.

Lemma claim_amount_unsigned_witness :
  V2E.normalizeToTraining [("claim_amount", VString "-$1,250.75")]
    = Ok (V2.normalizeToTraining [("claim_amount", VString "-$1,250.75")]) /\
  nullish (get [("claim_amount", VString "-$1,250.75")] "InscClaimAmtReimbursed") = true /\
  exists x, get (V2.normalizeToTraining [("claim_amount", VString "-$1,250.75")])
              "InscClaimAmtReimbursed" = VNumber x /\
            finite x = true /\ Spec.negative x = false.
Proof.
  assert (V2E.normalizeToTraining [("claim_amount", VString "-$1,250.75")]
          = Ok (V2.normalizeToTraining [("claim_amount", VString "-$1,250.75")])) as Hn
    by (apply normalizeToTraining_returns; reflexivity).
  split; [exact Hn|]. split; [reflexivity|].
  apply (proj1 (claim_amount_unsigned [("claim_amount", VString "-$1,250.75")]) _ Hn).
  reflexivity.
Defined.
